(** * myfs: a shallow embedding of the two in-memory file systems of the
    repository and the properties of their node-creating operations.

    [src/myfs.c] is a ramfs-style file system written against the
    fs_context mount API; [src/unnamed/part_000] is an older, debugfs-style
    module that builds a small tree at load time.  Both define functions of
    the same names, so each lives in a module of its own ([Myfs] and
    [Aufs]); the kernel services both call are modelled once, in
    [Kernel]. *)

From Stdlib Require Import ZArith Lia Ascii String.
From stdpp Require Import gmap strings list fin_maps.

Local Open Scope Z_scope.

(** ** Machine integers and the constants of <linux/stat.h>, <errno.h> *)

Module Num.

Definition wrap (w : Z) (x : Z) : Z := x mod 2 ^ w.
Definition u16 (x : Z) : Z := wrap 16 x.
Definition u32 (x : Z) : Z := wrap 32 x.
Definition UINT_MAX : Z := 2 ^ 32 - 1.

(** Value of one character as a digit of the given base, as the kernel's
    [_parse_integer] reads it (digits and lower-cased letters). *)
Definition digit_val (c : ascii) : option Z :=
  let n := Z.of_N (Ascii.N_of_ascii c) in
  if (48 <=? n) && (n <=? 57) then Some (n - 48)
  else if (97 <=? n) && (n <=? 102) then Some (n - 87)
  else if (65 <=? n) && (n <=? 70) then Some (n - 55)
  else None.

Fixpoint parse_digits (base : Z) (acc : Z) (s : string) : option Z :=
  match s with
  | EmptyString => Some acc
  | String c rest =>
      match digit_val c with
      | Some d => if d <? base then parse_digits base (acc * base + d) rest
                  else None
      | None => None
      end
  end.

(** Octal literal, for the constants the sources write with a leading 0. *)
Definition oct (s : string) : Z :=
  match parse_digits 8 0 s with Some v => v | None => 0 end.

Fixpoint octal_digits (fuel : nat) (n : Z) (acc : string) : string :=
  match fuel with
  | O => acc
  | S fuel' =>
      let acc' := String (Ascii.ascii_of_N (Z.to_N (48 + n mod 8))) acc in
      if n / 8 =? 0 then acc' else octal_digits fuel' (n / 8) acc'
  end.

(** printf's [%o] for a non-negative value. *)
Definition fmt_o (n : Z) : string := octal_digits (S (Z.to_nat (Z.log2 n))) n "".

Fixpoint decimal_digits (fuel : nat) (n : Z) (acc : string) : string :=
  match fuel with
  | O => acc
  | S fuel' =>
      let acc' := String (Ascii.ascii_of_N (Z.to_N (48 + n mod 10))) acc in
      if n / 10 =? 0 then acc' else decimal_digits fuel' (n / 10) acc'
  end.

(** printf's [%llu] for a non-negative value. *)
Definition fmt_u (n : Z) : string := decimal_digits (S (Z.to_nat (Z.log2 n))) n "".

End Num.

Module Stat.
Import Num.

Definition S_IFMT   : Z := Eval vm_compute in oct "170000".
Definition S_IFSOCK : Z := Eval vm_compute in oct "140000".
Definition S_IFLNK  : Z := Eval vm_compute in oct "120000".
Definition S_IFREG  : Z := Eval vm_compute in oct "100000".
Definition S_IFBLK  : Z := Eval vm_compute in oct "060000".
Definition S_IFDIR  : Z := Eval vm_compute in oct "040000".
Definition S_IFCHR  : Z := Eval vm_compute in oct "020000".
Definition S_IFIFO  : Z := Eval vm_compute in oct "010000".
Definition S_ISUID  : Z := Eval vm_compute in oct "4000".
Definition S_ISGID  : Z := Eval vm_compute in oct "2000".
Definition S_ISVTX  : Z := Eval vm_compute in oct "1000".
Definition S_IRWXU  : Z := Eval vm_compute in oct "700".
Definition S_IXGRP  : Z := Eval vm_compute in oct "010".
Definition S_IRWXUGO : Z := Eval vm_compute in oct "777".
Definition S_IALLUGO : Z := Eval vm_compute in oct "7777".
Definition S_IRUGO  : Z := Eval vm_compute in oct "444".
Definition S_IXUGO  : Z := Eval vm_compute in oct "111".

Definition S_ISDIR (m : Z) : bool := Z.land m S_IFMT =? S_IFDIR.
Definition S_ISREG (m : Z) : bool := Z.land m S_IFMT =? S_IFREG.
Definition S_ISLNK (m : Z) : bool := Z.land m S_IFMT =? S_IFLNK.
Definition S_ISCHR (m : Z) : bool := Z.land m S_IFMT =? S_IFCHR.
Definition S_ISBLK (m : Z) : bool := Z.land m S_IFMT =? S_IFBLK.
Definition S_ISFIFO (m : Z) : bool := Z.land m S_IFMT =? S_IFIFO.
Definition S_ISSOCK (m : Z) : bool := Z.land m S_IFMT =? S_IFSOCK.

End Stat.

Module Errno.
Definition EPERM : Z := 1.
Definition ENOMEM : Z := 12.
Definition EACCES : Z := 13.
Definition EFAULT : Z := 14.
Definition EEXIST : Z := 17.
Definition EINVAL : Z := 22.
Definition ENOSPC : Z := 28.
Definition ERANGE : Z := 34.
Definition ENAMETOOLONG : Z := 36.
Definition ENOPARAM : Z := 519.
End Errno.

(** ** The kernel services the two modules call

    Inodes and dentries live in two heaps addressed by index; a pointer is
    NULL, an address, or an error value in the [ERR_PTR] encoding.  A
    dereference of anything but a live address is a kernel oops, which ends
    the computation.  Allocation failure is decided by per-cache budgets
    carried in the state, the clock and the credentials of [current] are
    state components as well. *)

Module Kernel.
Import Num Stat Errno.

Inductive ptr : Type :=
  | NULL
  | Ptr (a : nat)
  | ERR_PTR (e : Z).

Definition IS_ERR (p : ptr) : bool :=
  match p with ERR_PTR _ => true | _ => false end.

Definition PTR_ERR (p : ptr) : Z :=
  match p with ERR_PTR e => e | _ => 0 end.

Definition is_null (p : ptr) : bool :=
  match p with NULL => true | _ => false end.

(** Operation tables are known by name: a tag per table an inode can
    point to ([&myfs_dir_inode_operations] is [myfs_dir_iops], and so on). *)
Inductive inode_ops : Type :=
  | empty_iops
  | myfs_file_iops
  | myfs_dir_iops
  | page_symlink_iops
  | simple_dir_iops.

Inductive file_ops : Type :=
  | no_open_fops
  | myfs_file_fops
  | simple_dir_fops
  | def_chr_fops
  | def_blk_fops
  | pipefifo_fops
  | caller_fops (id : nat).

Inductive aops : Type := empty_aops | ram_aops.

Inductive gfp : Type := GFP_HIGHUSER_MOVABLE | GFP_HIGHUSER | GFP_USER.

Record address_space : Type := mk_mapping {
  a_ops : aops;
  gfp_mask : gfp;
  unevictable : bool;
  page0 : option string
}.

Record inode : Type := mk_inode {
  i_ino : Z;
  i_sb : nat;
  i_mode : Z;
  i_uid : Z;
  i_gid : Z;
  i_nlink : Z;
  i_rdev : Z;
  i_blocks : Z;
  i_atime : Z;
  i_mtime : Z;
  i_ctime : Z;
  i_op : inode_ops;
  i_fop : file_ops;
  i_mapping : address_space
}.

Record dentry : Type := mk_dentry {
  d_name : string;
  d_parent : nat;
  d_inode : ptr;
  d_count : Z
}.

Record cred : Type := mk_cred {
  fsuid : Z;
  fsgid : Z;
  groups : list Z;
  cap_fsetid : bool
}.

Record kstate : Type := mk_kstate {
  inodes : list (option inode);
  dentries : list dentry;
  dcache : gmap (nat * string) nat;
  inode_slab : nat;
  dentry_slab : nat;
  page_pool : nat;
  kmalloc_pool : nat;
  last_ino : Z;
  now : Z;
  current : cred
}.

(** *** Field updates *)

Definition set_a_ops v (m : address_space) :=
  mk_mapping v (gfp_mask m) (unevictable m) (page0 m).
Definition set_gfp_mask v (m : address_space) :=
  mk_mapping (a_ops m) v (unevictable m) (page0 m).
Definition set_unevictable v (m : address_space) :=
  mk_mapping (a_ops m) (gfp_mask m) v (page0 m).
Definition set_page0 v (m : address_space) :=
  mk_mapping (a_ops m) (gfp_mask m) (unevictable m) v.

Definition set_i_ino v (i : inode) :=
  mk_inode v (i_sb i) (i_mode i) (i_uid i) (i_gid i) (i_nlink i) (i_rdev i)
    (i_blocks i) (i_atime i) (i_mtime i) (i_ctime i) (i_op i) (i_fop i) (i_mapping i).
Definition set_i_mode v (i : inode) :=
  mk_inode (i_ino i) (i_sb i) v (i_uid i) (i_gid i) (i_nlink i) (i_rdev i)
    (i_blocks i) (i_atime i) (i_mtime i) (i_ctime i) (i_op i) (i_fop i) (i_mapping i).
Definition set_i_uid v (i : inode) :=
  mk_inode (i_ino i) (i_sb i) (i_mode i) v (i_gid i) (i_nlink i) (i_rdev i)
    (i_blocks i) (i_atime i) (i_mtime i) (i_ctime i) (i_op i) (i_fop i) (i_mapping i).
Definition set_i_gid v (i : inode) :=
  mk_inode (i_ino i) (i_sb i) (i_mode i) (i_uid i) v (i_nlink i) (i_rdev i)
    (i_blocks i) (i_atime i) (i_mtime i) (i_ctime i) (i_op i) (i_fop i) (i_mapping i).
Definition set_i_nlink v (i : inode) :=
  mk_inode (i_ino i) (i_sb i) (i_mode i) (i_uid i) (i_gid i) v (i_rdev i)
    (i_blocks i) (i_atime i) (i_mtime i) (i_ctime i) (i_op i) (i_fop i) (i_mapping i).
Definition set_i_rdev v (i : inode) :=
  mk_inode (i_ino i) (i_sb i) (i_mode i) (i_uid i) (i_gid i) (i_nlink i) v
    (i_blocks i) (i_atime i) (i_mtime i) (i_ctime i) (i_op i) (i_fop i) (i_mapping i).
Definition set_i_blocks v (i : inode) :=
  mk_inode (i_ino i) (i_sb i) (i_mode i) (i_uid i) (i_gid i) (i_nlink i) (i_rdev i)
    v (i_atime i) (i_mtime i) (i_ctime i) (i_op i) (i_fop i) (i_mapping i).
Definition set_i_atime v (i : inode) :=
  mk_inode (i_ino i) (i_sb i) (i_mode i) (i_uid i) (i_gid i) (i_nlink i) (i_rdev i)
    (i_blocks i) v (i_mtime i) (i_ctime i) (i_op i) (i_fop i) (i_mapping i).
Definition set_i_mtime v (i : inode) :=
  mk_inode (i_ino i) (i_sb i) (i_mode i) (i_uid i) (i_gid i) (i_nlink i) (i_rdev i)
    (i_blocks i) (i_atime i) v (i_ctime i) (i_op i) (i_fop i) (i_mapping i).
Definition set_i_ctime v (i : inode) :=
  mk_inode (i_ino i) (i_sb i) (i_mode i) (i_uid i) (i_gid i) (i_nlink i) (i_rdev i)
    (i_blocks i) (i_atime i) (i_mtime i) v (i_op i) (i_fop i) (i_mapping i).
Definition set_i_op v (i : inode) :=
  mk_inode (i_ino i) (i_sb i) (i_mode i) (i_uid i) (i_gid i) (i_nlink i) (i_rdev i)
    (i_blocks i) (i_atime i) (i_mtime i) (i_ctime i) v (i_fop i) (i_mapping i).
Definition set_i_fop v (i : inode) :=
  mk_inode (i_ino i) (i_sb i) (i_mode i) (i_uid i) (i_gid i) (i_nlink i) (i_rdev i)
    (i_blocks i) (i_atime i) (i_mtime i) (i_ctime i) (i_op i) v (i_mapping i).
Definition set_i_mapping v (i : inode) :=
  mk_inode (i_ino i) (i_sb i) (i_mode i) (i_uid i) (i_gid i) (i_nlink i) (i_rdev i)
    (i_blocks i) (i_atime i) (i_mtime i) (i_ctime i) (i_op i) (i_fop i) v.

Definition set_d_name v (d : dentry) := mk_dentry v (d_parent d) (d_inode d) (d_count d).
Definition set_d_inode v (d : dentry) := mk_dentry (d_name d) (d_parent d) v (d_count d).
Definition set_d_count v (d : dentry) := mk_dentry (d_name d) (d_parent d) (d_inode d) v.

Definition set_inodes v (s : kstate) :=
  mk_kstate v (dentries s) (dcache s) (inode_slab s) (dentry_slab s)
    (page_pool s) (kmalloc_pool s) (last_ino s) (now s) (current s).
Definition set_dentries v (s : kstate) :=
  mk_kstate (inodes s) v (dcache s) (inode_slab s) (dentry_slab s)
    (page_pool s) (kmalloc_pool s) (last_ino s) (now s) (current s).
Definition set_dcache v (s : kstate) :=
  mk_kstate (inodes s) (dentries s) v (inode_slab s) (dentry_slab s)
    (page_pool s) (kmalloc_pool s) (last_ino s) (now s) (current s).
Definition set_inode_slab v (s : kstate) :=
  mk_kstate (inodes s) (dentries s) (dcache s) v (dentry_slab s)
    (page_pool s) (kmalloc_pool s) (last_ino s) (now s) (current s).
Definition set_dentry_slab v (s : kstate) :=
  mk_kstate (inodes s) (dentries s) (dcache s) (inode_slab s) v
    (page_pool s) (kmalloc_pool s) (last_ino s) (now s) (current s).
Definition set_page_pool v (s : kstate) :=
  mk_kstate (inodes s) (dentries s) (dcache s) (inode_slab s) (dentry_slab s)
    v (kmalloc_pool s) (last_ino s) (now s) (current s).
Definition set_kmalloc_pool v (s : kstate) :=
  mk_kstate (inodes s) (dentries s) (dcache s) (inode_slab s) (dentry_slab s)
    (page_pool s) v (last_ino s) (now s) (current s).
Definition set_last_ino v (s : kstate) :=
  mk_kstate (inodes s) (dentries s) (dcache s) (inode_slab s) (dentry_slab s)
    (page_pool s) (kmalloc_pool s) v (now s) (current s).

Definition set_now v (s : kstate) :=
  mk_kstate (inodes s) (dentries s) (dcache s) (inode_slab s) (dentry_slab s)
    (page_pool s) (kmalloc_pool s) (last_ino s) v (current s).

(** *** Computations over the kernel state that may oops *)

Inductive res (A : Type) : Type :=
  | Ok (a : A) (s : kstate)
  | Oops.
Arguments Ok {A} a s.
Arguments Oops {A}.

Definition K (A : Type) : Type := kstate -> res A.

Definition ret {A} (a : A) : K A := fun s => Ok a s.
Definition bind {A B} (m : K A) (f : A -> K B) : K B :=
  fun s => match m s with
           | Ok a s' => f a s'
           | Oops => Oops
           end.
Definition oops {A} : K A := fun _ => Oops.
Definition gets {A} (f : kstate -> A) : K A := fun s => Ok (f s) s.
Definition modify (f : kstate -> kstate) : K unit := fun s => Ok tt (f s).

Notation "'do' x <- m ; k" := (bind m (fun x => k))
  (at level 10, x name, m at level 100, k at level 200).
Notation "'do' ' p <- m ; k" := (bind m (fun x => let 'p := x in k))
  (at level 10, p pattern, m at level 100, k at level 200).
Notation "m ;; k" := (bind m (fun _ => k))
  (at level 100, k at level 200, right associativity).

(** *** Heap access *)

(** [*p] for an inode pointer: an oops unless [p] is the address of a live
    inode. *)
Definition inode_at (s : kstate) (p : ptr) : option inode :=
  match p with
  | Ptr a => mjoin (inodes s !! a)
  | _ => None
  end.

Definition dentry_at (s : kstate) (p : ptr) : option dentry :=
  match p with
  | Ptr a => dentries s !! a
  | _ => None
  end.

Definition load_inode (p : ptr) : K inode := fun s =>
  match inode_at s p with
  | Some i => Ok i s
  | None => Oops
  end.

Definition load_dentry (p : ptr) : K dentry := fun s =>
  match dentry_at s p with
  | Some d => Ok d s
  | None => Oops
  end.

Definition store_inode (p : ptr) (i : inode) : K unit := fun s =>
  match p, inode_at s p with
  | Ptr a, Some _ => Ok tt (set_inodes (<[a := Some i]> (inodes s)) s)
  | _, _ => Oops
  end.

Definition store_dentry (p : ptr) (d : dentry) : K unit := fun s =>
  match p, dentry_at s p with
  | Ptr a, Some _ => Ok tt (set_dentries (<[a := d]> (dentries s)) s)
  | _, _ => Oops
  end.

(** [p->field = ...], as a read-modify-write of the whole object. *)
Definition update_inode (p : ptr) (f : inode -> inode) : K unit :=
  do i <- load_inode p; store_inode p (f i).

Definition update_dentry (p : ptr) (f : dentry -> dentry) : K unit :=
  do d <- load_dentry p; store_dentry p (f d).

(** The states these leave behind, named for use in statements:
    after [*p = i] on a live inode or dentry. *)
Definition put_inode (a : nat) (i : inode) (s : kstate) : kstate :=
  set_inodes (<[a := Some i]> (inodes s)) s.

Definition put_dentry (a : nat) (d : dentry) (s : kstate) : kstate :=
  set_dentries (<[a := d]> (dentries s)) s.

(** *** Time and identity *)

Definition current_time : K Z := gets now.

(** [get_next_ino]: a 32-bit counter that never hands out 0. *)
Definition get_next_ino : K Z := fun s =>
  let res := u32 (last_ino s + 1) in
  let res := if res =? 0 then 1 else res in
  Ok res (set_last_ino res s).

(** *** Inode allocation *)

(** The inode [new_inode] hands out, as [inode_init_always] leaves it: one
    link, the empty operation tables, a movable page-cache mapping. *)
Definition fresh_inode (sb : nat) : inode :=
  {| i_ino := 0; i_sb := sb; i_mode := 0; i_uid := 0; i_gid := 0;
     i_nlink := 1; i_rdev := 0; i_blocks := 0;
     i_atime := 0; i_mtime := 0; i_ctime := 0;
     i_op := empty_iops; i_fop := no_open_fops;
     i_mapping := {| a_ops := empty_aops; gfp_mask := GFP_HIGHUSER_MOVABLE;
                     unevictable := false; page0 := None |} |}.

Definition new_inode (sb : nat) : K ptr := fun s =>
  match inode_slab s with
  | O => Ok NULL s
  | S n =>
      let a := length (inodes s) in
      Ok (Ptr a) (set_inode_slab n (set_inodes (inodes s ++ [Some (fresh_inode sb)]) s))
  end.

(** The state in which one more inode, [i], has been handed out and the
    inode-number counter stands at [ino]. *)
Definition allocated (n : nat) (ino : Z) (i : inode) (s : kstate) : kstate :=
  set_last_ino ino (set_inode_slab n (set_inodes (inodes s ++ [Some i]) s)).

(** [new_inode] of the 2.6 kernels, which also numbers the inode from
    its own counter. *)
Definition new_inode_2_6 (sb : nat) : K ptr :=
  do p <- new_inode sb;
  match p with
  | Ptr _ =>
      do n <- gets last_ino;
      modify (set_last_ino (u32 (n + 1))) ;;
      update_inode p (set_i_ino (u32 (n + 1))) ;;
      ret p
  | _ => ret p
  end.

(** [iput] on an inode nobody else holds: the super block's [drop_inode]
    is [generic_delete_inode], so the inode is evicted and its slot
    freed. *)
Definition iput (p : ptr) : K unit := fun s =>
  match p, inode_at s p with
  | Ptr a, Some _ =>
      Ok tt (set_inode_slab (S (inode_slab s)) (set_inodes (<[a := None]> (inodes s)) s))
  | NULL, _ => Ok tt s
  | _, _ => Oops
  end.

Definition inc_nlink (p : ptr) : K unit :=
  update_inode p (fun i => set_i_nlink (u32 (i_nlink i + 1)) i).

Definition drop_nlink (p : ptr) : K unit :=
  update_inode p (fun i => set_i_nlink (u32 (i_nlink i - 1)) i).

Definition inode_dec_link_count (p : ptr) : K unit := drop_nlink p.

Definition in_group_p (c : cred) (g : Z) : bool :=
  (g =? fsgid c) || existsb (Z.eqb g) (groups c).

(** [inode_init_owner]: owner from [current], group and set-group-id bit
    inherited from a set-group-id parent. *)
Definition inode_init_owner (p : ptr) (dir : ptr) (mode : Z) : K unit :=
  do c <- gets current;
  update_inode p (set_i_uid (fsuid c)) ;;
  do mode' <-
    match dir with
    | NULL =>
        update_inode p (set_i_gid (fsgid c)) ;; ret mode
    | _ =>
        do d <- load_inode dir;
        if negb (Z.land (i_mode d) S_ISGID =? 0) then
          update_inode p (set_i_gid (i_gid d)) ;;
          if S_ISDIR mode then ret (Z.lor mode S_ISGID)
          else if (Z.land mode (Z.lor S_ISGID S_IXGRP) =? Z.lor S_ISGID S_IXGRP)
                  && negb (in_group_p c (i_gid d)) && negb (cap_fsetid c)
               then ret (Z.land mode (Z.lnot S_ISGID))
               else ret mode
        else
          update_inode p (set_i_gid (fsgid c)) ;; ret mode
    end;
  update_inode p (set_i_mode (u16 mode')).

Definition init_special_inode (p : ptr) (mode : Z) (rdev : Z) : K unit :=
  update_inode p (set_i_mode (u16 mode)) ;;
  if S_ISCHR (u16 mode) then
    update_inode p (fun i => set_i_rdev rdev (set_i_fop def_chr_fops i))
  else if S_ISBLK (u16 mode) then
    update_inode p (fun i => set_i_rdev rdev (set_i_fop def_blk_fops i))
  else if S_ISFIFO (u16 mode) then
    update_inode p (set_i_fop pipefifo_fops)
  else ret tt.

Definition mapping_set_gfp_mask (p : ptr) (g : gfp) : K unit :=
  update_inode p (fun i => set_i_mapping (set_gfp_mask g (i_mapping i)) i).

Definition mapping_set_unevictable (p : ptr) : K unit :=
  update_inode p (fun i => set_i_mapping (set_unevictable true (i_mapping i)) i).

Definition inode_nohighmem (p : ptr) : K unit := mapping_set_gfp_mask p GFP_USER.

(** [page_symlink]: the body goes into the first page of the mapping; the
    only failure is the page allocation. *)
Definition page_symlink (p : ptr) (symname : string) (len : Z) : K Z := fun s =>
  match page_pool s with
  | O => Ok (- ENOMEM) s
  | S n =>
      (update_inode p (fun i => set_i_mapping (set_page0 (Some symname) (i_mapping i)) i) ;;
       ret 0) (set_page_pool n s)
  end.

(** *** The dentry cache *)

Definition NAME_MAX : Z := 255.
Definition DNAME_INLINE_LEN : Z := 32.

Definition strlen (s : string) : Z := Z.of_nat (String.length s).

(** A dentry is hashed when the cache maps its parent and name to it. *)
Definition d_hashed (s : kstate) (a : nat) (d : dentry) : bool :=
  bool_decide (dcache s !! (d_parent d, d_name d) = Some a).

Definition IS_ROOT (a : nat) (d : dentry) : bool := bool_decide (d_parent d = a).

Definition d_unlinked (s : kstate) (a : nat) (d : dentry) : bool :=
  negb (d_hashed s a d) && negb (IS_ROOT a d).

Definition dget (p : ptr) : K unit :=
  match p with
  | NULL => ret tt
  | _ => update_dentry p (fun d => set_d_count (d_count d + 1) d)
  end.

(** [d_instantiate]: attaching an inode to a dentry that already has one
    is a BUG. *)
Definition d_instantiate (entry : ptr) (inode : ptr) : K unit :=
  do d <- load_dentry entry;
  if negb (is_null (d_inode d)) then oops
  else
    match inode with
    | NULL => ret tt
    | _ => load_inode inode ;; store_dentry entry (set_d_inode inode d)
    end.

(** [d_alloc]: a negative, unhashed child that pins its parent. *)
Definition d_alloc (parent : ptr) (name : string) : K ptr := fun s =>
  match parent, dentry_at s parent, dentry_slab s with
  | Ptr pa, Some _, S n =>
      let a := length (dentries s) in
      let d := {| d_name := name; d_parent := pa; d_inode := NULL; d_count := 1 |} in
      (dget parent ;; ret (Ptr a))
        (set_dentry_slab n (set_dentries (dentries s ++ [d]) s))
  | Ptr _, Some _, O => Ok NULL s
  | _, _, _ => Oops
  end.

(** [d_alloc_anon]: a root-style dentry, its own parent, named "/". *)
Definition d_alloc_anon : K ptr := fun s =>
  match dentry_slab s with
  | S n =>
      let a := length (dentries s) in
      let d := {| d_name := "/"; d_parent := a; d_inode := NULL; d_count := 1 |} in
      Ok (Ptr a) (set_dentry_slab n (set_dentries (dentries s ++ [d]) s))
  | O => Ok NULL s
  end.

(** [d_add (dentry, NULL)]: enter the dentry into the hash. *)
Definition d_add_negative (p : ptr) : K unit :=
  do d <- load_dentry p;
  match p with
  | Ptr a => modify (fun s => set_dcache (<[(d_parent d, d_name d) := a]> (dcache s)) s)
  | _ => oops
  end.

(** [d_lookup]: the hashed child of that name, with a reference taken. *)
Definition d_lookup (parent : ptr) (name : string) : K ptr :=
  match parent with
  | Ptr pa =>
      do c <- gets dcache;
      match c !! (pa, name) with
      | Some a => dget (Ptr a) ;; ret (Ptr a)
      | None => ret NULL
      end
  | _ => oops
  end.

Definition d_make_root (root_inode : ptr) : K ptr :=
  match root_inode with
  | NULL => ret NULL
  | _ =>
      load_inode root_inode ;;
      do res <- d_alloc_anon;
      match res with
      | NULL => iput root_inode ;; ret NULL
      | _ => d_instantiate res root_inode ;; ret res
      end
  end.

(** [d_tmpfile]: drop the link the fresh inode was born with, rename the
    dentry after the inode number and attach the inode.  The dentry has to
    carry an inline name, no inode, and be unhashed and not a root. *)
Definition d_tmpfile (dentry : ptr) (inode : ptr) : K unit :=
  inode_dec_link_count inode ;;
  do d <- load_dentry dentry;
  do s <- gets id;
  match dentry with
  | Ptr a =>
      if (DNAME_INLINE_LEN <=? strlen (d_name d))
         || negb (is_null (d_inode d))
         || negb (d_unlinked s a d)
      then oops
      else
        do i <- load_inode inode;
        store_dentry dentry (set_d_name ("#" +:+ fmt_u (i_ino i)) d) ;;
        d_instantiate dentry inode
  | _ => oops
  end.

(** *** Name lookup of the 2.6 kernels *)

Definition has_lookup (o : inode_ops) : bool :=
  match o with
  | simple_dir_iops | myfs_dir_iops => true
  | _ => false
  end.

Fixpoint name_has_separator (s : string) : bool :=
  match s with
  | EmptyString => false
  | String c rest =>
      (Ascii.eqb c "/" || Ascii.eqb c "000")%bool || name_has_separator rest
  end.

Definition __lookup_one_len (name : string) (len : Z) : Z :=
  if len =? 0 then - EACCES
  else if name_has_separator name then - EACCES
  else 0.

(** [simple_lookup]: hashes the new dentry as a negative one. *)
Definition simple_lookup (dentry : ptr) : K ptr :=
  do d <- load_dentry dentry;
  if NAME_MAX <? strlen (d_name d) then ret (ERR_PTR (- ENAMETOOLONG))
  else d_add_negative dentry ;; ret NULL.

(** Search permission on the base for a caller holding CAP_DAC_OVERRIDE
    (module initialisation runs as root): directories always, other inodes
    when some execute bit is set. *)
Definition may_exec (i : inode) : Z :=
  if S_ISDIR (i_mode i) || negb (Z.land (i_mode i) S_IXUGO =? 0) then 0
  else - EACCES.

Definition __lookup_hash (name : string) (base : ptr) : K ptr :=
  do b <- load_dentry base;
  do inode <- load_inode (d_inode b);
  if negb (may_exec inode =? 0) then ret (ERR_PTR (may_exec inode))
  else
    do dentry <- d_lookup base name;
    match dentry with
    | NULL =>
        do new <- d_alloc base name;
        match new with
        | NULL => ret (ERR_PTR (- ENOMEM))
        | _ =>
            if has_lookup (i_op inode) then
              do r <- simple_lookup new;
              match r with
              | NULL => ret new
              | _ => ret r
              end
            else oops
        end
    | _ => ret dentry
    end.

Definition lookup_one_len (name : string) (base : ptr) (len : Z) : K ptr :=
  let err := __lookup_one_len name len in
  if negb (err =? 0) then ret (ERR_PTR err)
  else __lookup_hash name base.

(** *** What a name resolves to

    The read-only view used to state properties: the inode the cache
    binds to [name] under the dentry at address [dir], NULL for a
    negative entry. *)
Definition lookup (s : kstate) (dir : nat) (name : string) : option ptr :=
  a ← dcache s !! (dir, name); d ← dentries s !! a; Some (d_inode d).

(** *** Mount parameters: <linux/fs_parser.h> and kstrtox *)

Inductive fs_value_type : Type :=
  | fs_value_is_undefined
  | fs_value_is_flag
  | fs_value_is_string
  | fs_value_is_blob
  | fs_value_is_filename
  | fs_value_is_file.

Record fs_parameter : Type := mk_param {
  key : string;
  type : fs_value_type;
  string_ : string
}.

(** The [type] member of a parameter description: NULL for a flag, or one
    of the conversion functions. *)
Inductive fs_param_type : Type :=
  | fs_param_is_flag
  | fs_param_is_u32 (base : Z).

Record fs_parameter_spec : Type := mk_spec {
  name : string;
  ptype : fs_param_type;
  opt : Z;
  neg_with_no : bool
}.

Record fs_parse_result : Type := mk_result {
  negated : bool;
  boolean : bool;
  uint_32 : Z
}.

(** [_parse_integer]: the longest prefix of digits below the base, their
    value, and how many there were. *)
Fixpoint _parse_integer (base : Z) (s : string) (acc : Z) (rv : nat)
  : Z * nat * string :=
  match s with
  | EmptyString => (acc, rv, s)
  | String c rest =>
      match digit_val c with
      | Some d =>
          if d <? base then _parse_integer base rest (acc * base + d) (S rv)
          else (acc, rv, s)
      | None => (acc, rv, s)
      end
  end.

Definition ULLONG_MAX : Z := 2 ^ 64 - 1.

Definition _kstrtoull (s : string) (base : Z) : Z + Z :=
  let '(v, rv, rest) := _parse_integer base s 0 0 in
  if ULLONG_MAX <? v then inl (- ERANGE)
  else if Nat.eqb rv 0 then inl (- EINVAL)
  else
    let rest := match rest with
                | String "010" r => r
                | _ => rest
                end in
    match rest with
    | EmptyString => inr v
    | _ => inl (- EINVAL)
    end.

Definition kstrtoull (s : string) (base : Z) : Z + Z :=
  match s with
  | String "+" r => _kstrtoull r base
  | _ => _kstrtoull s base
  end.

(** [kstrtouint]: left is the negative errno, right the converted value. *)
Definition kstrtouint (s : string) (base : Z) : Z + Z :=
  match kstrtoull s base with
  | inl e => inl e
  | inr tmp => if tmp =? u32 tmp then inr tmp else inl (- ERANGE)
  end.

Definition is_flag (p : fs_parameter_spec) : bool :=
  match ptype p with fs_param_is_flag => true | _ => false end.

Definition fs_lookup_key (desc : list fs_parameter_spec) (param : fs_parameter)
  : option fs_parameter_spec * bool :=
  let want_flag := match type param with fs_value_is_flag => true | _ => false end in
  let named n := filter (fun p => name p = n) desc in
  match find (fun p => Bool.eqb (is_flag p) want_flag) (named (key param)) with
  | Some p => (Some p, false)
  | None =>
      let other := last (named (key param)) in
      let negation :=
        if want_flag then
          match key param with
          | String c0 (String c1 (String c2 r)) =>
              if Ascii.eqb c0 "n" && Ascii.eqb c1 "o"
              then head (filter (fun p => neg_with_no p = true) (named (String c2 r)))
              else None
          | _ => None
          end
        else None in
      match negation with
      | Some p => (Some p, true)
      | None => (other, false)
      end
  end.

(** [fs_parse]: the option number of the matching description, or a
    negative errno; [-ENOPARAM] when no description has the key. *)
Definition fs_parse (desc : list fs_parameter_spec) (param : fs_parameter)
  : Z * fs_parse_result :=
  match fs_lookup_key desc param with
  | (None, _) => (- ENOPARAM, mk_result false false 0)
  | (Some p, neg) =>
      match ptype p with
      | fs_param_is_flag =>
          match type param with
          | fs_value_is_flag => (opt p, mk_result neg (negb neg) (Z.b2z (negb neg)))
          | _ => (- EINVAL, mk_result neg false 0)
          end
      | fs_param_is_u32 base =>
          match type param with
          | fs_value_is_string =>
              match kstrtouint (string_ param) base with
              | inr v => (opt p, mk_result neg false v)
              | inl _ => (- EINVAL, mk_result neg false 0)
              end
          | _ => (- EINVAL, mk_result neg false 0)
          end
      end
  end.

(** *** States and relations used in statements *)

(** What an allocation under [mode] at state [s] hands out: link count 2
    for a directory and 1 otherwise, the file type of [mode], and the
    three times set to the clock. *)
Definition born (s : kstate) (mode : Z) (i : inode) : Prop :=
  i_nlink i = (if S_ISDIR mode then 2 else 1)
  /\ Z.land (i_mode i) S_IFMT = Z.land mode S_IFMT
  /\ i_atime i = now s /\ i_mtime i = now s /\ i_ctime i = now s.

(** The state after [d_alloc] of a child [name] under the dentry [b] at
    [pa], and after hashing the dentry at [a] under that parent and name. *)
Definition d_alloc_done (pa : nat) (b : dentry) (name : string) (n : nat)
    (s : kstate) : kstate :=
  put_dentry pa (set_d_count (d_count b + 1) b)
    (set_dentry_slab n
       (set_dentries
          (dentries s ++ [{| d_name := name; d_parent := pa; d_inode := NULL; d_count := 1 |}])
          s)).

Definition d_hash_done (pa : nat) (name : string) (a : nat) (s : kstate) : kstate :=
  set_dcache (<[(pa, name) := a]> (dcache s)) s.

(** The state after [d_make_root] on the inode at [x]. *)
Definition rooted (x : nat) (n : nat) (s : kstate) : kstate :=
  put_dentry (length (dentries s))
    {| d_name := "/"; d_parent := length (dentries s); d_inode := Ptr x; d_count := 1 |}
    (set_dentry_slab n
       (set_dentries
          (dentries s ++ [{| d_name := "/"; d_parent := length (dentries s);
                             d_inode := NULL; d_count := 1 |}]) s)).

(** [s2] keeps what [s1] has: every dentry keeps its name, its parent and,
    once it has one, its inode; every cache entry stays; every inode stays
    and keeps its mode.  Nothing has been removed. *)
Definition extends (s1 s2 : kstate) : Prop :=
  (forall a d, dentry_at s1 (Ptr a) = Some d ->
     exists d', dentry_at s2 (Ptr a) = Some d' /\ d_name d' = d_name d /\
                d_parent d' = d_parent d /\ (d_inode d <> NULL -> d_inode d' = d_inode d))
  /\ (forall k a, dcache s1 !! k = Some a -> dcache s2 !! k = Some a)
  /\ (forall a i, inode_at s1 (Ptr a) = Some i ->
        exists i', inode_at s2 (Ptr a) = Some i' /\ i_mode i' = i_mode i).

(** [name] under the directory dentry [pa] is the positive dentry [a]
    with inode [x], and the directory can be searched. *)
Definition bound (s : kstate) (pa : nat) (name : string) (a x : nat) : Prop :=
  dcache s !! (pa, name) = Some a
  /\ (exists de, dentry_at s (Ptr a) = Some de /\ d_inode de = Ptr x)
  /\ (exists b pi, dentry_at s (Ptr pa) = Some b /\ inode_at s (d_inode b) = Some pi
                   /\ may_exec pi = 0).

(** Well-formed states: every cache entry leads to a dentry of that parent
    and name, and no dentry points past the inode heap. *)
Definition dcache_ok (s : kstate) : bool :=
  forallb (fun '(k, a) =>
             match dentries s !! a with
             | Some d => bool_decide ((d_parent d, d_name d) = k)
             | None => false
             end)
          (map_to_list (dcache s)).

Definition no_dangling (s : kstate) : bool :=
  forallb (fun d => match d_inode d with
                    | Ptr x => bool_decide (x < length (inodes s))%nat
                    | _ => true
                    end)
          (dentries s).

Definition wf (s : kstate) : bool := dcache_ok s && no_dangling s.

End Kernel.

(** ** src/myfs.c *)

Module Myfs.
Import Num Stat Errno Kernel.

Record myfs_mount_opts : Type := mk_opts { mode : Z }.

Record myfs_fs_info : Type := mk_fsi { mount_opts : myfs_mount_opts }.

Definition RAMFS_DEFAULT_MODE : Z := Eval vm_compute in oct "755".

Definition myfs_get_inode (sb : nat) (dir : ptr) (mode : Z) (dev : Z) : K ptr :=
  do inode <- new_inode sb;
  match inode with
  | NULL => ret inode
  | _ =>
      do ino <- get_next_ino;
      update_inode inode (set_i_ino ino) ;;
      inode_init_owner inode dir mode ;;
      update_inode inode (fun i => set_i_mapping (set_a_ops ram_aops (i_mapping i)) i) ;;
      mapping_set_gfp_mask inode GFP_HIGHUSER ;;
      mapping_set_unevictable inode ;;
      do t <- current_time;
      update_inode inode (fun i => set_i_atime t (set_i_mtime t (set_i_ctime t i))) ;;
      (let fmt := Z.land mode S_IFMT in
       if fmt =? S_IFREG then
         update_inode inode
           (fun i => set_i_fop myfs_file_fops (set_i_op myfs_file_iops i))
       else if fmt =? S_IFDIR then
         update_inode inode
           (fun i => set_i_fop simple_dir_fops (set_i_op myfs_dir_iops i)) ;;
         (* directory inodes start off with i_nlink == 2 (for "." entry) *)
         inc_nlink inode
       else if fmt =? S_IFLNK then
         update_inode inode (set_i_op page_symlink_iops) ;;
         inode_nohighmem inode
       else
         init_special_inode inode mode dev) ;;
      ret inode
  end.

(** File creation. Allocate an inode, and we're done.. *)
Definition myfs_mknod (dir : ptr) (dentry : ptr) (mode : Z) (dev : Z) : K Z :=
  do d <- load_inode dir;
  do inode <- myfs_get_inode (i_sb d) dir mode dev;
  let error := - ENOSPC in
  match inode with
  | NULL => ret error
  | _ =>
      d_instantiate dentry inode ;;
      dget dentry ;;   (* Extra count - pin the dentry in core *)
      do t <- current_time;
      update_inode dir (fun i => set_i_mtime t (set_i_ctime t i)) ;;
      ret 0
  end.

(** [printk] of [dentry->d_iname]: the log is not modelled, the read of
    the dentry is. *)
Definition printk_d_iname (dentry : ptr) : K unit :=
  load_dentry dentry ;; ret tt.

Definition myfs_mkdir (dir : ptr) (dentry : ptr) (mode : Z) : K Z :=
  do retval <- myfs_mknod dir dentry (Z.lor mode S_IFDIR) 0;
  (if retval =? 0 then inc_nlink dir else ret tt) ;;
  printk_d_iname dentry ;;
  ret retval.

Definition myfs_create (dir : ptr) (dentry : ptr) (mode : Z) (excl : bool) : K Z :=
  do r <- myfs_mknod dir dentry (Z.lor mode S_IFREG) 0;
  printk_d_iname dentry ;;
  ret r.

Definition myfs_symlink (dir : ptr) (dentry : ptr) (symname : string) : K Z :=
  do d <- load_inode dir;
  do inode <- myfs_get_inode (i_sb d) dir (Z.lor S_IFLNK S_IRWXUGO) 0;
  match inode with
  | NULL => ret (- ENOSPC)
  | _ =>
      let l := strlen symname + 1 in
      do error <- page_symlink inode symname l;
      (if error =? 0 then
         d_instantiate dentry inode ;;
         dget dentry ;;
         do t <- current_time;
         update_inode dir (fun i => set_i_mtime t (set_i_ctime t i))
       else iput inode) ;;
      ret error
  end.

Definition myfs_tmpfile (dir : ptr) (dentry : ptr) (mode : Z) : K Z :=
  do d <- load_inode dir;
  do inode <- myfs_get_inode (i_sb d) dir mode 0;
  match inode with
  | NULL => ret (- ENOSPC)
  | _ => d_tmpfile dentry inode ;; ret 0
  end.

(** The entries of [myfs_dir_inode_operations] that the file implements
    itself.  The others (lookup, link, unlink, rmdir, rename) are the
    [simple_*] functions of libfs. *)
Inductive dir_op : Type :=
  | op_create (mode : Z) (excl : bool)
  | op_symlink (symname : string)
  | op_mkdir (mode : Z)
  | op_mknod (mode : Z) (dev : Z)
  | op_tmpfile (mode : Z).

Definition myfs_dir_inode_operations (o : dir_op) (dir : ptr) (dentry : ptr) : K Z :=
  match o with
  | op_create mode excl => myfs_create dir dentry mode excl
  | op_symlink symname => myfs_symlink dir dentry symname
  | op_mkdir mode => myfs_mkdir dir dentry mode
  | op_mknod mode dev => myfs_mknod dir dentry mode dev
  | op_tmpfile mode => myfs_tmpfile dir dentry mode
  end.

(** Display the mount options in /proc/mounts: the return value and the
    text appended to the seq_file. *)
Definition myfs_show_options (m : string) (fsi : myfs_fs_info) : Z * string :=
  if negb (mode (mount_opts fsi) =? RAMFS_DEFAULT_MODE)
  then (0, m +:+ ",mode=" +:+ fmt_o (mode (mount_opts fsi)))
  else (0, m).

Definition Opt_mode : Z := 0.

Definition myfs_fs_parameters : list fs_parameter_spec :=
  [ {| name := "mode"; ptype := fs_param_is_u32 8; opt := Opt_mode; neg_with_no := false |} ].

Record fs_context : Type := mk_fc {
  s_fs_info : option myfs_fs_info;
  ops_set : bool
}.

(** [fc->s_fs_info] is dereferenced without a check, so the function is
    partial: [None] stands for the oops on a context without info. *)
Definition myfs_parse_param (fc : fs_context) (param : fs_parameter)
  : option (Z * fs_context) :=
  match s_fs_info fc with
  | None => None
  | Some fsi =>
      let '(opt, result) := fs_parse myfs_fs_parameters param in
      if opt <? 0 then
        (* traditionally myfs has ignored all mount options *)
        let opt := if opt =? - ENOPARAM then 0 else opt in
        Some (opt, fc)
      else
        let fsi' :=
          if opt =? Opt_mode
          then mk_fsi (mk_opts (u16 (Z.land (uint_32 result) S_IALLUGO)))
          else fsi in
        Some (0, mk_fc (Some fsi') (ops_set fc))
  end.

Inductive super_ops : Type := no_super_ops | myfs_ops.

Record super_block : Type := mk_sb {
  sb_fs_info : option myfs_fs_info;
  s_maxbytes : Z;
  s_blocksize : Z;
  s_blocksize_bits : Z;
  s_magic : Z;
  s_op : super_ops;
  s_time_gran : Z;
  s_root : ptr
}.

Definition MAX_LFS_FILESIZE : Z := 2 ^ 63 - 1.
Definition PAGE_SHIFT : Z := 12.
Definition PAGE_SIZE : Z := 2 ^ PAGE_SHIFT.
Definition RAMFS_MAGIC : Z := 0x858458f6.

Definition myfs_fill_super (sbid : nat) (sb : super_block) (fc : fs_context)
  : K (Z * super_block) :=
  match sb_fs_info sb with
  | None => oops
  | Some fsi =>
      do inode <- myfs_get_inode sbid NULL (Z.lor S_IFDIR (mode (mount_opts fsi))) 0;
      do root <- d_make_root inode;
      let sb' := {| sb_fs_info := sb_fs_info sb;
                    s_maxbytes := MAX_LFS_FILESIZE;
                    s_blocksize := PAGE_SIZE;
                    s_blocksize_bits := PAGE_SHIFT;
                    s_magic := RAMFS_MAGIC;
                    s_op := myfs_ops;
                    s_time_gran := 1;
                    s_root := root |} in
      if is_null root then ret (- ENOMEM, sb') else ret (0, sb')
  end.

Definition kzalloc_fsi : K (option myfs_fs_info) := fun s =>
  match kmalloc_pool s with
  | O => Ok None s
  | S n => Ok (Some (mk_fsi (mk_opts 0))) (set_kmalloc_pool n s)
  end.

Definition myfs_init_fs_context (fc : fs_context) : K (Z * fs_context) :=
  do fsi <- kzalloc_fsi;
  match fsi with
  | None => ret (- ENOMEM, fc)
  | Some _ => ret (0, mk_fc (Some (mk_fsi (mk_opts RAMFS_DEFAULT_MODE))) true)
  end.

(** [get_tree_nodev]: a fresh super block takes over the context's info
    and is filled in. *)
Definition blank_sb (fsi : option myfs_fs_info) : super_block :=
  {| sb_fs_info := fsi; s_maxbytes := 0; s_blocksize := 0; s_blocksize_bits := 0;
     s_magic := 0; s_op := no_super_ops; s_time_gran := 0; s_root := NULL |}.

Definition myfs_get_tree (sbid : nat) (fc : fs_context) : K (Z * super_block) :=
  myfs_fill_super sbid (blank_sb (s_fs_info fc)) fc.

(** *** The mount sequence of the host

    A context is initialised, every option is handed to the parser in
    order, the first negative return aborts, and then the tree is built. *)
Fixpoint parse_params (fc : fs_context) (ps : list fs_parameter)
  : option (Z * fs_context) :=
  match ps with
  | [] => Some (0, fc)
  | p :: rest =>
      match myfs_parse_param fc p with
      | None => None
      | Some (r, fc') => if r <? 0 then Some (r, fc') else parse_params fc' rest
      end
  end.

Definition mount (sbid : nat) (ps : list fs_parameter) : K (Z * option super_block) :=
  do '(r, fc) <- myfs_init_fs_context (mk_fc None false);
  if r <? 0 then ret (r, None)
  else
    match parse_params fc ps with
    | None => oops
    | Some (r, fc') =>
        if r <? 0 then ret (r, None)
        else
          do '(r, sb) <- myfs_get_tree sbid fc';
          if r <? 0 then ret (r, None) else ret (0, Some sb)
    end.

(** *** States and predicates used in statements *)

(** The state a successful [myfs_mknod] leaves: the new inode [i] behind
    the dentry [de] at [a], the directory [d] at [da] stamped. *)
Definition mknod_done (da : nat) (d : inode) (a : nat) (de : dentry)
    (n : nat) (ino : Z) (i : inode) (s : kstate) : kstate :=
  put_inode da (set_i_mtime (now s) (set_i_ctime (now s) d))
    (put_dentry a (set_d_count (d_count de + 1) (set_d_inode (Ptr (length (inodes s))) de))
       (allocated n ino i s)).

(** The state a successful [myfs_tmpfile] leaves. *)
Definition tmpfile_done (a : nat) (de : dentry) (n : nat) (ino : Z) (i : inode)
    (s : kstate) : kstate :=
  put_dentry a
    (set_d_inode (Ptr (length (inodes s))) (set_d_name ("#" +:+ fmt_u (i_ino i)) de))
    (allocated n ino (set_i_nlink (u32 (i_nlink i - 1)) i) s).

(** The option [mode=v] as the host hands it over. *)
Definition opt_mode (v : string) : fs_parameter :=
  {| key := "mode"; type := fs_value_is_string; string_ := v |}.

(** A [mode] option the parser rejects: no string value, or a string the
    octal conversion refuses. *)
Definition bad_mode (p : fs_parameter) : bool :=
  bool_decide (key p = "mode") &&
  match type p with
  | fs_value_is_string =>
      match kstrtouint (string_ p) 8 with
      | inl _ => true
      | inr _ => false
      end
  | _ => true
  end.

End Myfs.

(** ** src/unnamed/part_000 *)

Module Aufs.
Import Num Stat Errno Kernel.

Definition AUFS_MAGIC : Z := 0x64668735.

Record super_block : Type := mk_sb {
  s_magic : Z;
  s_root : ptr
}.

Record vfsmount : Type := mk_mnt { mnt_sb : option super_block }.

(** The values of a [struct vfsmount *]. *)
Inductive vfsmount_ptr : Type :=
  | mnt_NULL
  | mnt_ERR (e : Z)
  | mnt_at (v : vfsmount).

Definition myfs_get_inode (sb : nat) (mode : Z) (dev : Z) : K ptr :=
  do inode <- new_inode_2_6 sb;
  match inode with
  | NULL => ret inode
  | _ =>
      do c <- gets current;
      do t <- current_time;
      update_inode inode
        (fun i => set_i_ctime t (set_i_mtime t (set_i_atime t
                    (set_i_blocks 0 (set_i_gid (fsgid c) (set_i_uid (fsuid c)
                      (set_i_mode (u16 mode) i))))))) ;;
      (let fmt := Z.land mode S_IFMT in
       if fmt =? S_IFREG then ret tt
       else if fmt =? S_IFDIR then
         update_inode inode
           (fun i => set_i_fop simple_dir_fops (set_i_op simple_dir_iops i)) ;;
         update_inode inode (fun i => set_i_nlink (u32 (i_nlink i + 1)) i)
       else
         init_special_inode inode mode dev) ;;
      ret inode
  end.

(* SMP-safe *)
Definition myfs_mknod (dir : ptr) (dentry : ptr) (mode : Z) (dev : Z) : K Z :=
  let error := - EPERM in
  do de <- load_dentry dentry;
  if negb (is_null (d_inode de)) then ret (- EEXIST)
  else
    do d <- load_inode dir;
    do inode <- myfs_get_inode (i_sb d) mode dev;
    match inode with
    | NULL => ret error
    | _ =>
        d_instantiate dentry inode ;;
        dget dentry ;;
        ret 0
    end.

(** The state a successful [myfs_mknod] leaves: the directory inode is
    not written. *)
Definition aufs_mknod_done (a : nat) (de : dentry) (n : nat) (ino : Z) (i : inode)
    (s : kstate) : kstate :=
  put_dentry a (set_d_count (d_count de + 1) (set_d_inode (Ptr (length (inodes s))) de))
    (allocated n ino i s).

Definition myfs_mkdir (dir : ptr) (dentry : ptr) (mode : Z) : K Z :=
  do res <- myfs_mknod dir dentry (Z.lor mode S_IFDIR) 0;
  (if res =? 0
   then update_inode dir (fun i => set_i_nlink (u32 (i_nlink i + 1)) i)
   else ret tt) ;;
  ret res.

Definition myfs_create (dir : ptr) (dentry : ptr) (mode : Z) : K Z :=
  myfs_mknod dir dentry (Z.lor mode S_IFREG) 0.

(** [simple_fill_super] of libfs with an empty file table: the root
    directory and its dentry. *)
Definition simple_fill_super (sbid : nat) (magic : Z) : K (Z * super_block) :=
  do inode <- new_inode_2_6 sbid;
  match inode with
  | NULL => ret (- ENOMEM, mk_sb magic NULL)
  | _ =>
      do t <- current_time;
      update_inode inode
        (fun i => set_i_nlink 2 (set_i_fop simple_dir_fops
                    (set_i_op simple_dir_iops
                      (set_i_ctime t (set_i_mtime t (set_i_atime t
                        (set_i_blocks 0 (set_i_gid 0 (set_i_uid 0
                          (set_i_mode (Z.lor S_IFDIR (oct "755"))
                            (set_i_ino 1 i))))))))))) ;;
      do root <- d_make_root inode;
      if is_null root then ret (- ENOMEM, mk_sb magic NULL)
      else ret (0, mk_sb magic root)
  end.

Definition myfs_fill_super (sbid : nat) : K (Z * super_block) :=
  simple_fill_super sbid AUFS_MAGIC.

(** [kern_mount] through [myfs_get_sb] and [get_sb_single]. *)
Definition kern_mount (sbid : nat) : K vfsmount_ptr :=
  do '(r, sb) <- myfs_fill_super sbid;
  if r =? 0 then ret (mnt_at (mk_mnt (Some sb))) else ret (mnt_ERR r).

(** What the source hands to [IS_ERR] after the lookup: the address of
    the caller's variable, not the dentry stored in it.  A stack address
    is never in the error range. *)
Definition out_param : ptr := Ptr 0.

(** [myfs_mount] is the module's static variable, [dentry0] the value the
    caller's variable holds on entry; the result pairs the return value
    with the final [*dentry]. *)
Definition myfs_create_by_name (myfs_mount : vfsmount_ptr)
    (name : string) (mode : Z) (parent : ptr) (dentry0 : ptr) : K (Z * ptr) :=
  (* If the parent is not specified, we create it in the root. *)
  do parent <-
    (if is_null parent then
       match myfs_mount with
       | mnt_NULL => ret parent
       | mnt_ERR _ => oops
       | mnt_at v =>
           match mnt_sb v with
           | Some sb => ret (s_root sb)
           | None => ret parent
           end
       end
     else ret parent);
  if is_null parent then ret (- EFAULT, dentry0)
  else
    (* mutex_lock(&parent->d_inode->i_mutex) *)
    do p <- load_dentry parent;
    load_inode (d_inode p) ;;
    do dentry <- lookup_one_len name parent (strlen name);
    do error <-
      (if negb (IS_ERR out_param) then
         if Z.land mode S_IFMT =? S_IFDIR
         then myfs_mkdir (d_inode p) dentry mode
         else myfs_create (d_inode p) dentry mode
       else ret (PTR_ERR out_param));
    (* mutex_unlock(&parent->d_inode->i_mutex) *)
    ret (error, dentry).

Definition myfs_create_file (myfs_mount : vfsmount_ptr)
    (name : string) (mode : Z) (parent : ptr) (fops : option file_ops) : K ptr :=
  do '(error, dentry) <- myfs_create_by_name myfs_mount name mode parent NULL;
  if negb (error =? 0) then ret NULL
  else
    do d <- load_dentry dentry;
    (if negb (is_null (d_inode d)) then
       match fops with
       | Some f => update_inode (d_inode d) (set_i_fop f)
       | None => ret tt
       end
     else ret tt) ;;
    ret dentry.

Definition myfs_create_dir (myfs_mount : vfsmount_ptr)
    (name : string) (parent : ptr) : K ptr :=
  myfs_create_file myfs_mount name
    (Z.lor (Z.lor (Z.lor S_IFDIR S_IRWXU) S_IRUGO) S_IXUGO) parent None.

(** Module initialisation; [registered] is what [register_filesystem]
    returned.  The result pairs the return value with the final value of
    the static [myfs_mount]. *)
Definition myfs_init (sbid : nat) (registered : Z) : K (Z * vfsmount_ptr) :=
  let retval := registered in
  do m <- (if retval =? 0 then kern_mount sbid else ret mnt_NULL);
  match m with
  | mnt_ERR _ => ret (retval, m)
  | _ =>
      let file := Z.lor S_IFREG S_IRUGO in
      do pslot <- myfs_create_dir m "woman star" NULL;
      myfs_create_file m "lbb" file pslot None ;;
      myfs_create_file m "fbb" file pslot None ;;
      myfs_create_file m "ljl" file pslot None ;;
      do pslot <- myfs_create_dir m "man star" NULL;
      myfs_create_file m "ldh" file pslot None ;;
      myfs_create_file m "lcw" file pslot None ;;
      myfs_create_file m "jw" file pslot None ;;
      ret (retval, m)
  end.

(** *** Definitions used in statements *)

(** The directory the first lines of [myfs_create_by_name] settle on. *)
Definition parent_of (myfs_mount : vfsmount_ptr) (parent : ptr) : ptr :=
  if is_null parent then
    match myfs_mount with
    | mnt_at v =>
        match mnt_sb v with
        | Some sb => s_root sb
        | None => NULL
        end
    | _ => NULL
    end
  else parent.

(** The call [myfs_create_by_name] makes once the dentry is looked up. *)
Definition by_mode (mode : Z) (dir dentry : ptr) : K Z :=
  if Z.land mode S_IFMT =? S_IFDIR
  then myfs_mkdir dir dentry mode
  else myfs_create dir dentry mode.



End Aufs.

(** ** States to run the code on *)

Module Boot.
Import Num Stat Kernel.

Definition root_cred : cred :=
  {| fsuid := 0; fsgid := 0; groups := []; cap_fsetid := true |}.

(** An empty kernel with room for [n] objects of every kind, at time [t]. *)
Definition boot (n : nat) (t : Z) : kstate :=
  {| inodes := []; dentries := []; dcache := ∅;
     inode_slab := n; dentry_slab := n; page_pool := n; kmalloc_pool := n;
     last_ino := 0; now := t; current := root_cred |}.

(** The state a computation ends in (the start state after an oops). *)
Definition after {A} (m : K A) (s : kstate) : kstate :=
  match m s with
  | Ok _ s' => s'
  | Oops => s
  end.

(** src/myfs.c mounted without options at time 1000: the root inode and
    the root dentry are both at address 0. *)
Definition mounted : kstate := after (Myfs.mount 0 []) (boot 8 1000).

(** The same with a hashed negative dentry "a" under the root, at
    address 1, as the host's path walk leaves it before a create. *)
Definition with_negative : kstate :=
  after (d_alloc (Ptr 0) "a" ;; d_add_negative (Ptr 1)) mounted.

(** The same with an unhashed negative dentry named "/" under the root,
    at address 1, as the host allocates it for O_TMPFILE. *)
Definition with_anonymous : kstate := after (d_alloc (Ptr 0) "/") mounted.

(** No inode left to hand out. *)
Definition exhausted (s : kstate) : kstate := set_inode_slab 0 s.

(** The object behind a pointer known to be live. *)
Definition the_inode (s : kstate) (p : ptr) : inode :=
  default (fresh_inode 0) (inode_at s p).

Definition the_dentry (s : kstate) (p : ptr) : dentry :=
  default (mk_dentry "" 0 NULL 0) (dentry_at s p).

(** src/unnamed/part_000 loaded at time 1000: the value of its static
    [myfs_mount] and the kernel state, with the two directories and six
    files of [myfs_init]. *)
Definition loaded_mount : Aufs.vfsmount_ptr :=
  match Aufs.myfs_init 0 0 (boot 20 1000) with
  | Ok (_, m) _ => m
  | Oops => Aufs.mnt_NULL
  end.

Definition loaded : kstate := after (Aufs.myfs_init 0 0) (boot 20 1000).

(** The same after a lookup of "new" under the root, which leaves a hashed
    negative dentry at address 9. *)
Definition loaded_negative : kstate :=
  after (lookup_one_len "new" (Ptr 0) 3) loaded.

End Boot.

(** ** The spec's wording, for comparison with the code *)

Module SpecWords.

(** "directories begin with link count 2, others with the count the caller
    supplies - typically 0 until linked" *)
Definition spec_initial_link_count (is_directory : bool) (supplied : Z) : Z :=
  if is_directory then 2 else supplied.

End SpecWords.

(** ** Shapes of what the operations leave behind

    Predicates, values and states named for use in statements. *)

Module Shapes.
Import Num Stat Errno Kernel.

(** What [myfs_get_inode] of src/myfs.c writes into the inode besides the
    fields [born] speaks of. *)
Definition made (s : kstate) (sb : nat) (mode dev ino : Z) (i : inode) : Prop :=
  i_ino i = ino /\ 0 < ino <= UINT_MAX /\ i_sb i = sb
  /\ i_uid i = fsuid (current s)
  /\ a_ops (i_mapping i) = ram_aops /\ unevictable (i_mapping i) = true
  /\ page0 (i_mapping i) = None
  /\ (S_ISREG mode = true ->
      i_op i = myfs_file_iops /\ i_fop i = myfs_file_fops
      /\ gfp_mask (i_mapping i) = GFP_HIGHUSER)
  /\ (S_ISDIR mode = true ->
      i_op i = myfs_dir_iops /\ i_fop i = simple_dir_fops
      /\ gfp_mask (i_mapping i) = GFP_HIGHUSER)
  /\ (S_ISLNK mode = true ->
      i_op i = page_symlink_iops /\ i_fop i = no_open_fops
      /\ gfp_mask (i_mapping i) = GFP_USER)
  /\ (S_ISLNK mode = false -> gfp_mask (i_mapping i) = GFP_HIGHUSER)
  /\ (S_ISCHR mode = true -> i_fop i = def_chr_fops /\ i_rdev i = dev)
  /\ (S_ISBLK mode = true -> i_fop i = def_blk_fops /\ i_rdev i = dev)
  /\ (S_ISFIFO mode = true -> i_fop i = pipefifo_fops)
  /\ (S_ISDIR mode = false -> Z.land mode S_ISGID = 0 -> i_mode i = u16 mode)
  /\ (S_ISREG mode = false -> S_ISDIR mode = false -> S_ISLNK mode = false ->
      i_mode i = u16 mode).

(** The group [inode_init_owner] gives the inode [myfs_get_inode] makes under
    the directory inode [dir]: the caller's, or the one of a set-group-id
    directory, whose bit a new directory takes over. *)
Definition owned (s : kstate) (dir : ptr) (mode : Z) (i : inode) : Prop :=
  forall d, inode_at s dir = Some d ->
    if Z.land (i_mode d) S_ISGID =? 0
    then i_gid i = fsgid (current s)
    else i_gid i = i_gid d
         /\ (S_ISDIR mode = true -> i_mode i = u16 (Z.lor mode S_ISGID)).

(** The state left when the inode just taken is put again ([myfs_symlink]
    without a page, [d_make_root] without a dentry): its slot is empty, its
    number stays used. *)
Definition released (ino : Z) (s : kstate) : kstate :=
  set_last_ino ino (set_inodes (inodes s ++ [None]) s).

(** The mode and device number each operation hands to [myfs_get_inode]. *)
Definition mode_of (o : Myfs.dir_op) : Z :=
  match o with
  | Myfs.op_create mode _ => Z.lor mode S_IFREG
  | Myfs.op_symlink _ => Z.lor S_IFLNK S_IRWXUGO
  | Myfs.op_mkdir mode => Z.lor mode S_IFDIR
  | Myfs.op_mknod mode _ => mode
  | Myfs.op_tmpfile mode => mode
  end.

Definition dev_of (o : Myfs.dir_op) : Z :=
  match o with
  | Myfs.op_mknod _ dev => dev
  | _ => 0
  end.

(** What a successful operation leaves of the inode it took, of the
    directory inode and of the dentry, and the state built from them.  Only
    [myfs_symlink] takes a page; [myfs_tmpfile] writes neither the
    directory nor the reference count, [myfs_mkdir] also counts a link. *)
Definition inode_after (o : Myfs.dir_op) (i : inode) : inode :=
  match o with
  | Myfs.op_symlink symname => set_i_mapping (set_page0 (Some symname) (i_mapping i)) i
  | Myfs.op_tmpfile _ => set_i_nlink (u32 (i_nlink i - 1)) i
  | _ => i
  end.

Definition dir_after (o : Myfs.dir_op) (t : Z) (d : inode) : inode :=
  match o with
  | Myfs.op_tmpfile _ => d
  | Myfs.op_mkdir _ => set_i_nlink (u32 (i_nlink d + 1)) (set_i_mtime t (set_i_ctime t d))
  | _ => set_i_mtime t (set_i_ctime t d)
  end.

Definition dentry_after (o : Myfs.dir_op) (x : nat) (i : inode) (de : dentry) : dentry :=
  match o with
  | Myfs.op_tmpfile _ => set_d_inode (Ptr x) (set_d_name ("#" +:+ fmt_u (i_ino i)) de)
  | _ => set_d_count (d_count de + 1) (set_d_inode (Ptr x) de)
  end.

Definition pool_after (o : Myfs.dir_op) (s : kstate) : kstate :=
  match o with
  | Myfs.op_symlink _ => set_page_pool (Nat.pred (page_pool s)) s
  | _ => s
  end.

Definition op_result (o : Myfs.dir_op) (da : nat) (d : inode) (a : nat) (de : dentry)
    (n : nat) (ino : Z) (i : inode) (s : kstate) : kstate :=
  put_inode da (dir_after o (now s) d)
    (put_dentry a (dentry_after o (length (inodes s)) i de)
       (allocated n ino (inode_after o i) (pool_after o s))).

(** What [myfs_get_inode] of src/unnamed/part_000 writes into the inode
    besides the fields [born] speaks of: a regular file keeps the empty
    operation tables of a new inode. *)
Definition aufs_made (s : kstate) (sb : nat) (mode dev ino : Z) (i : inode) : Prop :=
  i_ino i = ino /\ i_sb i = sb /\ i_mode i = u16 mode
  /\ i_uid i = fsuid (current s) /\ i_gid i = fsgid (current s) /\ i_blocks i = 0
  /\ page0 (i_mapping i) = None
  /\ (S_ISREG mode = true -> i_op i = empty_iops /\ i_fop i = no_open_fops)
  /\ (S_ISDIR mode = true -> i_op i = simple_dir_iops /\ i_fop i = simple_dir_fops)
  /\ (S_ISCHR mode = true -> i_fop i = def_chr_fops /\ i_rdev i = dev)
  /\ (S_ISBLK mode = true -> i_fop i = def_blk_fops /\ i_rdev i = dev)
  /\ (S_ISFIFO mode = true -> i_fop i = pipefifo_fops).

(** The mode [myfs_create_by_name] ends up handing to [myfs_get_inode]:
    through [myfs_mkdir] for a directory mode, through [myfs_create]
    otherwise. *)
Definition mode_given (mode : Z) : Z :=
  if Z.land mode S_IFMT =? S_IFDIR then Z.lor mode S_IFDIR else Z.lor mode S_IFREG.

(** The negative dentry a lookup allocates for a name not in the cache. *)
Definition new_dentry (pa : nat) (name : string) : dentry :=
  {| d_name := name; d_parent := pa; d_inode := NULL; d_count := 1 |}.

(** The state after a successful creation through [myfs_mkdir] or
    [myfs_create] of part_000, under the directory inode [pi] at [ia]. *)
Definition aufs_done (mode : Z) (ia : nat) (pi : inode) (a : nat) (de : dentry)
    (n : nat) (ino : Z) (i : inode) (s : kstate) : kstate :=
  if Z.land mode S_IFMT =? S_IFDIR
  then put_inode ia (set_i_nlink (u32 (i_nlink pi + 1)) pi)
         (Aufs.aufs_mknod_done a de n ino i s)
  else Aufs.aufs_mknod_done a de n ino i s.

(** ... and after [myfs_create_file] has stored the caller's file
    operations in the inode at [x]. *)
Definition with_fops (fops : option file_ops) (x : nat) (i : inode) (s : kstate) : kstate :=
  match fops with
  | Some f => put_inode x (set_i_fop f i) s
  | None => s
  end.

(** A kernel that holds no inode and no dentry yet. *)
Definition pristine (n j pp kp : nat) (t : Z) (c : cred) : kstate :=
  {| inodes := []; dentries := []; dcache := ∅;
     inode_slab := n; dentry_slab := j; page_pool := pp; kmalloc_pool := kp;
     last_ino := 0; now := t; current := c |}.

(** The mode a well-formed [mode] option stands for. *)
Definition mode_value (p : fs_parameter) : Z :=
  match kstrtouint (string_ p) 8 with
  | inr v => Z.land v S_IALLUGO
  | inl _ => 0
  end.

(** The mode a list of accepted options leaves, starting from [m0]: each
    [mode] option overwrites what was there. *)
Definition mode_after (ps : list fs_parameter) (m0 : Z) : Z :=
  fold_left (fun m p => if bool_decide (key p = "mode") then mode_value p else m) ps m0.

(** Whether the text [myfs_show_options] prints for a mode converts back
    to that mode. *)
Definition echo_parses (m : Z) : bool :=
  match kstrtouint (fmt_o m) 8 with
  | inr v => v =? m
  | inl _ => false
  end.

(** The super block as [myfs_fill_super] leaves it, with the given root. *)
Definition filled (sb : Myfs.super_block) (root : ptr) : Myfs.super_block :=
  {| Myfs.sb_fs_info := Myfs.sb_fs_info sb;
     Myfs.s_maxbytes := Myfs.MAX_LFS_FILESIZE;
     Myfs.s_blocksize := Myfs.PAGE_SIZE;
     Myfs.s_blocksize_bits := Myfs.PAGE_SHIFT;
     Myfs.s_magic := Myfs.RAMFS_MAGIC;
     Myfs.s_op := Myfs.myfs_ops;
     Myfs.s_time_gran := 1;
     Myfs.s_root := root |}.

(** src/myfs.c mounted with mode=2755, so that the root directory is
    set-group-id, the root inode then given to group 42, and a hashed
    negative dentry "a" under the root at address 1. *)
Definition sgid_mounted : kstate :=
  let s := Boot.after (d_alloc (Ptr 0) "a" ;; d_add_negative (Ptr 1))
             (Boot.after (Myfs.mount 0 [mk_param "mode" fs_value_is_string "2755"])
                (Boot.boot 8 1000)) in
  put_inode 0 (set_i_gid 42 (Boot.the_inode s (Ptr 0))) s.

End Shapes.

(** * Properties *)

(** ** The kernel services: how reads, writes and allocations compose *)

Module KernelFacts.
Import Num Stat Errno Kernel.

Lemma bind_ok {A B} (m : K A) (f : A -> K B) s a s1 :
  m s = Ok a s1 -> bind m f s = f a s1.
Proof. intros H. unfold bind. now rewrite H. Qed.

Lemma bind_inv {A B} (m : K A) (f : A -> K B) s b s2 :
  bind m f s = Ok b s2 -> exists a s1, m s = Ok a s1 /\ f a s1 = Ok b s2.
Proof.
  unfold bind. destruct (m s) as [a s1|] eqn:E; [|discriminate].
  intros H. now exists a, s1.
Qed.

Lemma bind_ok_oops {A B} (m : K A) (f : A -> K B) s :
  m s = Oops -> bind m f s = Oops.
Proof. intros H. unfold bind. now rewrite H. Qed.

Lemma snoc_lookup {A} (l : list A) x : (l ++ [x]) !! length l = Some x.
Proof. rewrite lookup_app_r by lia. now rewrite Nat.sub_diag. Qed.

Lemma snoc_insert {A} (l : list A) x y : <[length l := y]> (l ++ [x]) = l ++ [y].
Proof. rewrite insert_app_r_alt by lia. now rewrite Nat.sub_diag. Qed.

Lemma inode_at_lt s a i : inode_at s (Ptr a) = Some i -> (a < length (inodes s))%nat.
Proof.
  unfold inode_at. intros H. apply lookup_lt_is_Some.
  destruct (inodes s !! a); [eauto | discriminate].
Qed.

Lemma dentry_at_lt s a d : dentry_at s (Ptr a) = Some d -> (a < length (dentries s))%nat.
Proof. unfold dentry_at. intros H. apply lookup_lt_is_Some. eauto. Qed.

Lemma load_inode_ok s p i : inode_at s p = Some i -> load_inode p s = Ok i s.
Proof. unfold load_inode. now intros ->. Qed.

Lemma load_inode_oops s p : inode_at s p = None -> load_inode p s = @Oops inode.
Proof. unfold load_inode. now intros ->. Qed.

Lemma load_dentry_ok s p d : dentry_at s p = Some d -> load_dentry p s = Ok d s.
Proof. unfold load_dentry. now intros ->. Qed.

Lemma load_dentry_oops s p : dentry_at s p = None -> load_dentry p s = @Oops dentry.
Proof. unfold load_dentry. now intros ->. Qed.

Lemma update_inode_ok s a i f :
  inode_at s (Ptr a) = Some i ->
  update_inode (Ptr a) f s = Ok tt (put_inode a (f i) s).
Proof.
  intros H. unfold update_inode, bind. rewrite (load_inode_ok _ _ _ H).
  unfold store_inode. now rewrite H.
Qed.

Lemma update_inode_oops s p f :
  inode_at s p = None -> update_inode p f s = @Oops unit.
Proof. intros H. unfold update_inode, bind. now rewrite (load_inode_oops _ _ H). Qed.

Lemma update_dentry_ok s a d f :
  dentry_at s (Ptr a) = Some d ->
  update_dentry (Ptr a) f s = Ok tt (put_dentry a (f d) s).
Proof.
  intros H. unfold update_dentry, bind. rewrite (load_dentry_ok _ _ _ H).
  unfold store_dentry. now rewrite H.
Qed.

Lemma inode_at_put_same s a i j :
  inode_at s (Ptr a) = Some i -> inode_at (put_inode a j s) (Ptr a) = Some j.
Proof.
  intros H. apply inode_at_lt in H. unfold inode_at, put_inode. simpl.
  now rewrite list_lookup_insert_eq.
Qed.

Lemma inode_at_put_other s a b j :
  a <> b -> inode_at (put_inode a j s) (Ptr b) = inode_at s (Ptr b).
Proof. intros H. unfold inode_at, put_inode. simpl. now rewrite list_lookup_insert_ne. Qed.

Lemma put_inode_twice s a i j : put_inode a j (put_inode a i s) = put_inode a j s.
Proof. unfold put_inode. simpl. unfold set_inodes. simpl. now rewrite list_insert_insert_eq. Qed.

Lemma new_inode_full sb s : inode_slab s = O -> new_inode sb s = Ok NULL s.
Proof. unfold new_inode. now intros ->. Qed.

Lemma new_inode_room sb s n :
  inode_slab s = S n ->
  new_inode sb s = Ok (Ptr (length (inodes s))) (allocated n (last_ino s) (fresh_inode sb) s).
Proof. unfold new_inode. intros ->. destruct s; reflexivity. Qed.

Lemma inode_at_allocated_new n ino i s :
  inode_at (allocated n ino i s) (Ptr (length (inodes s))) = Some i.
Proof. unfold inode_at, allocated. simpl. now rewrite snoc_lookup. Qed.

Lemma inode_at_allocated_old n ino i s p j :
  inode_at s p = Some j -> inode_at (allocated n ino i s) p = Some j.
Proof.
  destruct p as [|a|]; try discriminate. intros H.
  pose proof (inode_at_lt _ _ _ H). unfold inode_at, allocated in *. simpl.
  now rewrite lookup_app_l.
Qed.

Lemma update_new n ino i s f :
  update_inode (Ptr (length (inodes s))) f (allocated n ino i s)
  = Ok tt (allocated n ino (f i) s).
Proof.
  rewrite (update_inode_ok _ _ i) by apply inode_at_allocated_new.
  f_equal. unfold put_inode, allocated, set_inodes, set_inode_slab, set_last_ino.
  simpl. now rewrite snoc_insert.
Qed.

Lemma load_old n ino i s p j :
  inode_at s p = Some j -> load_inode p (allocated n ino i s) = Ok j (allocated n ino i s).
Proof. intros H. apply load_inode_ok. now apply inode_at_allocated_old. Qed.

Lemma get_next_ino_allocated n ino i s :
  get_next_ino (allocated n ino i s)
  = Ok (if u32 (ino + 1) =? 0 then 1 else u32 (ino + 1))
       (allocated n (if u32 (ino + 1) =? 0 then 1 else u32 (ino + 1)) i s).
Proof. reflexivity. Qed.

Lemma bind_assoc {A B C} (m : K A) (f : A -> K B) (g : B -> K C) s :
  bind (bind m f) g s = bind m (fun a => bind (f a) g) s.
Proof. unfold bind. now destruct (m s). Qed.

Ltac step :=
  rewrite ?bind_assoc;
  erewrite bind_ok by
    first [ apply update_new
          | apply load_old; eassumption
          | apply get_next_ino_allocated
          | reflexivity ].

Lemma u16_fmt m : Z.land (u16 m) S_IFMT = Z.land m S_IFMT.
Proof.
  unfold u16, wrap. rewrite <- Z.land_ones by lia.
  rewrite <- Z.land_assoc. reflexivity.
Qed.

Lemma lor_sgid_fmt m : Z.land (Z.lor m S_ISGID) S_IFMT = Z.land m S_IFMT.
Proof. rewrite Z.land_lor_distr_l. change (Z.land S_ISGID S_IFMT) with 0. apply Z.lor_0_r. Qed.

Lemma clear_sgid_fmt m : Z.land (Z.land m (Z.lnot S_ISGID)) S_IFMT = Z.land m S_IFMT.
Proof. rewrite <- Z.land_assoc. reflexivity. Qed.

(** [inode_init_owner] on the inode just allocated. *)
Lemma inode_init_owner_new n ino i s dir mode :
  dir = NULL \/ is_Some (inode_at s dir) ->
  exists m u g,
    inode_init_owner (Ptr (length (inodes s))) dir mode (allocated n ino i s)
    = Ok tt (allocated n ino (set_i_mode (u16 m) (set_i_gid g (set_i_uid u i))) s)
    /\ Z.land m S_IFMT = Z.land mode S_IFMT
    /\ (dir = NULL -> m = mode).
Proof.
  intros Hdir. unfold inode_init_owner. step. step.
  destruct Hdir as [-> | [d Hd]].
  - do 3 eexists. split; [|split; [reflexivity|reflexivity]].
    do 2 step. apply update_new.
  - assert (Hnn : dir <> NULL) by (intros ->; discriminate).
    destruct dir as [|a|e]; [congruence| |discriminate].
    step. 
    destruct (Z.land (i_mode d) S_ISGID =? 0) eqn:Eg; cbn [negb].
    + do 3 eexists. split; [|split; [reflexivity|congruence]].
      do 2 step. apply update_new.
    + destruct (S_ISDIR mode) eqn:Ed.
      * do 3 eexists. split; [|split; [apply lor_sgid_fmt|congruence]].
        do 2 step. apply update_new.
      * match goal with |- context [if ?c then _ else _] => destruct c end.
        -- do 3 eexists. split; [|split; [apply clear_sgid_fmt|congruence]].
           do 2 step. apply update_new.
        -- do 3 eexists. split; [|split; [reflexivity|congruence]].
           do 2 step. apply update_new.
Qed.

Lemma init_special_inode_new n ino i s mode dev :
  exists j,
    init_special_inode (Ptr (length (inodes s))) mode dev (allocated n ino i s)
    = Ok tt (allocated n ino j s)
    /\ i_mode j = u16 mode /\ i_nlink j = i_nlink i
    /\ i_atime j = i_atime i /\ i_mtime j = i_mtime i /\ i_ctime j = i_ctime i.
Proof.
  unfold init_special_inode. step.
  destruct (S_ISCHR (u16 mode)); [eexists; split; [apply update_new|now simpl]|].
  destruct (S_ISBLK (u16 mode)); [eexists; split; [apply update_new|now simpl]|].
  destruct (S_ISFIFO (u16 mode)); [eexists; split; [apply update_new|now simpl]|].
  eexists; split; [reflexivity|now simpl].
Qed.

Ltac fin := repeat split; try assumption; try reflexivity; try (intros Hd0; f_equal; auto).

Lemma dentry_at_put_same s a d e :
  dentry_at s (Ptr a) = Some d -> dentry_at (put_dentry a e s) (Ptr a) = Some e.
Proof.
  intros H. apply dentry_at_lt in H. unfold dentry_at, put_dentry. simpl.
  now rewrite list_lookup_insert_eq.
Qed.

Lemma dentry_at_put_other s a b e :
  a <> b -> dentry_at (put_dentry a e s) (Ptr b) = dentry_at s (Ptr b).
Proof. intros H. unfold dentry_at, put_dentry. simpl. now rewrite list_lookup_insert_ne. Qed.

Lemma inode_at_put_dentry s a e p : inode_at (put_dentry a e s) p = inode_at s p.
Proof. reflexivity. Qed.

Lemma dentry_at_put_inode s a i p : dentry_at (put_inode a i s) p = dentry_at s p.
Proof. reflexivity. Qed.

Lemma dentry_at_allocated n ino i s p : dentry_at (allocated n ino i s) p = dentry_at s p.
Proof. reflexivity. Qed.

Lemma dget_ok s a d :
  dentry_at s (Ptr a) = Some d ->
  dget (Ptr a) s = Ok tt (put_dentry a (set_d_count (d_count d + 1) d) s).
Proof.
  intros H. unfold dget.
  exact (update_dentry_ok s a d (fun d => set_d_count (d_count d + 1) d) H).
Qed.

Lemma d_instantiate_ok s a d x i :
  dentry_at s (Ptr a) = Some d -> d_inode d = NULL ->
  inode_at s (Ptr x) = Some i ->
  d_instantiate (Ptr a) (Ptr x) s = Ok tt (put_dentry a (set_d_inode (Ptr x) d) s).
Proof.
  intros Hd Hn Hi. unfold d_instantiate.
  rewrite (bind_ok _ _ _ _ _ (load_dentry_ok _ _ _ Hd)). rewrite Hn. cbn.
  rewrite (bind_ok _ _ _ _ _ (load_inode_ok _ _ _ Hi)).
  unfold store_dentry. now rewrite Hd.
Qed.

Lemma d_instantiate_bug s a d x :
  dentry_at s (Ptr a) = Some d -> d_inode d <> NULL ->
  d_instantiate (Ptr a) x s = @Oops unit.
Proof.
  intros Hd Hn. unfold d_instantiate.
  rewrite (bind_ok _ _ _ _ _ (load_dentry_ok _ _ _ Hd)).
  destruct (d_inode d); [congruence|reflexivity|reflexivity].
Qed.

Lemma d_instantiate_bad s p x :
  dentry_at s p = None -> d_instantiate p x s = @Oops unit.
Proof. intros H. unfold d_instantiate, bind. now rewrite (load_dentry_oops _ _ H). Qed.

Lemma inc_nlink_ok s a i :
  inode_at s (Ptr a) = Some i ->
  inc_nlink (Ptr a) s = Ok tt (put_inode a (set_i_nlink (u32 (i_nlink i + 1)) i) s).
Proof.
  intros H. unfold inc_nlink.
  exact (update_inode_ok s a i (fun i => set_i_nlink (u32 (i_nlink i + 1)) i) H).
Qed.

Lemma store_dentry_ok s a d e :
  dentry_at s (Ptr a) = Some d -> store_dentry (Ptr a) e s = Ok tt (put_dentry a e s).
Proof. intros H. unfold store_dentry. now rewrite H. Qed.

Lemma born_mapping s mode i m : born s mode i -> born s mode (set_i_mapping m i).
Proof. now unfold born. Qed.

Lemma page_symlink_new n ino i s symname len k :
  page_pool s = S k ->
  page_symlink (Ptr (length (inodes s))) symname len (allocated n ino i s)
  = Ok 0 (allocated n ino (set_i_mapping (set_page0 (Some symname) (i_mapping i)) i)
            (set_page_pool k s)).
Proof.
  intros Hk. unfold page_symlink.
  change (page_pool (allocated n ino i s)) with (page_pool s). rewrite Hk.
  change (set_page_pool k (allocated n ino i s)) with (allocated n ino i (set_page_pool k s)).
  change (length (inodes s)) with (length (inodes (set_page_pool k s))).
  now rewrite (bind_ok _ _ _ _ _ (update_new _ _ _ _ _)).
Qed.

Lemma page_symlink_enomem p s symname len :
  page_pool s = O -> page_symlink p symname len s = Ok (- ENOMEM) s.
Proof. unfold page_symlink. now intros ->. Qed.

Lemma iput_new n ino i s :
  exists s1, iput (Ptr (length (inodes s))) (allocated n ino i s) = Ok tt s1.
Proof. unfold iput. rewrite inode_at_allocated_new. eauto. Qed.

Lemma d_make_root_ok x i n s :
  inode_at s (Ptr x) = Some i -> dentry_slab s = S n ->
  d_make_root (Ptr x) s = Ok (Ptr (length (dentries s))) (rooted x n s).
Proof.
  intros Hi Hn. unfold d_make_root.
  rewrite (bind_ok _ _ _ _ _ (load_inode_ok _ _ _ Hi)).
  unfold d_alloc_anon at 1. unfold bind at 1. rewrite Hn.
  erewrite bind_ok.
  2:{ eapply d_instantiate_ok.
      - unfold dentry_at. simpl. apply snoc_lookup.
      - reflexivity.
      - exact Hi. }
  reflexivity.
Qed.

Lemma rooted_root x n s :
  dentry_at (rooted x n s) (Ptr (length (dentries s)))
  = Some {| d_name := "/"; d_parent := length (dentries s); d_inode := Ptr x; d_count := 1 |}.
Proof.
  unfold rooted, dentry_at, put_dentry. simpl. rewrite snoc_insert. apply snoc_lookup.
Qed.

Lemma wf_hashed s k a :
  wf s = true -> dcache s !! k = Some a ->
  exists d, dentries s !! a = Some d /\ (d_parent d, d_name d) = k.
Proof.
  intros Hwf Hk. apply andb_prop in Hwf as [Hc _]. unfold dcache_ok in Hc.
  rewrite forallb_forall in Hc.
  assert (Hin : In (k, a) (map_to_list (dcache s))).
  { apply list_elem_of_In. now apply elem_of_map_to_list. }
  specialize (Hc _ Hin). cbn in Hc.
  destruct (dentries s !! a) as [d|]; [|discriminate].
  exists d. split; [reflexivity|]. now apply bool_decide_eq_true_1 in Hc.
Qed.

Lemma wf_no_dangling s a d x :
  wf s = true -> dentries s !! a = Some d -> d_inode d = Ptr x ->
  (x < length (inodes s))%nat.
Proof.
  intros Hwf Hd Hx. apply andb_prop in Hwf as [_ Hn]. unfold no_dangling in Hn.
  rewrite forallb_forall in Hn.
  assert (Hin : In d (dentries s)).
  { apply list_elem_of_In. eapply list_elem_of_lookup_2, Hd. }
  specialize (Hn _ Hin). rewrite Hx in Hn. now apply bool_decide_eq_true_1 in Hn.
Qed.

Lemma lookup_unhashed s a de e st p nm :
  wf s = true -> dentry_at s (Ptr a) = Some de -> d_unlinked s a de = true ->
  dentries st = <[a := e]> (dentries s) -> dcache st = dcache s ->
  lookup st p nm = lookup s p nm.
Proof.
  intros Hwf Hde Hu Hds Hc. unfold lookup. rewrite Hc.
  destruct (dcache s !! (p, nm)) as [b|] eqn:Hb; [|reflexivity]. cbn.
  destruct (decide (a = b)) as [<-|Hne].
  - exfalso. destruct (wf_hashed _ _ _ Hwf Hb) as (d & Hd & Hk).
    unfold dentry_at in Hde. rewrite Hde in Hd. inversion Hd; subst d.
    unfold d_unlinked, d_hashed in Hu. apply andb_prop in Hu as [Hh _].
    apply negb_true_iff in Hh. apply bool_decide_eq_false_1 in Hh.
    inversion Hk; subst. congruence.
  - rewrite Hds. now rewrite list_lookup_insert_ne.
Qed.

Lemma born_regular s mode i :
  S_ISREG mode = true -> born s mode i -> S_ISREG (i_mode i) = true /\ i_nlink i = 1.
Proof.
  unfold S_ISREG, born, S_ISDIR. intros Hr (Hl & Hm & _). rewrite Hm. split; [exact Hr|].
  apply Z.eqb_eq in Hr. rewrite Hr in Hl. exact Hl.
Qed.



Lemma lookup_via s p nm a de x :
  dcache s !! (p, nm) = Some a -> dentry_at s (Ptr a) = Some de -> d_inode de = x ->
  lookup s p nm = Some x.
Proof.
  intros Hc Hde Hx. unfold lookup. rewrite Hc. cbn. unfold dentry_at in Hde.
  rewrite Hde. cbn. now rewrite Hx.
Qed.

End KernelFacts.

(** ** Name lookup, and what later states keep *)

Module DcacheFacts.
Import Num Stat Errno Kernel KernelFacts.

Lemma d_alloc_ok pa b name n s :
  dentry_at s (Ptr pa) = Some b -> dentry_slab s = S n ->
  d_alloc (Ptr pa) name s = Ok (Ptr (length (dentries s))) (d_alloc_done pa b name n s).
Proof.
  intros Hb Hn. unfold d_alloc. rewrite Hb, Hn.
  erewrite bind_ok.
  2:{ eapply dget_ok. unfold dentry_at in *. simpl. rewrite lookup_app_l; [exact Hb|].
      now apply lookup_lt_Some in Hb. }
  reflexivity.
Qed.

Lemma d_alloc_full pa b name s :
  dentry_at s (Ptr pa) = Some b -> dentry_slab s = O ->
  d_alloc (Ptr pa) name s = Ok NULL s.
Proof. intros Hb Hn. unfold d_alloc. now rewrite Hb, Hn. Qed.

Lemma d_alloc_done_new pa b name n s :
  dentry_at s (Ptr pa) = Some b ->
  dentry_at (d_alloc_done pa b name n s) (Ptr (length (dentries s)))
  = Some {| d_name := name; d_parent := pa; d_inode := NULL; d_count := 1 |}.
Proof.
  intros Hb. pose proof (dentry_at_lt _ _ _ Hb). unfold d_alloc_done.
  rewrite dentry_at_put_other by lia. unfold dentry_at. simpl. apply snoc_lookup.
Qed.

Lemma lookup_hash_inv name base s a s1 :
  __lookup_hash name base s = Ok (Ptr a) s1 ->
  exists pa b pi,
    base = Ptr pa /\ dentry_at s base = Some b /\ inode_at s (d_inode b) = Some pi /\
    may_exec pi = 0 /\
    ((exists de, dcache s !! (pa, name) = Some a /\ dentry_at s (Ptr a) = Some de /\
                 s1 = put_dentry a (set_d_count (d_count de + 1) de) s)
     \/ (exists n, dcache s !! (pa, name) = None /\ dentry_slab s = S n /\
                   a = length (dentries s) /\ strlen name <= NAME_MAX /\
                   s1 = d_hash_done pa name a (d_alloc_done pa b name n s))).
Proof.
  intros H. unfold __lookup_hash in H.
  destruct (dentry_at s base) as [b|] eqn:Hb;
    [|now rewrite (bind_ok_oops _ _ _ (load_dentry_oops _ _ Hb)) in H].
  rewrite (bind_ok _ _ _ _ _ (load_dentry_ok _ _ _ Hb)) in H.
  destruct (inode_at s (d_inode b)) as [pi|] eqn:Hpi;
    [|now rewrite (bind_ok_oops _ _ _ (load_inode_oops _ _ Hpi)) in H].
  rewrite (bind_ok _ _ _ _ _ (load_inode_ok _ _ _ Hpi)) in H.
  assert (exists pa, base = Ptr pa) as [pa ->] by (destruct base; try discriminate; eauto).
  exists pa, b, pi. split; [reflexivity|]. split; [first [exact Hb|reflexivity]|]. split; [first [exact Hpi|reflexivity]|].
  destruct (Z.eqb_spec (may_exec pi) 0) as [Hx|Hx]; cbn [negb] in H; [|inversion H].
  split; [exact Hx|].
  unfold d_lookup in H. rewrite ?bind_assoc in H. erewrite bind_ok in H by reflexivity.
  destruct (dcache s !! (pa, name)) as [c|] eqn:Hc.
  - left. rewrite ?bind_assoc in H.
    destruct (dentry_at s (Ptr c)) as [de|] eqn:Hde.
    2:{ unfold dget in H. erewrite bind_ok_oops in H; [discriminate|].
        unfold update_dentry. now rewrite (bind_ok_oops _ _ _ (load_dentry_oops _ _ Hde)). }
    rewrite (bind_ok _ _ _ _ _ (dget_ok _ _ _ Hde)) in H.
    erewrite bind_ok in H by reflexivity. cbv beta iota in H.
    inversion H; subst. eauto.
  - right. erewrite bind_ok in H by reflexivity. cbv beta iota in H.
    destruct (dentry_slab s) as [|n] eqn:Hn.
    { rewrite (bind_ok _ _ _ _ _ (d_alloc_full _ _ _ _ Hb Hn)) in H. inversion H. }
    rewrite (bind_ok _ _ _ _ _ (d_alloc_ok _ _ _ _ _ Hb Hn)) in H. cbv beta iota in H.
    destruct (has_lookup (i_op pi)); [|discriminate].
    unfold simple_lookup in H. rewrite ?bind_assoc in H.
    rewrite (bind_ok _ _ _ _ _ (load_dentry_ok _ _ _ (d_alloc_done_new _ _ _ _ _ Hb))) in H.
    cbn [d_name] in H.
    destruct (Z.ltb_spec NAME_MAX (strlen name)) as [Hl|Hl].
    { erewrite bind_ok in H by reflexivity. inversion H. }
    unfold d_add_negative in H. rewrite ?bind_assoc in H.
    rewrite (bind_ok _ _ _ _ _ (load_dentry_ok _ _ _ (d_alloc_done_new _ _ _ _ _ Hb))) in H.
    rewrite ?bind_assoc in H. erewrite bind_ok in H by reflexivity.
    erewrite bind_ok in H by reflexivity. cbv beta iota in H.
    inversion H; subst. exists n. auto 10.
Qed.

Lemma extends_refl s : extends s s.
Proof. repeat split; eauto 10. Qed.

Lemma extends_trans s1 s2 s3 : extends s1 s2 -> extends s2 s3 -> extends s1 s3.
Proof.
  intros (D1 & C1 & I1) (D2 & C2 & I2). repeat split.
  - intros a d H. destruct (D1 a d H) as (d' & H' & Hn & Hp & Hi).
    destruct (D2 a d' H') as (d'' & H'' & Hn' & Hp' & Hi').
    exists d''. repeat split; try congruence.
    intros Hnn. rewrite <- (Hi Hnn). apply Hi'. rewrite (Hi Hnn). exact Hnn.
  - eauto.
  - intros a i H. destruct (I1 a i H) as (i' & H' & Hm).
    destruct (I2 a i' H') as (i'' & H'' & Hm'). exists i''. split; congruence.
Qed.

Lemma extends_put_dentry s a d e :
  dentry_at s (Ptr a) = Some d -> d_name e = d_name d -> d_parent e = d_parent d ->
  (d_inode d <> NULL -> d_inode e = d_inode d) ->
  extends s (put_dentry a e s).
Proof.
  intros Hd Hn Hp Hi. repeat split; eauto.
  intros b d0 H. destruct (decide (a = b)) as [<-|Hne].
  - rewrite (dentry_at_put_same _ _ _ _ Hd). rewrite Hd in H. inversion H; subst. eauto.
  - rewrite dentry_at_put_other by exact Hne. eauto 10.
Qed.

Lemma extends_put_inode s a i j :
  inode_at s (Ptr a) = Some i -> i_mode j = i_mode i -> extends s (put_inode a j s).
Proof.
  intros Hi Hm. repeat split; eauto 10.
  intros b i0 H. destruct (decide (a = b)) as [<-|Hne].
  - rewrite (inode_at_put_same _ _ _ _ Hi). rewrite Hi in H. inversion H; subst. eauto.
  - rewrite inode_at_put_other by exact Hne. eauto.
Qed.

Lemma extends_allocated n ino i s : extends s (allocated n ino i s).
Proof.
  repeat split; eauto 10.
  intros a j H. exists j. split; [|reflexivity]. now apply inode_at_allocated_old.
Qed.

Lemma extends_d_alloc_done pa b name n s :
  dentry_at s (Ptr pa) = Some b -> extends s (d_alloc_done pa b name n s).
Proof.
  intros Hb. unfold d_alloc_done.
  eapply extends_trans; [|eapply extends_put_dentry with (d := b); try reflexivity].
  - repeat split; eauto.
    intros a d H. exists d. repeat split; auto. unfold dentry_at in *. simpl.
    rewrite lookup_app_l; [exact H|]. now apply lookup_lt_Some in H.
  - unfold dentry_at in *. simpl. rewrite lookup_app_l; [exact Hb|].
    now apply lookup_lt_Some in Hb.
Qed.

Lemma extends_d_hash_done pa name a s :
  dcache s !! (pa, name) = None -> extends s (d_hash_done pa name a s).
Proof.
  intros Hc. repeat split; eauto 10.
  intros k b H. unfold d_hash_done. simpl.
  rewrite lookup_insert_ne; [exact H|]. intros <-. congruence.
Qed.

Lemma lookup_hash_extends name base s a s1 :
  __lookup_hash name base s = Ok (Ptr a) s1 -> extends s s1.
Proof.
  intros H. apply lookup_hash_inv in H.
  destruct H as (pa & b & pi & -> & Hb & Hpi & Hx & [(de & Hc & Hde & ->) | (n & Hc & Hn & -> & Hl & ->)]).
  - eapply extends_put_dentry; eauto.
  - eapply extends_trans; [apply (extends_d_alloc_done pa b name n s Hb)|].
    apply extends_d_hash_done. exact Hc.
Qed.

Lemma lookup_one_len_inv name base len s a s1 :
  lookup_one_len name base len s = Ok (Ptr a) s1 ->
  __lookup_one_len name len = 0 /\ __lookup_hash name base s = Ok (Ptr a) s1.
Proof.
  unfold lookup_one_len. destruct (Z.eqb_spec (__lookup_one_len name len) 0) as [E|E]; cbn [negb].
  - auto.
  - intros H. inversion H.
Qed.



Lemma lookup_hash_found name pa s b pi a de :
  dentry_at s (Ptr pa) = Some b -> inode_at s (d_inode b) = Some pi -> may_exec pi = 0 ->
  dcache s !! (pa, name) = Some a -> dentry_at s (Ptr a) = Some de ->
  __lookup_hash name (Ptr pa) s = Ok (Ptr a) (put_dentry a (set_d_count (d_count de + 1) de) s).
Proof.
  intros Hb Hpi Hx Hc Hde. unfold __lookup_hash.
  rewrite (bind_ok _ _ _ _ _ (load_dentry_ok _ _ _ Hb)).
  rewrite (bind_ok _ _ _ _ _ (load_inode_ok _ _ _ Hpi)).
  rewrite Hx. cbn [Z.eqb negb]. unfold d_lookup. rewrite ?bind_assoc.
  erewrite bind_ok by reflexivity. rewrite Hc. rewrite ?bind_assoc.
  rewrite (bind_ok _ _ _ _ _ (dget_ok _ _ _ Hde)). reflexivity.
Qed.

Lemma lookup_hash_cached name base s a s1 :
  __lookup_hash name base s = Ok (Ptr a) s1 ->
  exists pa de, base = Ptr pa /\ dcache s1 !! (pa, name) = Some a /\
    dentry_at s1 (Ptr a) = Some de /\
    (exists b pi, dentry_at s1 (Ptr pa) = Some b /\ inode_at s1 (d_inode b) = Some pi
                  /\ may_exec pi = 0).
Proof.
  intros H. pose proof (lookup_hash_extends _ _ _ _ _ H) as (D & _ & I).
  apply lookup_hash_inv in H.
  destruct H as (pa & b & pi & -> & Hb & Hpi & Hx & Hcase).
  assert (Hdir : exists b' pi', dentry_at s1 (Ptr pa) = Some b' /\
                   inode_at s1 (d_inode b') = Some pi' /\ may_exec pi' = 0).
  { destruct (D pa b Hb) as (b' & Hb' & _ & _ & Hi).
    assert (Hnn : d_inode b <> NULL) by (intros E; rewrite E in Hpi; discriminate).
    destruct (d_inode b) as [|ia|] eqn:Eb; try discriminate.
    destruct (I ia pi Hpi) as (pi' & Hpi' & Hmode).
    exists b', pi'. split; [exact Hb'|]. rewrite (Hi Hnn). split; [exact Hpi'|].
    unfold may_exec in *. now rewrite Hmode. }
  destruct Hcase as [(de & Hc & Hde & ->) | (n & Hc & Hn & -> & Hl & ->)].
  - exists pa, (set_d_count (d_count de + 1) de). split; [reflexivity|]. split; [exact Hc|].
    split; [eapply dentry_at_put_same, Hde|exact Hdir].
  - eexists pa, _. split; [reflexivity|]. split.
    + unfold d_hash_done. simpl. apply lookup_insert_eq.
    + split; [|exact Hdir]. change (dentry_at (d_hash_done pa name (length (dentries s)) (d_alloc_done pa b name n s)) (Ptr (length (dentries s))))
        with (dentry_at (d_alloc_done pa b name n s) (Ptr (length (dentries s)))).
      apply d_alloc_done_new. exact Hb.
Qed.

End DcacheFacts.

(** ** src/myfs.c: the operations of the directory table *)

Module MyfsFacts.
Import Num Stat Errno Kernel KernelFacts Myfs Boot.

Lemma myfs_get_inode_full sb dir mode dev s :
  inode_slab s = O -> Myfs.myfs_get_inode sb dir mode dev s = Ok NULL s.
Proof. intros H. unfold Myfs.myfs_get_inode. now rewrite (bind_ok _ _ _ _ _ (new_inode_full sb s H)). Qed.

Lemma myfs_get_inode_room sb dir mode dev s n :
  inode_slab s = S n ->
  dir = NULL \/ is_Some (inode_at s dir) ->
  exists ino i,
    Myfs.myfs_get_inode sb dir mode dev s
    = Ok (Ptr (length (inodes s))) (allocated n ino i s)
    /\ born s mode i
    /\ (dir = NULL -> i_mode i = u16 mode).
Proof.
  intros Hn Hdir. unfold Myfs.myfs_get_inode.
  rewrite (bind_ok _ _ _ _ _ (new_inode_room sb s n Hn)).
  step. step.
  destruct (inode_init_owner_new n (if u32 (last_ino s + 1) =? 0 then 1 else u32 (last_ino s + 1))
              (set_i_ino (if u32 (last_ino s + 1) =? 0 then 1 else u32 (last_ino s + 1)) (fresh_inode sb))
              s dir mode Hdir) as (m & u & g & Hown & Hfmt & Hnull).
  rewrite (bind_ok _ _ _ _ _ Hown).
  step. unfold mapping_set_gfp_mask, mapping_set_unevictable. step. step. step. step.
  unfold born, S_ISDIR.
  destruct (Z.eqb_spec (Z.land mode S_IFMT) S_IFREG) as [Er|Er].
  { step. do 2 eexists. split; [reflexivity|].
    rewrite Er. cbn. rewrite u16_fmt. rewrite Hfmt. fin. }
  destruct (Z.eqb_spec (Z.land mode S_IFMT) S_IFDIR) as [Ed|Ed].
  { step. unfold inc_nlink. step. do 2 eexists. split; [reflexivity|].
    cbn. rewrite u16_fmt. rewrite ?Hfmt. fin. }
  destruct (Z.eqb_spec (Z.land mode S_IFMT) S_IFLNK) as [El|El].
  { step. unfold inode_nohighmem, mapping_set_gfp_mask. step. do 2 eexists. split; [reflexivity|].
    cbn. rewrite u16_fmt. rewrite ?Hfmt. fin. }
  edestruct init_special_inode_new as (j & Hj & Hm & Hl & Ha & Hmt & Hc).
  rewrite (bind_ok _ _ _ _ _ Hj). do 2 eexists. split; [reflexivity|].
  rewrite Hm, Hl, Ha, Hmt, Hc. cbn. rewrite u16_fmt. fin.
Qed.

Lemma myfs_mknod_enospc dir dentry mode dev s d :
  inode_at s dir = Some d -> inode_slab s = O ->
  Myfs.myfs_mknod dir dentry mode dev s = Ok (- ENOSPC) s.
Proof.
  intros Hd Hn. unfold Myfs.myfs_mknod.
  rewrite (bind_ok _ _ _ _ _ (load_inode_ok _ _ _ Hd)).
  now rewrite (bind_ok _ _ _ _ _ (myfs_get_inode_full _ _ _ _ _ Hn)).
Qed.

Lemma myfs_mknod_ok da a mode dev s d n de :
  inode_at s (Ptr da) = Some d -> inode_slab s = S n ->
  dentry_at s (Ptr a) = Some de -> d_inode de = NULL ->
  exists ino i,
    Myfs.myfs_mknod (Ptr da) (Ptr a) mode dev s = Ok 0 (mknod_done da d a de n ino i s)
    /\ born s mode i.
Proof.
  intros Hd Hn Hde Hneg. unfold Myfs.myfs_mknod.
  rewrite (bind_ok _ _ _ _ _ (load_inode_ok _ _ _ Hd)).
  destruct (myfs_get_inode_room (i_sb d) (Ptr da) mode dev s n Hn) as (ino & i & Hg & Hb & _);
    [right; eauto|].
  rewrite (bind_ok _ _ _ _ _ Hg). exists ino, i. split; [|exact Hb].
  assert (Hde1 : dentry_at (allocated n ino i s) (Ptr a) = Some de) by exact Hde.
  erewrite bind_ok by (eapply d_instantiate_ok; [exact Hde1|exact Hneg|apply inode_at_allocated_new]).
  erewrite bind_ok by (eapply dget_ok; eapply dentry_at_put_same; exact Hde1).
  erewrite bind_ok by reflexivity.
  erewrite bind_ok.
  2:{ eapply update_inode_ok. rewrite !inode_at_put_dentry.
      apply inode_at_allocated_old. exact Hd. }
  unfold ret, mknod_done. f_equal. f_equal.
  unfold put_dentry. simpl. unfold set_dentries. simpl. now rewrite list_insert_insert_eq.
Qed.

Lemma myfs_mknod_inv dir dentry mode dev s r s' :
  Myfs.myfs_mknod dir dentry mode dev s = Ok r s' ->
  (r = - ENOSPC /\ s' = s /\ inode_slab s = O /\ is_Some (inode_at s dir))
  \/ (exists da d a de n ino i,
        dir = Ptr da /\ dentry = Ptr a /\
        inode_at s dir = Some d /\ inode_slab s = S n /\
        dentry_at s dentry = Some de /\ d_inode de = NULL /\
        r = 0 /\ s' = mknod_done da d a de n ino i s /\ born s mode i).
Proof.
  intros H.
  destruct (inode_at s dir) as [d|] eqn:Hd.
  2:{ unfold Myfs.myfs_mknod, bind in H. now rewrite (load_inode_oops _ _ Hd) in H. }
  destruct (inode_slab s) as [|n] eqn:Hn.
  { rewrite (myfs_mknod_enospc _ _ _ _ _ _ Hd Hn) in H. inversion H. left. eauto. }
  assert (exists da, dir = Ptr da) as [da ->] by (destruct dir; try discriminate; eauto).
  right.
  destruct (myfs_get_inode_room (i_sb d) (Ptr da) mode dev s n Hn) as (ino & i & Hg & Hb & _);
    [right; eauto|].
  destruct (dentry_at s dentry) as [de|] eqn:Hde.
  2:{ exfalso. unfold Myfs.myfs_mknod in H.
      rewrite (bind_ok _ _ _ _ _ (load_inode_ok _ _ _ Hd)) in H.
      rewrite (bind_ok _ _ _ _ _ Hg) in H. cbv beta iota in H. 
      erewrite bind_ok_oops in H by (apply d_instantiate_bad; exact Hde).
      discriminate. }
  assert (exists a, dentry = Ptr a) as [a ->] by (destruct dentry; try discriminate; eauto).
  destruct (d_inode de) eqn:Hneg.
  - destruct (myfs_mknod_ok da a mode dev s d n de Hd Hn Hde Hneg) as (ino' & i' & Hm & Hb').
    rewrite Hm in H. inversion H; subst. exists da, d, a, de, n, ino', i'. auto 12.
  - exfalso. unfold Myfs.myfs_mknod in H.
    rewrite (bind_ok _ _ _ _ _ (load_inode_ok _ _ _ Hd)) in H.
    rewrite (bind_ok _ _ _ _ _ Hg) in H. cbv beta iota in H.
    erewrite bind_ok_oops in H by (eapply d_instantiate_bug; [exact Hde|congruence]). discriminate.
  - exfalso. unfold Myfs.myfs_mknod in H.
    rewrite (bind_ok _ _ _ _ _ (load_inode_ok _ _ _ Hd)) in H.
    rewrite (bind_ok _ _ _ _ _ Hg) in H. cbv beta iota in H.
    erewrite bind_ok_oops in H by (eapply d_instantiate_bug; [exact Hde|congruence]). discriminate.
Qed.

(** Reading the state [mknod_done]. *)
Section MknodDone.
Variables (da a n : nat) (ino : Z) (d i : inode) (de : dentry) (s : kstate).
Hypothesis Hd : inode_at s (Ptr da) = Some d.
Hypothesis Hde : dentry_at s (Ptr a) = Some de.

Let s' := mknod_done da d a de n ino i s.

Lemma mknod_done_dir :
  inode_at s' (Ptr da) = Some (set_i_mtime (now s) (set_i_ctime (now s) d)).
Proof.
  unfold s', mknod_done. eapply inode_at_put_same.
  rewrite inode_at_put_dentry. eapply inode_at_allocated_old, Hd.
Qed.


Lemma mknod_done_old b j :
  b <> da -> inode_at s (Ptr b) = Some j -> inode_at s' (Ptr b) = Some j.
Proof.
  intros Hne Hj. unfold s', mknod_done.
  rewrite inode_at_put_other by congruence. rewrite inode_at_put_dentry.
  now apply inode_at_allocated_old.
Qed.

Lemma mknod_done_dentry :
  dentry_at s' (Ptr a)
  = Some (set_d_count (d_count de + 1) (set_d_inode (Ptr (length (inodes s))) de)).
Proof.
  unfold s', mknod_done. rewrite dentry_at_put_inode.
  eapply dentry_at_put_same. exact Hde.
Qed.

Lemma mknod_done_dentry_other b :
  b <> a -> dentry_at s' (Ptr b) = dentry_at s (Ptr b).
Proof.
  intros Hne. unfold s', mknod_done. rewrite dentry_at_put_inode.
  rewrite dentry_at_put_other by congruence. reflexivity.
Qed.

Lemma mknod_done_dcache : dcache s' = dcache s.
Proof. reflexivity. Qed.

Lemma mknod_done_now : now s' = now s.
Proof. reflexivity. Qed.
End MknodDone.

Lemma printk_d_iname_ok s p d : dentry_at s p = Some d -> Myfs.printk_d_iname p s = Ok tt s.
Proof. intros H. unfold Myfs.printk_d_iname. now rewrite (bind_ok _ _ _ _ _ (load_dentry_ok _ _ _ H)). Qed.

Lemma printk_d_iname_oops s p : dentry_at s p = None -> Myfs.printk_d_iname p s = @Oops unit.
Proof. intros H. unfold Myfs.printk_d_iname. now rewrite (bind_ok_oops _ _ _ (load_dentry_oops _ _ H)). Qed.

(** What [myfs_mkdir] returns, by cases on its input. *)
Lemma myfs_mkdir_inv dir dentry mode s r s' :
  Myfs.myfs_mkdir dir dentry mode s = Ok r s' ->
  (r = - ENOSPC /\ s' = s /\ inode_slab s = O /\ is_Some (inode_at s dir))
  \/ (exists da d a de n ino i,
        dir = Ptr da /\ dentry = Ptr a /\
        inode_at s dir = Some d /\ inode_slab s = S n /\
        dentry_at s dentry = Some de /\ d_inode de = NULL /\
        r = 0 /\ born s (Z.lor mode S_IFDIR) i /\
        s' = put_inode da
               (set_i_nlink (u32 (i_nlink d + 1)) (set_i_mtime (now s) (set_i_ctime (now s) d)))
               (mknod_done da d a de n ino i s)).
Proof.
  intros H. unfold Myfs.myfs_mkdir in H.
  destruct (Myfs.myfs_mknod dir dentry (Z.lor mode S_IFDIR) 0 s) as [r0 s0|] eqn:Hm;
    [|now rewrite (bind_ok_oops _ _ _ Hm) in H].
  rewrite (bind_ok _ _ _ _ _ Hm) in H.
  apply myfs_mknod_inv in Hm.
  destruct Hm as [(-> & -> & Hn & Hd) | (da & d & a & de & n & ino & i & -> & -> & Hd & Hn & Hde & Hneg & -> & -> & Hb)].
  - left. change (- ENOSPC =? 0) with false in H. cbv iota in H.
    erewrite bind_ok in H by reflexivity.
    destruct (dentry_at s dentry) as [de|] eqn:Hde.
    + rewrite (bind_ok _ _ _ _ _ (printk_d_iname_ok _ _ _ Hde)) in H. inversion H; subst; auto.
    + now rewrite (bind_ok_oops _ _ _ (printk_d_iname_oops _ _ Hde)) in H.
  - right. change (0 =? 0) with true in H. cbv iota in H.
    rewrite (bind_ok _ _ _ _ _ (inc_nlink_ok _ _ _ (mknod_done_dir da a n ino d i de s Hd))) in H.
    erewrite bind_ok in H.
    2:{ eapply printk_d_iname_ok. rewrite dentry_at_put_inode.
        apply (mknod_done_dentry da a n ino d i de s Hde). }
    inversion H; subst. exists da, d, a, de, n, ino, i. auto 12.
Qed.


Lemma myfs_create_inv dir dentry mode excl s r s' :
  Myfs.myfs_create dir dentry mode excl s = Ok r s' ->
  (r = - ENOSPC /\ s' = s /\ inode_slab s = O /\ is_Some (inode_at s dir))
  \/ (exists da d a de n ino i,
        dir = Ptr da /\ dentry = Ptr a /\
        inode_at s dir = Some d /\ inode_slab s = S n /\
        dentry_at s dentry = Some de /\ d_inode de = NULL /\
        r = 0 /\ born s (Z.lor mode S_IFREG) i /\
        s' = mknod_done da d a de n ino i s).
Proof.
  intros H. unfold Myfs.myfs_create in H.
  destruct (Myfs.myfs_mknod dir dentry (Z.lor mode S_IFREG) 0 s) as [r0 s0|] eqn:Hm;
    [|now rewrite (bind_ok_oops _ _ _ Hm) in H].
  rewrite (bind_ok _ _ _ _ _ Hm) in H.
  apply myfs_mknod_inv in Hm.
  destruct Hm as [(-> & -> & Hn & Hd) | (da & d & a & de & n & ino & i & -> & -> & Hd & Hn & Hde & Hneg & -> & -> & Hb)].
  - left.
    destruct (dentry_at s dentry) as [de|] eqn:Hde.
    + rewrite (bind_ok _ _ _ _ _ (printk_d_iname_ok _ _ _ Hde)) in H. inversion H; subst; auto.
    + now rewrite (bind_ok_oops _ _ _ (printk_d_iname_oops _ _ Hde)) in H.
  - right.
    erewrite bind_ok in H.
    2:{ eapply printk_d_iname_ok. apply (mknod_done_dentry da a n ino d i de s Hde). }
    inversion H; subst. exists da, d, a, de, n, ino, i. auto 12.
Qed.

Lemma myfs_symlink_inv dir dentry symname s r s' :
  Myfs.myfs_symlink dir dentry symname s = Ok r s' ->
  (r = - ENOSPC /\ s' = s /\ inode_slab s = O /\ is_Some (inode_at s dir))
  \/ (r = - ENOMEM /\ page_pool s = O /\ inode_slab s <> O)
  \/ (exists da d a de n ino i k,
        dir = Ptr da /\ dentry = Ptr a /\
        inode_at s dir = Some d /\ inode_slab s = S n /\ page_pool s = S k /\
        dentry_at s dentry = Some de /\ d_inode de = NULL /\
        r = 0 /\ born s (Z.lor S_IFLNK S_IRWXUGO) i /\
        s' = mknod_done da d a de n ino i (set_page_pool k s)).
Proof.
  intros H. unfold Myfs.myfs_symlink in H.
  destruct (inode_at s dir) as [d|] eqn:Hd;
    [|now rewrite (bind_ok_oops _ _ _ (load_inode_oops _ _ Hd)) in H].
  rewrite (bind_ok _ _ _ _ _ (load_inode_ok _ _ _ Hd)) in H.
  destruct (inode_slab s) as [|n] eqn:Hn.
  { rewrite (bind_ok _ _ _ _ _ (myfs_get_inode_full _ _ _ _ _ Hn)) in H.
    inversion H. left. eauto. }
  assert (exists da, dir = Ptr da) as [da ->] by (destruct dir; try discriminate; eauto).
  destruct (myfs_get_inode_room (i_sb d) (Ptr da) (Z.lor S_IFLNK S_IRWXUGO) 0 s n Hn)
    as (ino & i & Hg & Hb & _); [right; eauto|].
  rewrite (bind_ok _ _ _ _ _ Hg) in H. cbv beta iota in H.
  destruct (page_pool s) as [|k] eqn:Hk.
  { right. left.
    erewrite bind_ok in H by (apply page_symlink_enomem; exact Hk).
    change (- ENOMEM =? 0) with false in H. cbv iota in H.
    destruct (iput_new n ino i s) as [s1 Hs1].
    rewrite (bind_ok _ _ _ _ _ Hs1) in H. inversion H. auto. }
  right. right.
  rewrite (bind_ok _ _ _ _ _ (page_symlink_new n ino i s symname _ k Hk)) in H.
  change (0 =? 0) with true in H. cbv iota in H.
  set (i' := set_i_mapping (set_page0 (Some symname) (i_mapping i)) i) in *.
  set (s0 := set_page_pool k s) in *.
  destruct (dentry_at s dentry) as [de|] eqn:Hde.
  2:{ exfalso. rewrite !bind_assoc in H.
      erewrite bind_ok_oops in H by (apply d_instantiate_bad; exact Hde). discriminate. }
  assert (exists a, dentry = Ptr a) as [a ->] by (destruct dentry; try discriminate; eauto).
  destruct (d_inode de) eqn:Hneg.
  2,3: exfalso; rewrite !bind_assoc in H;
       erewrite bind_ok_oops in H by (eapply d_instantiate_bug; [exact Hde|congruence]);
       discriminate.
  rewrite !bind_assoc in H.
  assert (Hde1 : dentry_at (allocated n ino i' s0) (Ptr a) = Some de) by exact Hde.
  assert (Hd0 : inode_at s0 (Ptr da) = Some d) by exact Hd.
  change (length (inodes s)) with (length (inodes s0)) in H.
  erewrite bind_ok in H
    by (eapply d_instantiate_ok; [exact Hde1|exact Hneg|apply inode_at_allocated_new]).
  rewrite ?bind_assoc in H.
  erewrite bind_ok in H by (eapply dget_ok; eapply dentry_at_put_same; exact Hde1).
  rewrite ?bind_assoc in H.
  erewrite bind_ok in H by reflexivity.
  rewrite ?bind_assoc in H.
  erewrite bind_ok in H.
  2:{ eapply update_inode_ok. rewrite !inode_at_put_dentry.
      apply inode_at_allocated_old. exact Hd0. }
  inversion H; subst. exists da, d, a, de, n, ino, i', k.
  repeat (split; [first [reflexivity | assumption | now apply born_mapping]|]).
  unfold mknod_done. f_equal.
  unfold put_dentry. simpl. unfold set_dentries. simpl. now rewrite list_insert_insert_eq.
Qed.

Lemma myfs_tmpfile_inv dir dentry mode s r s' :
  Myfs.myfs_tmpfile dir dentry mode s = Ok r s' ->
  (r = - ENOSPC /\ s' = s /\ inode_slab s = O /\ is_Some (inode_at s dir))
  \/ (exists a de n ino i,
        dentry = Ptr a /\ is_Some (inode_at s dir) /\ inode_slab s = S n /\
        dentry_at s dentry = Some de /\ d_inode de = NULL /\
        d_unlinked s a de = true /\ strlen (d_name de) < DNAME_INLINE_LEN /\
        r = 0 /\ born s mode i /\
        s' = tmpfile_done a de n ino i s).
Proof.
  intros H. unfold Myfs.myfs_tmpfile in H.
  destruct (inode_at s dir) as [d|] eqn:Hd;
    [|now rewrite (bind_ok_oops _ _ _ (load_inode_oops _ _ Hd)) in H].
  rewrite (bind_ok _ _ _ _ _ (load_inode_ok _ _ _ Hd)) in H.
  destruct (inode_slab s) as [|n] eqn:Hn.
  { rewrite (bind_ok _ _ _ _ _ (myfs_get_inode_full _ _ _ _ _ Hn)) in H.
    inversion H. left. eauto. }
  right.
  destruct (myfs_get_inode_room (i_sb d) dir mode 0 s n Hn)
    as (ino & i & Hg & Hb & _); [right; eauto|].
  rewrite (bind_ok _ _ _ _ _ Hg) in H. cbv beta iota in H.
  unfold d_tmpfile, inode_dec_link_count, drop_nlink in H. rewrite !bind_assoc in H.
  rewrite (bind_ok _ _ _ _ _ (update_new _ _ _ _ _)) in H.
  set (i' := set_i_nlink (u32 (i_nlink i - 1)) i) in *.
  destruct (dentry_at s dentry) as [de|] eqn:Hde.
  2:{ exfalso. rewrite ?bind_assoc in H.
      erewrite bind_ok_oops in H by (apply load_dentry_oops; exact Hde). discriminate. }
  assert (Hde1 : dentry_at (allocated n ino i' s) dentry = Some de) by exact Hde.
  rewrite ?bind_assoc in H.
  rewrite (bind_ok _ _ _ _ _ (load_dentry_ok _ _ _ Hde1)) in H.
  rewrite ?bind_assoc in H.
  erewrite bind_ok in H by reflexivity.
  assert (exists a, dentry = Ptr a) as [a ->] by (destruct dentry; try discriminate; eauto).
  cbv beta iota in H.
  change (d_unlinked (id (allocated n ino i' s)) a de) with (d_unlinked s a de) in H.
  destruct (DNAME_INLINE_LEN <=? strlen (d_name de)) eqn:Hlen; [discriminate|].
  destruct (d_inode de) eqn:Hneg; try discriminate.
  destruct (d_unlinked s a de) eqn:Hu; try discriminate.
  cbn [is_null negb orb] in H. rewrite !bind_assoc in H.
  rewrite (bind_ok _ _ _ _ _ (load_inode_ok _ _ _ (inode_at_allocated_new _ _ _ _))) in H.
  rewrite ?bind_assoc in H.
  erewrite bind_ok in H by (eapply store_dentry_ok; exact Hde1).
  rewrite ?bind_assoc in H.
  erewrite bind_ok in H.
  2:{ eapply d_instantiate_ok.
      - eapply (dentry_at_put_same _ _ _ _ Hde1).
      - exact Hneg.
      - rewrite inode_at_put_dentry. apply inode_at_allocated_new. }
  inversion H; subst. exists a, de, n, ino, i.
  repeat (split; [first [reflexivity | assumption | eauto; lia]|]).
  unfold tmpfile_done.
  unfold put_dentry. simpl. unfold set_dentries. simpl. now rewrite list_insert_insert_eq.
Qed.

(** C8, amended: for a mode whose file type is S_IFREG, a [myfs_tmpfile]
    that returns 0 in a well-formed state attaches to the dentry a new
    regular-file inode with link count 0, and no name in any directory looks
    up to that inode. *)
Theorem tmpfile_isolated dir dentry mode s s' :
  wf s = true -> S_ISREG mode = true ->
  Myfs.myfs_tmpfile dir dentry mode s = Ok 0 s' ->
  exists de x i,
    dentry_at s' dentry = Some de /\ d_inode de = Ptr x
    /\ inode_at s' (Ptr x) = Some i
    /\ S_ISREG (i_mode i) = true /\ i_nlink i = 0
    /\ forall p nm, lookup s' p nm <> Some (Ptr x).
Proof.
  intros Hwf Hreg H. apply myfs_tmpfile_inv in H.
  destruct H as [(Hr & _) | (a & de & n & ino & i & -> & Hd & Hn & Hde & Hneg & Hu & Hlen & _ & Hb & ->)];
    [discriminate|].
  destruct (born_regular _ _ _ Hreg Hb) as (Hty & Hl).
  eexists _, (length (inodes s)), _. split.
  { unfold tmpfile_done. eapply dentry_at_put_same. exact Hde. }
  split; [reflexivity|]. split.
  { unfold tmpfile_done. rewrite inode_at_put_dentry. apply inode_at_allocated_new. }
  split; [exact Hty|]. split; [cbn; now rewrite Hl|].
  intros p nm Hlk.
  rewrite (lookup_unhashed s a de _ (tmpfile_done a de n ino i s) p nm Hwf Hde Hu eq_refl eq_refl) in Hlk.
  unfold lookup in Hlk.
  destruct (dcache s !! (p, nm)) as [b|]; [|discriminate]. cbn in Hlk.
  destruct (dentries s !! b) as [d|] eqn:Hdb; [|discriminate]. cbn in Hlk.
  inversion Hlk as [Hx]. pose proof (wf_no_dangling _ _ _ _ Hwf Hdb Hx). lia.
Qed.

(** An anonymous regular file of mode 0600 under the root. *)
Lemma tmpfile_isolated_witness :
  exists de x i,
    dentry_at (after (myfs_tmpfile (Ptr 0) (Ptr 1) (Z.lor S_IFREG (oct "600"))) with_anonymous)
      (Ptr 1) = Some de
    /\ d_inode de = Ptr x
    /\ inode_at (after (myfs_tmpfile (Ptr 0) (Ptr 1) (Z.lor S_IFREG (oct "600"))) with_anonymous)
         (Ptr x) = Some i
    /\ S_ISREG (i_mode i) = true /\ i_nlink i = 0
    /\ forall p nm,
         lookup (after (myfs_tmpfile (Ptr 0) (Ptr 1) (Z.lor S_IFREG (oct "600"))) with_anonymous)
           p nm <> Some (Ptr x).
Proof.
  apply (tmpfile_isolated (Ptr 0) (Ptr 1) (Z.lor S_IFREG (oct "600")) with_anonymous).
  - vm_compute. reflexivity.
  - vm_compute. reflexivity.
  - vm_compute. reflexivity.
Defined.

(** C8, as stated for every mode, fails: [myfs_tmpfile] passes the mode
    on as it is and adds no file type, so for the permission bits 0600 the
    inode it attaches is not a regular file (its mode has no type at all). *)
Lemma tmpfile_follows_the_mode :
  myfs_tmpfile (Ptr 0) (Ptr 1) (oct "600") with_anonymous
  = Ok 0 (after (myfs_tmpfile (Ptr 0) (Ptr 1) (oct "600")) with_anonymous)
  /\ d_inode (the_dentry (after (myfs_tmpfile (Ptr 0) (Ptr 1) (oct "600")) with_anonymous)
                (Ptr 1)) = Ptr 1
  /\ i_mode (the_inode (after (myfs_tmpfile (Ptr 0) (Ptr 1) (oct "600")) with_anonymous)
               (Ptr 1)) = oct "600"
  /\ S_ISREG (i_mode (the_inode (after (myfs_tmpfile (Ptr 0) (Ptr 1) (oct "600"))
                                   with_anonymous) (Ptr 1))) = false.
Proof. vm_compute. repeat split. Qed.

(** C5, amended: on src/myfs.c, a create, symlink, mkdir or mknod that
    returns 0 leaves the directory's modify and change times at the current
    time; a tmpfile that returns 0 leaves every inode that existed and every
    name lookup as they were. *)
Theorem dir_times_updated o dir dentry s s' :
  wf s = true ->
  Myfs.myfs_dir_inode_operations o dir dentry s = Ok 0 s' ->
  match o with
  | Myfs.op_tmpfile _ =>
      (forall b j, inode_at s (Ptr b) = Some j -> inode_at s' (Ptr b) = Some j)
      /\ (forall p nm, lookup s' p nm = lookup s p nm)
  | _ =>
      exists d', inode_at s' dir = Some d' /\ i_mtime d' = now s /\ i_ctime d' = now s
  end.
Proof.
  intros Hwf H. destruct o as [mode excl | symname | mode | mode dev | mode]; cbn in H.
  - apply myfs_create_inv in H.
    destruct H as [(Hr & _) | (da & d & a & de & n & ino & i & -> & -> & Hd & Hn & Hde & Hneg & _ & Hb & ->)];
      [discriminate|].
    eexists. split; [apply (mknod_done_dir da a n ino d i de s Hd)|]. split; reflexivity.
  - apply myfs_symlink_inv in H.
    destruct H as [(Hr & _) | [(Hr & _) | (da & d & a & de & n & ino & i & k & -> & -> & Hd & Hn & Hk & Hde & Hneg & _ & Hb & ->)]];
      try discriminate.
    eexists. split; [apply (mknod_done_dir da a n ino d i de (set_page_pool k s) Hd)|].
    split; reflexivity.
  - apply myfs_mkdir_inv in H.
    destruct H as [(Hr & _) | (da & d & a & de & n & ino & i & -> & -> & Hd & Hn & Hde & Hneg & _ & Hb & ->)];
      [discriminate|].
    eexists. split.
    { eapply inode_at_put_same. apply (mknod_done_dir da a n ino d i de s Hd). }
    split; reflexivity.
  - apply myfs_mknod_inv in H.
    destruct H as [(Hr & _) | (da & d & a & de & n & ino & i & -> & -> & Hd & Hn & Hde & Hneg & _ & -> & Hb)];
      [discriminate|].
    eexists. split; [apply (mknod_done_dir da a n ino d i de s Hd)|]. split; reflexivity.
  - apply myfs_tmpfile_inv in H.
    destruct H as [(Hr & _) | (a & de & n & ino & i & -> & Hd & Hn & Hde & Hneg & Hu & Hlen & _ & Hb & ->)];
      [discriminate|].
    split.
    + intros b j Hj. unfold tmpfile_done. rewrite inode_at_put_dentry.
      now apply inode_at_allocated_old.
    + intros p nm.
      exact (lookup_unhashed s a de _ (tmpfile_done a de n ino i s) p nm Hwf Hde Hu eq_refl eq_refl).
Qed.

(** A mknod of "a" under the root, a thousand ticks after the mount. *)
Lemma dir_times_updated_witness :
  exists d',
    inode_at (after (myfs_dir_inode_operations (op_mknod (Z.lor S_IFREG (oct "644")) 0)
                       (Ptr 0) (Ptr 1)) (set_now 2000 with_negative)) (Ptr 0) = Some d'
    /\ i_mtime d' = now (set_now 2000 with_negative)
    /\ i_ctime d' = now (set_now 2000 with_negative).
Proof.
  apply (dir_times_updated (op_mknod (Z.lor S_IFREG (oct "644")) 0) (Ptr 0) (Ptr 1)
           (set_now 2000 with_negative)).
  - vm_compute. reflexivity.
  - vm_compute. reflexivity.
Defined.

(** With no inode left, each of the five operations of src/myfs.c returns
    [-ENOSPC] and leaves the state as it was. *)
Lemma myfs_ops_enospc o dir dentry s d de :
  inode_at s dir = Some d -> dentry_at s dentry = Some de -> inode_slab s = O ->
  Myfs.myfs_dir_inode_operations o dir dentry s = Ok (- ENOSPC) s.
Proof.
  intros Hd Hde Hn.
  pose proof (myfs_mknod_enospc dir dentry) as Hm.
  destruct o as [mode excl | symname | mode | mode dev | mode]; cbn.
  - unfold Myfs.myfs_create. rewrite (bind_ok _ _ _ _ _ (Hm _ 0 _ _ Hd Hn)).
    now rewrite (bind_ok _ _ _ _ _ (printk_d_iname_ok _ _ _ Hde)).
  - unfold Myfs.myfs_symlink. rewrite (bind_ok _ _ _ _ _ (load_inode_ok _ _ _ Hd)).
    now rewrite (bind_ok _ _ _ _ _ (myfs_get_inode_full _ _ _ _ _ Hn)).
  - unfold Myfs.myfs_mkdir. rewrite (bind_ok _ _ _ _ _ (Hm _ 0 _ _ Hd Hn)).
    change (- ENOSPC =? 0) with false. cbv iota. erewrite bind_ok by reflexivity.
    now rewrite (bind_ok _ _ _ _ _ (printk_d_iname_ok _ _ _ Hde)).
  - now apply Hm with (d := d).
  - unfold Myfs.myfs_tmpfile. rewrite (bind_ok _ _ _ _ _ (load_inode_ok _ _ _ Hd)).
    now rewrite (bind_ok _ _ _ _ _ (myfs_get_inode_full _ _ _ _ _ Hn)).
Qed.



(** C2, amended: an inode that [myfs_get_inode] returns has link count 2
    when it is a directory and link count 1 otherwise, whatever the caller
    passes; the caller supplies no link count. *)
Theorem fresh_link_count sb dir mode dev s :
  dir = NULL \/ is_Some (inode_at s dir) ->
  exists p s',
    Myfs.myfs_get_inode sb dir mode dev s = Ok p s'
    /\ (p = NULL \/
        exists i, inode_at s' p = Some i
                  /\ S_ISDIR (i_mode i) = S_ISDIR mode
                  /\ i_nlink i = if S_ISDIR (i_mode i) then 2 else 1).
Proof.
  intros Hdir. destruct (inode_slab s) as [|n] eqn:Hn.
  - exists NULL, s. split; [now apply myfs_get_inode_full|now left].
  - destruct (myfs_get_inode_room sb dir mode dev s n Hn Hdir) as (ino & i & Hg & (Hl & Hm & _) & _).
    eexists _, _. split; [exact Hg|]. right. exists i.
    split; [apply inode_at_allocated_new|].
    assert (E : S_ISDIR (i_mode i) = S_ISDIR mode) by (unfold S_ISDIR; now rewrite Hm).
    split; [exact E|]. now rewrite E.
Qed.

(** An allocation of a directory under the root of a mounted tree. *)
Lemma fresh_link_count_witness :
  exists p s',
    myfs_get_inode 0 (Ptr 0) (Z.lor S_IFDIR (oct "755")) 0 mounted = Ok p s'
    /\ (p = NULL \/
        exists i, inode_at s' p = Some i
                  /\ S_ISDIR (i_mode i) = S_ISDIR (Z.lor S_IFDIR (oct "755"))
                  /\ i_nlink i = if S_ISDIR (i_mode i) then 2 else 1).
Proof.
  apply (fresh_link_count 0 (Ptr 0) (Z.lor S_IFDIR (oct "755")) 0 mounted).
  right. exists (the_inode mounted (Ptr 0)). vm_compute. reflexivity.
Defined.

(** C2, as stated, fails: a regular-file inode comes back with link
    count 1, where the spec's wording gives the count the caller supplies,
    0 for a node not yet linked. *)
Lemma regular_inode_starts_with_one_link :
  myfs_get_inode 0 (Ptr 0) (Z.lor S_IFREG (oct "644")) 0 mounted
  = Ok (Ptr 1) (after (myfs_get_inode 0 (Ptr 0) (Z.lor S_IFREG (oct "644")) 0) mounted)
  /\ i_nlink (the_inode (after (myfs_get_inode 0 (Ptr 0) (Z.lor S_IFREG (oct "644")) 0) mounted)
                (Ptr 1)) = 1
  /\ i_nlink (the_inode (after (myfs_get_inode 0 (Ptr 0) (Z.lor S_IFREG (oct "644")) 0) mounted)
                (Ptr 1)) <> SpecWords.spec_initial_link_count false 0.
Proof. vm_compute. repeat split; discriminate. Qed.

End MyfsFacts.

(** ** src/unnamed/part_000: creation by name *)

Module AufsFacts.
Import Num Stat Errno Kernel KernelFacts DcacheFacts Aufs Boot.

Lemma new_inode_2_6_full sb s : inode_slab s = O -> new_inode_2_6 sb s = Ok NULL s.
Proof. intros H. unfold new_inode_2_6. now rewrite (bind_ok _ _ _ _ _ (new_inode_full sb s H)). Qed.

Lemma new_inode_2_6_room sb s n :
  inode_slab s = S n ->
  new_inode_2_6 sb s
  = Ok (Ptr (length (inodes s)))
       (allocated n (u32 (last_ino s + 1)) (set_i_ino (u32 (last_ino s + 1)) (fresh_inode sb)) s).
Proof.
  intros H. unfold new_inode_2_6. rewrite (bind_ok _ _ _ _ _ (new_inode_room sb s n H)).
  cbv beta iota. erewrite bind_ok by reflexivity. erewrite bind_ok by reflexivity.
  change (set_last_ino (u32 (last_ino (allocated n (last_ino s) (fresh_inode sb) s) + 1))
            (allocated n (last_ino s) (fresh_inode sb) s))
    with (allocated n (u32 (last_ino s + 1)) (fresh_inode sb) s).
  now rewrite (bind_ok _ _ _ _ _ (update_new _ _ _ _ _)).
Qed.

Lemma aufs_get_inode_full sb mode dev s :
  inode_slab s = O -> Aufs.myfs_get_inode sb mode dev s = Ok NULL s.
Proof.
  intros H. unfold Aufs.myfs_get_inode.
  now rewrite (bind_ok _ _ _ _ _ (new_inode_2_6_full sb s H)).
Qed.

Lemma aufs_get_inode_room sb mode dev s n :
  inode_slab s = S n ->
  exists ino i,
    Aufs.myfs_get_inode sb mode dev s = Ok (Ptr (length (inodes s))) (allocated n ino i s)
    /\ born s mode i.
Proof.
  intros Hn. unfold Aufs.myfs_get_inode.
  rewrite (bind_ok _ _ _ _ _ (new_inode_2_6_room sb s n Hn)). cbv beta iota.
  step. step. step. unfold born, S_ISDIR.
  destruct (Z.eqb_spec (Z.land mode S_IFMT) S_IFREG) as [Er|Er].
  { step. do 2 eexists. split; [reflexivity|].
    rewrite Er. cbn. rewrite u16_fmt. fin. }
  destruct (Z.eqb_spec (Z.land mode S_IFMT) S_IFDIR) as [Ed|Ed].
  { step. step. do 2 eexists. split; [reflexivity|].
    cbn. rewrite u16_fmt. fin. }
  edestruct init_special_inode_new as (j & Hj & Hm & Hl & Ha & Hmt & Hc).
  rewrite (bind_ok _ _ _ _ _ Hj). do 2 eexists. split; [reflexivity|].
  rewrite Hm, Hl, Ha, Hmt, Hc. cbn. rewrite u16_fmt. fin.
Qed.

Lemma aufs_mknod_eexist dir dentry mode dev s de :
  dentry_at s dentry = Some de -> d_inode de <> NULL ->
  Aufs.myfs_mknod dir dentry mode dev s = Ok (- EEXIST) s.
Proof.
  intros Hde Hp. unfold Aufs.myfs_mknod.
  rewrite (bind_ok _ _ _ _ _ (load_dentry_ok _ _ _ Hde)).
  destruct (d_inode de); [congruence|reflexivity|reflexivity].
Qed.

Lemma aufs_mknod_eperm dir dentry mode dev s de d :
  dentry_at s dentry = Some de -> d_inode de = NULL ->
  inode_at s dir = Some d -> inode_slab s = O ->
  Aufs.myfs_mknod dir dentry mode dev s = Ok (- EPERM) s.
Proof.
  intros Hde Hp Hd Hn. unfold Aufs.myfs_mknod.
  rewrite (bind_ok _ _ _ _ _ (load_dentry_ok _ _ _ Hde)). rewrite Hp. cbn [is_null negb].
  rewrite (bind_ok _ _ _ _ _ (load_inode_ok _ _ _ Hd)).
  now rewrite (bind_ok _ _ _ _ _ (aufs_get_inode_full _ _ _ _ Hn)).
Qed.

Lemma aufs_mknod_ok dir a mode dev s de d n :
  dentry_at s (Ptr a) = Some de -> d_inode de = NULL ->
  inode_at s dir = Some d -> inode_slab s = S n ->
  exists ino i,
    Aufs.myfs_mknod dir (Ptr a) mode dev s = Ok 0 (Aufs.aufs_mknod_done a de n ino i s)
    /\ born s mode i.
Proof.
  intros Hde Hp Hd Hn. unfold Aufs.myfs_mknod.
  rewrite (bind_ok _ _ _ _ _ (load_dentry_ok _ _ _ Hde)). rewrite Hp. cbn [is_null negb].
  rewrite (bind_ok _ _ _ _ _ (load_inode_ok _ _ _ Hd)).
  destruct (aufs_get_inode_room (i_sb d) mode dev s n Hn) as (ino & i & Hg & Hb).
  rewrite (bind_ok _ _ _ _ _ Hg). cbv beta iota. exists ino, i. split; [|exact Hb].
  assert (Hde1 : dentry_at (allocated n ino i s) (Ptr a) = Some de) by exact Hde.
  erewrite bind_ok by (eapply d_instantiate_ok; [exact Hde1|exact Hp|apply inode_at_allocated_new]).
  erewrite bind_ok by (eapply dget_ok; eapply dentry_at_put_same; exact Hde1).
  unfold ret, Aufs.aufs_mknod_done. f_equal.
  unfold put_dentry. simpl. unfold set_dentries. simpl. now rewrite list_insert_insert_eq.
Qed.

Lemma aufs_mknod_inv dir dentry mode dev s r s' :
  Aufs.myfs_mknod dir dentry mode dev s = Ok r s' ->
  exists a de, dentry = Ptr a /\ dentry_at s dentry = Some de /\
    ((r = - EEXIST /\ s' = s /\ d_inode de <> NULL)
     \/ (r = - EPERM /\ s' = s /\ d_inode de = NULL /\ inode_slab s = O /\
         is_Some (inode_at s dir))
     \/ (exists d n ino i,
           r = 0 /\ d_inode de = NULL /\ inode_at s dir = Some d /\ inode_slab s = S n /\
           born s mode i /\ s' = Aufs.aufs_mknod_done a de n ino i s)).
Proof.
  intros H.
  destruct (dentry_at s dentry) as [de|] eqn:Hde.
  2:{ unfold Aufs.myfs_mknod in H.
      now rewrite (bind_ok_oops _ _ _ (load_dentry_oops _ _ Hde)) in H. }
  assert (exists a, dentry = Ptr a) as [a ->] by (destruct dentry; try discriminate; eauto).
  exists a, de. split; [reflexivity|]. split; [reflexivity|].
  destruct (d_inode de) eqn:Hp.
  2,3: left; erewrite aufs_mknod_eexist in H by (first [exact Hde | congruence]);
       inversion H; subst; repeat split; congruence.
  right.
  destruct (inode_at s dir) as [d|] eqn:Hd.
  2:{ unfold Aufs.myfs_mknod in H.
      rewrite (bind_ok _ _ _ _ _ (load_dentry_ok _ _ _ Hde)) in H. rewrite Hp in H.
      cbn [is_null negb] in H.
      now rewrite (bind_ok_oops _ _ _ (load_inode_oops _ _ Hd)) in H. }
  destruct (inode_slab s) as [|n] eqn:Hn.
  - left. rewrite (aufs_mknod_eperm _ _ _ _ _ _ _ Hde Hp Hd Hn) in H. inversion H. eauto 10.
  - right. destruct (aufs_mknod_ok dir a mode dev s de d n Hde Hp Hd Hn) as (ino & i & Hm & Hb).
    rewrite Hm in H. inversion H; subst. exists d, n, ino, i. auto 10.
Qed.

Lemma aufs_mknod_extends dir dentry mode dev s r s' :
  Aufs.myfs_mknod dir dentry mode dev s = Ok r s' -> extends s s'.
Proof.
  intros H. apply aufs_mknod_inv in H.
  destruct H as (a & de & -> & Hde & [(_ & -> & _) | [(_ & -> & _) | (d & n & ino & i & _ & Hp & Hd & Hn & Hb & ->)]]);
    try apply extends_refl.
  unfold Aufs.aufs_mknod_done.
  eapply extends_trans; [apply extends_allocated|].
  eapply extends_put_dentry with (d := de); try reflexivity.
  - exact Hde.
  - intros Hnn. congruence.
Qed.

Lemma aufs_mkdir_inv dir dentry mode s r s' :
  Aufs.myfs_mkdir dir dentry mode s = Ok r s' ->
  (r <> 0 /\ Aufs.myfs_mknod dir dentry (Z.lor mode S_IFDIR) 0 s = Ok r s')
  \/ (exists da d s0,
        r = 0 /\ dir = Ptr da /\ inode_at s dir = Some d /\
        Aufs.myfs_mknod dir dentry (Z.lor mode S_IFDIR) 0 s = Ok 0 s0 /\
        inode_at s0 dir = Some d /\
        s' = put_inode da (set_i_nlink (u32 (i_nlink d + 1)) d) s0).
Proof.
  intros H. unfold Aufs.myfs_mkdir in H.
  destruct (Aufs.myfs_mknod dir dentry (Z.lor mode S_IFDIR) 0 s) as [r0 s0|] eqn:Hm;
    [|now rewrite (bind_ok_oops _ _ _ Hm) in H].
  rewrite (bind_ok _ _ _ _ _ Hm) in H.
  destruct (Z.eqb_spec r0 0) as [->|Hr].
  - right. pose proof Hm as Hm'. apply aufs_mknod_inv in Hm'.
    destruct Hm' as (a & de & -> & Hde & [(Hr & _) | [(Hr & _) | (d & n & ino & i & _ & Hp & Hd & Hn & Hb & ->)]]);
      try discriminate.
    assert (exists da, dir = Ptr da) as [da ->] by (destruct dir; try discriminate; eauto).
    assert (Hd0 : inode_at (Aufs.aufs_mknod_done a de n ino i s) (Ptr da) = Some d).
    { unfold Aufs.aufs_mknod_done. rewrite inode_at_put_dentry. now apply inode_at_allocated_old. }
    rewrite ?bind_assoc in H.
    erewrite bind_ok in H
      by exact (update_inode_ok _ _ _ (fun i => set_i_nlink (u32 (i_nlink i + 1)) i) Hd0).
    inversion H; subst. exists da, d, (Aufs.aufs_mknod_done a de n ino i s). auto 10.
  - left. erewrite bind_ok in H by reflexivity. inversion H; subst. auto.
Qed.

Lemma aufs_mkdir_extends dir dentry mode s r s' :
  Aufs.myfs_mkdir dir dentry mode s = Ok r s' -> extends s s'.
Proof.
  intros H. apply aufs_mkdir_inv in H.
  destruct H as [(_ & Hm) | (da & d & s0 & -> & -> & Hd & Hm & Hd0 & ->)].
  - eapply aufs_mknod_extends, Hm.
  - eapply extends_trans; [eapply aufs_mknod_extends, Hm|].
    eapply extends_put_inode; [exact Hd0|reflexivity].
Qed.

Lemma by_mode_inv mode dir dentry s r s' :
  by_mode mode dir dentry s = Ok r s' ->
  extends s s' /\ exists a, dentry = Ptr a.
Proof.
  unfold by_mode. destruct (Z.land mode S_IFMT =? S_IFDIR); intros H.
  - split; [eapply aufs_mkdir_extends, H|].
    apply aufs_mkdir_inv in H.
    destruct H as [(_ & Hm) | (da & d & s0 & _ & _ & _ & Hm & _)];
      apply aufs_mknod_inv in Hm; destruct Hm as (a & de & -> & _); eauto.
  - split; [eapply aufs_mknod_extends, H|].
    apply aufs_mknod_inv in H. destruct H as (a & de & -> & _); eauto.
Qed.

Lemma create_by_name_inv m name mode parent d0 s r q s' :
  Aufs.myfs_create_by_name m name mode parent d0 s = Ok (r, q) s' ->
  (r = - EFAULT /\ q = d0 /\ s' = s /\ parent_of m parent = NULL)
  \/ (exists pa b pi a s1,
        parent_of m parent = Ptr pa /\ dentry_at s (Ptr pa) = Some b /\
        inode_at s (d_inode b) = Some pi /\ q = Ptr a /\
        lookup_one_len name (Ptr pa) (strlen name) s = Ok (Ptr a) s1 /\
        by_mode mode (d_inode b) (Ptr a) s1 = Ok r s').
Proof.
  intros H. unfold Aufs.myfs_create_by_name in H.
  assert (Hres : exists p0, parent_of m parent = p0 /\
            ((do parent <- ret p0;
              if is_null parent then ret (- EFAULT, d0)
              else
                do p <- load_dentry parent;
                load_inode (d_inode p) ;;
                do dentry <- lookup_one_len name parent (strlen name);
                do error <- by_mode mode (d_inode p) dentry;
                ret (error, dentry)) s = Ok (r, q) s')).
  { unfold parent_of. destruct parent as [|pa|e]; cbn [is_null] in *.
    - destruct m as [| e | v]; [eexists; split; [reflexivity|exact H] | discriminate |].
      destruct (Aufs.mnt_sb v); eexists; (split; [reflexivity|]); exact H.
    - eexists; split; [reflexivity|exact H].
    - eexists; split; [reflexivity|exact H]. }
  clear H. destruct Hres as (p0 & Hp0 & H). rewrite Hp0.
  erewrite bind_ok in H by reflexivity.
  destruct p0 as [|pa|e]; cbn [is_null] in H.
  - left. inversion H. auto.
  - right.
    destruct (dentry_at s (Ptr pa)) as [b|] eqn:Hb;
      [|now rewrite (bind_ok_oops _ _ _ (load_dentry_oops _ _ Hb)) in H].
    rewrite (bind_ok _ _ _ _ _ (load_dentry_ok _ _ _ Hb)) in H.
    destruct (inode_at s (d_inode b)) as [pi|] eqn:Hpi;
      [|now rewrite (bind_ok_oops _ _ _ (load_inode_oops _ _ Hpi)) in H].
    rewrite (bind_ok _ _ _ _ _ (load_inode_ok _ _ _ Hpi)) in H.
    destruct (lookup_one_len name (Ptr pa) (strlen name) s) as [q0 s1|] eqn:Hl;
      [|now rewrite (bind_ok_oops _ _ _ Hl) in H].
    rewrite (bind_ok _ _ _ _ _ Hl) in H.
    destruct (by_mode mode (d_inode b) q0 s1) as [r0 s2|] eqn:Hm;
      [|now rewrite (bind_ok_oops _ _ _ Hm) in H].
    rewrite (bind_ok _ _ _ _ _ Hm) in H. inversion H; subst.
    destruct (by_mode_inv _ _ _ _ _ _ Hm) as (_ & a & ->).
    exists pa, b, pi, a, s1. auto 10.
  - rewrite (bind_ok_oops _ _ _ (load_dentry_oops s (ERR_PTR e) eq_refl)) in H. discriminate.
Qed.

Lemma by_mode_eexist mode dir a s de :
  dentry_at s (Ptr a) = Some de -> d_inode de <> NULL ->
  by_mode mode dir (Ptr a) s = Ok (- EEXIST) s.
Proof.
  intros Hde Hp. unfold by_mode, Aufs.myfs_mkdir, Aufs.myfs_create.
  destruct (Z.land mode S_IFMT =? S_IFDIR).
  - rewrite (bind_ok _ _ _ _ _ (aufs_mknod_eexist _ _ _ _ _ _ Hde Hp)). reflexivity.
  - now apply aufs_mknod_eexist with (de := de).
Qed.










(** The counterpart of [fresh_link_count] for [myfs_get_inode] of
    part_000. *)
Lemma aufs_fresh_link_count sb mode dev s :
  exists p s',
    Aufs.myfs_get_inode sb mode dev s = Ok p s'
    /\ (p = NULL \/
        exists i, inode_at s' p = Some i
                  /\ S_ISDIR (i_mode i) = S_ISDIR mode
                  /\ i_nlink i = if S_ISDIR (i_mode i) then 2 else 1).
Proof.
  destruct (inode_slab s) as [|n] eqn:Hn.
  - exists NULL, s. split; [now apply aufs_get_inode_full|now left].
  - destruct (aufs_get_inode_room sb mode dev s n Hn) as (ino & i & Hg & (Hl & Hm & _)).
    eexists _, _. split; [exact Hg|]. right. exists i.
    split; [apply inode_at_allocated_new|].
    assert (E : S_ISDIR (i_mode i) = S_ISDIR mode) by (unfold S_ISDIR; now rewrite Hm).
    split; [exact E|]. now rewrite E.
Qed.

(** C4 at the failing input: with no inode left, [myfs_mknod] of part_000
    returns [-EPERM] on a negative dentry, which is not [-ENOSPC]; the
    function of the same name in src/myfs.c returns [-ENOSPC] in the same
    state. *)
Theorem aufs_mknod_reports_eperm dir dentry mode dev s d de :
  inode_at s dir = Some d -> dentry_at s dentry = Some de -> d_inode de = NULL ->
  inode_slab s = O ->
  Aufs.myfs_mknod dir dentry mode dev s = Ok (- EPERM) s
  /\ - EPERM <> - ENOSPC
  /\ Myfs.myfs_mknod dir dentry mode dev s = Ok (- ENOSPC) s.
Proof.
  intros Hd Hde Hneg Hn. split; [now apply aufs_mknod_eperm with (de := de) (d := d)|].
  split; [discriminate|]. now apply MyfsFacts.myfs_mknod_enospc with (d := d).
Qed.

(** The tree [myfs_init] builds, a negative dentry "new" in the root, and
    no inode left. *)
Lemma aufs_mknod_reports_eperm_witness :
  Aufs.myfs_mknod (Ptr 0) (Ptr 9) (Z.lor S_IFREG S_IRUGO) 0 (exhausted loaded_negative)
  = Ok (- EPERM) (exhausted loaded_negative)
  /\ - EPERM <> - ENOSPC
  /\ Myfs.myfs_mknod (Ptr 0) (Ptr 9) (Z.lor S_IFREG S_IRUGO) 0 (exhausted loaded_negative)
     = Ok (- ENOSPC) (exhausted loaded_negative).
Proof.
  apply (aufs_mknod_reports_eperm (Ptr 0) (Ptr 9) (Z.lor S_IFREG S_IRUGO) 0
           (exhausted loaded_negative)
           (the_inode loaded_negative (Ptr 0)) (the_dentry loaded_negative (Ptr 9)));
    vm_compute; reflexivity.
Defined.

(** C5, as stated, fails on part_000: a successful [myfs_mknod] at time
    2000 leaves the directory's modify and change times at 1000. *)
Lemma aufs_mknod_keeps_dir_times :
  Aufs.myfs_mknod (Ptr 0) (Ptr 9) (Z.lor S_IFREG S_IRUGO) 0 (set_now 2000 loaded_negative)
  = Ok 0 (after (Aufs.myfs_mknod (Ptr 0) (Ptr 9) (Z.lor S_IFREG S_IRUGO) 0)
            (set_now 2000 loaded_negative))
  /\ now (set_now 2000 loaded_negative) = 2000
  /\ i_mtime (the_inode (after (Aufs.myfs_mknod (Ptr 0) (Ptr 9) (Z.lor S_IFREG S_IRUGO) 0)
                           (set_now 2000 loaded_negative)) (Ptr 0)) = 1000
  /\ i_ctime (the_inode (after (Aufs.myfs_mknod (Ptr 0) (Ptr 9) (Z.lor S_IFREG S_IRUGO) 0)
                           (set_now 2000 loaded_negative)) (Ptr 0)) = 1000
  /\ lookup (after (Aufs.myfs_mknod (Ptr 0) (Ptr 9) (Z.lor S_IFREG S_IRUGO) 0)
               (set_now 2000 loaded_negative)) 0 "new" = Some (Ptr 9).
Proof. vm_compute. repeat split. Qed.

End AufsFacts.

(** ** src/myfs.c: mount options and the mount itself *)

Module MountFacts.
Import Num Stat Errno Kernel KernelFacts MyfsFacts Myfs.

Lemma fs_parse_unknown p :
  key p <> "mode" -> fst (fs_parse myfs_fs_parameters p) = - ENOPARAM.
Proof.
  intros Hk. unfold fs_parse, fs_lookup_key, myfs_fs_parameters.
  assert (Hnamed : filter (fun q : fs_parameter_spec => name q = key p)
             [ {| name := "mode"; ptype := fs_param_is_u32 8; opt := Opt_mode;
                  neg_with_no := false |} ] = []).
  { rewrite filter_cons. cbn [name]. destruct (decide ("mode" = key p)); [congruence|reflexivity]. }
  rewrite Hnamed. cbn [find last].
  destruct (match type p with fs_value_is_flag => true | _ => false end); [|reflexivity].
  destruct (key p) as [|c0 [|c1 [|c2 r]]]; try reflexivity.
  destruct (Ascii.eqb c0 "n" && Ascii.eqb c1 "o"); [|reflexivity].
  rewrite filter_cons. cbn [name].
  destruct (decide ("mode" = String c2 r)); [|reflexivity].
  rewrite filter_cons. cbn [neg_with_no].
  destruct (decide (false = true)); [discriminate|reflexivity].
Qed.

Lemma fs_parse_mode p :
  key p = "mode" ->
  fs_parse myfs_fs_parameters p
  = match type p with
    | fs_value_is_string =>
        match kstrtouint (string_ p) 8 with
        | inr v => (Opt_mode, mk_result false false v)
        | inl _ => (- EINVAL, mk_result false false 0)
        end
    | _ => (- EINVAL, mk_result false false 0)
    end.
Proof.
  intros Hk. unfold fs_parse, fs_lookup_key. rewrite Hk.
  destruct (type p); reflexivity.
Qed.

Lemma mask_range v : 0 <= Z.land v S_IALLUGO <= S_IALLUGO.
Proof.
  assert (E : Z.land v S_IALLUGO = v mod 4096).
  { change S_IALLUGO with (Z.ones 12). now rewrite Z.land_ones. }
  rewrite E. change S_IALLUGO with 4095.
  pose proof (Z.mod_pos_bound v 4096 ltac:(lia)). lia.
Qed.

Lemma mask_u16 v : u16 (Z.land v S_IALLUGO) = Z.land v S_IALLUGO.
Proof.
  pose proof (mask_range v). unfold u16, wrap. apply Z.mod_small.
  change S_IALLUGO with 4095 in *. change (2 ^ 16) with 65536. lia.
Qed.

(** What [myfs_parse_param] does with one parameter. *)
Lemma myfs_parse_param_cases fc fsi p :
  s_fs_info fc = Some fsi ->
  myfs_parse_param fc p
  = if bool_decide (key p = "mode") then
      if bad_mode p then Some (- EINVAL, fc)
      else
        match kstrtouint (string_ p) 8 with
        | inr v => Some (0, mk_fc (Some (mk_fsi (mk_opts (Z.land v S_IALLUGO)))) (ops_set fc))
        | inl _ => None
        end
    else Some (0, fc).
Proof.
  intros Hf. unfold myfs_parse_param, bad_mode. rewrite Hf.
  destruct (decide (key p = "mode")) as [Hk|Hk].
  - rewrite (bool_decide_eq_true_2 _ Hk). rewrite (fs_parse_mode p Hk). cbn [andb].
    destruct (type p); try reflexivity.
    destruct (kstrtouint (string_ p) 8) as [e|v]; [reflexivity|].
    cbn. now rewrite mask_u16.
  - rewrite (bool_decide_eq_false_2 _ Hk).
    pose proof (fs_parse_unknown p Hk) as Hu.
    destruct (fs_parse myfs_fs_parameters p) as [o res]. cbn in Hu. subst o. reflexivity.
Qed.

Lemma parse_params_result fc fsi ps :
  s_fs_info fc = Some fsi ->
  exists r fc' fsi',
    parse_params fc ps = Some (r, fc') /\ s_fs_info fc' = Some fsi' /\
    (r = 0 \/ r = - EINVAL) /\
    (r < 0 <-> Exists (fun p => bad_mode p = true) ps).
Proof.
  revert fc fsi. induction ps as [|p rest IH]; intros fc fsi Hf.
  - exists 0, fc, fsi. cbn. repeat split; auto; try lia. intros H. inversion H.
  - cbn [parse_params]. rewrite (myfs_parse_param_cases fc fsi p Hf).
    destruct (bool_decide (key p = "mode")) eqn:Hk.
    + destruct (bad_mode p) eqn:Hbad.
      * exists (- EINVAL), fc, fsi. cbn. repeat split; auto; try lia.
      * unfold bad_mode in Hbad. rewrite Hk in Hbad. cbn [andb] in Hbad.
        destruct (type p) eqn:Ht; try discriminate.
        destruct (kstrtouint (string_ p) 8) as [e|v] eqn:Hv; [discriminate|].
        cbn [Z.ltb Z.compare].
        destruct (IH _ _ (eq_refl : s_fs_info (mk_fc (Some (mk_fsi (mk_opts (Z.land v S_IALLUGO)))) (ops_set fc)) = Some _))
          as (r & fc' & fsi' & Hr & Hf' & Hcode & Hiff).
        exists r, fc', fsi'. repeat split; auto.
        -- intros Hlt. apply Exists_cons_tl. now apply Hiff.
        -- intros Hex. apply Hiff. inversion Hex as [? ? Hp|]; subst; [|assumption].
           unfold bad_mode in Hp. rewrite Hk, Ht, Hv in Hp. discriminate.
    + cbn [Z.ltb Z.compare].
      destruct (IH _ _ Hf) as (r & fc' & fsi' & Hr & Hf' & Hcode & Hiff).
      exists r, fc', fsi'. repeat split; auto.
      * intros Hlt. apply Exists_cons_tl. now apply Hiff.
      * intros Hex. apply Hiff. inversion Hex as [? ? Hp|]; subst; [|assumption].
        unfold bad_mode in Hp. rewrite Hk in Hp. discriminate.
Qed.

Lemma kzalloc_fsi_ok s k :
  kmalloc_pool s = S k ->
  kzalloc_fsi s = Ok (Some (mk_fsi (mk_opts 0))) (set_kmalloc_pool k s).
Proof. unfold kzalloc_fsi. now intros ->. Qed.

(** Mounting with options the parser accepts, in a kernel with memory
    left: the root directory carries the parsed mode. *)
Lemma mount_ok sbid ps s fc' fsi k n j :
  parse_params (mk_fc (Some (mk_fsi (mk_opts RAMFS_DEFAULT_MODE))) true) ps = Some (0, fc') ->
  s_fs_info fc' = Some fsi ->
  Z.land (mode (mount_opts fsi)) S_IFMT = 0 ->
  kmalloc_pool s = S k -> inode_slab s = S n -> dentry_slab s = S j ->
  exists sb s' rd ri,
    mount sbid ps s = Ok (0, Some sb) s'
    /\ sb_fs_info sb = Some fsi
    /\ dentry_at s' (s_root sb) = Some rd
    /\ inode_at s' (d_inode rd) = Some ri
    /\ i_mode ri = u16 (Z.lor S_IFDIR (mode (mount_opts fsi)))
    /\ i_nlink ri = 2.
Proof.
  intros Hp Hf Hperm Hk Hn Hj. unfold mount, myfs_init_fs_context.
  rewrite ?bind_assoc. rewrite (bind_ok _ _ _ _ _ (kzalloc_fsi_ok s k Hk)).
  cbv beta iota. erewrite bind_ok by reflexivity. cbv beta iota.
  change (0 <? 0) with false. cbv iota. rewrite Hp. change (0 <? 0) with false. cbv iota.
  unfold myfs_get_tree, myfs_fill_super. cbn [blank_sb sb_fs_info]. rewrite Hf.
  set (s0 := set_kmalloc_pool k s).
  destruct (myfs_get_inode_room sbid NULL (Z.lor S_IFDIR (mode (mount_opts fsi))) 0 s0 n Hn)
    as (ino & i & Hg & Hb & Hmode); [now left|].
  rewrite ?bind_assoc. rewrite (bind_ok _ _ _ _ _ Hg).
  rewrite ?bind_assoc.
  erewrite bind_ok by (eapply d_make_root_ok; [apply inode_at_allocated_new|exact Hj]).
  cbn [is_null]. erewrite bind_ok by reflexivity. cbv beta iota.
  change (0 <? 0) with false. cbv iota.
  eexists _, _, _, i. split; [reflexivity|]. cbn [sb_fs_info s_root].
  split; [reflexivity|]. split; [apply rooted_root|]. cbn [d_inode].
  split.
  { unfold rooted. rewrite inode_at_put_dentry. apply inode_at_allocated_new. }
  split; [now apply Hmode|].
  destruct Hb as (Hl & _). rewrite Hl. unfold S_ISDIR.
  rewrite Z.land_lor_distr_l. change (Z.land S_IFDIR S_IFMT) with S_IFDIR.
  now rewrite Hperm.
Qed.

(** C7: mounting with no options, in a kernel with memory left, succeeds
    with mode 0755 in the mount's info, a root directory of mode
    S_IFDIR|0755, and nothing echoed by [myfs_show_options]; mounting with
    mode=700 gives a root directory of mode S_IFDIR|0700, permission bits
    0700, and the option echoed. *)
Theorem mount_mode_reported sbid s k n j :
  kmalloc_pool s = S k -> inode_slab s = S n -> dentry_slab s = S j ->
  (exists sb s' fsi rd ri,
     mount sbid [] s = Ok (0, Some sb) s'
     /\ sb_fs_info sb = Some fsi
     /\ mode (mount_opts fsi) = RAMFS_DEFAULT_MODE
     /\ dentry_at s' (s_root sb) = Some rd /\ inode_at s' (d_inode rd) = Some ri
     /\ i_mode ri = Z.lor S_IFDIR (oct "755")
     /\ forall m, myfs_show_options m fsi = (0, m))
  /\ (exists sb s' fsi rd ri,
        mount sbid [opt_mode "700"] s = Ok (0, Some sb) s'
        /\ sb_fs_info sb = Some fsi
        /\ dentry_at s' (s_root sb) = Some rd /\ inode_at s' (d_inode rd) = Some ri
        /\ i_mode ri = Z.lor S_IFDIR (oct "700")
        /\ Z.land (i_mode ri) S_IALLUGO = oct "700"
        /\ forall m, myfs_show_options m fsi = (0, m +:+ ",mode=700")).
Proof.
  intros Hk Hn Hj. split.
  - destruct (mount_ok sbid [] s _ (mk_fsi (mk_opts RAMFS_DEFAULT_MODE)) k n j
                eq_refl eq_refl eq_refl Hk Hn Hj)
      as (sb & s' & rd & ri & Hm & Hf & Hrd & Hri & Hmode & _).
    exists sb, s', (mk_fsi (mk_opts RAMFS_DEFAULT_MODE)), rd, ri.
    repeat (split; [first [assumption|reflexivity]|]). reflexivity.
  - destruct (mount_ok sbid [opt_mode "700"] s _ (mk_fsi (mk_opts (oct "700"))) k n j
                eq_refl eq_refl eq_refl Hk Hn Hj)
      as (sb & s' & rd & ri & Hm & Hf & Hrd & Hri & Hmode & _).
    exists sb, s', (mk_fsi (mk_opts (oct "700"))), rd, ri.
    repeat (split; [first [assumption|reflexivity]|]).
    split; [now rewrite Hmode|]. reflexivity.
Qed.

(** A freshly booted kernel with room for four objects of each kind. *)
Lemma mount_mode_reported_witness :
  (exists sb s' fsi rd ri,
     mount 0 [] (Boot.boot 4 0) = Ok (0, Some sb) s'
     /\ sb_fs_info sb = Some fsi
     /\ mode (mount_opts fsi) = RAMFS_DEFAULT_MODE
     /\ dentry_at s' (s_root sb) = Some rd /\ inode_at s' (d_inode rd) = Some ri
     /\ i_mode ri = Z.lor S_IFDIR (oct "755")
     /\ forall m, myfs_show_options m fsi = (0, m))
  /\ (exists sb s' fsi rd ri,
        mount 0 [opt_mode "700"] (Boot.boot 4 0) = Ok (0, Some sb) s'
        /\ sb_fs_info sb = Some fsi
        /\ dentry_at s' (s_root sb) = Some rd /\ inode_at s' (d_inode rd) = Some ri
        /\ i_mode ri = Z.lor S_IFDIR (oct "700")
        /\ Z.land (i_mode ri) S_IALLUGO = oct "700"
        /\ forall m, myfs_show_options m fsi = (0, m +:+ ",mode=700")).
Proof.
  apply (mount_mode_reported 0 (Boot.boot 4 0) 3 3 3); vm_compute; reflexivity.
Defined.

Lemma mount_aborts sbid ps s k :
  Exists (fun p => bad_mode p = true) ps -> kmalloc_pool s = S k ->
  mount sbid ps s = Ok (- EINVAL, None) (set_kmalloc_pool k s).
Proof.
  intros Hbad Hk. unfold mount, myfs_init_fs_context.
  rewrite ?bind_assoc. rewrite (bind_ok _ _ _ _ _ (kzalloc_fsi_ok s k Hk)).
  cbv beta iota. erewrite bind_ok by reflexivity. cbv beta iota.
  change (0 <? 0) with false. cbv iota.
  destruct (parse_params_result (mk_fc (Some (mk_fsi (mk_opts RAMFS_DEFAULT_MODE))) true) _ ps eq_refl)
    as (r & fc' & fsi' & Hr & _ & Hcode & Hiff).
  rewrite Hr. apply Hiff in Hbad. destruct Hcode as [-> | ->]; [lia|]. reflexivity.
Qed.



(** C10: a [mode] option whose value converts to [v] stores [v & 07777]
    in the mount context, a value between 0 and 07777. *)
Theorem mode_masked fc fsi v str :
  s_fs_info fc = Some fsi -> kstrtouint str 8 = inr v ->
  exists fsi',
    myfs_parse_param fc (opt_mode str) = Some (0, mk_fc (Some fsi') (ops_set fc))
    /\ mode (mount_opts fsi') = Z.land v S_IALLUGO
    /\ 0 <= mode (mount_opts fsi') <= oct "7777".
Proof.
  intros Hf Hv. rewrite (myfs_parse_param_cases fc fsi (opt_mode str) Hf).
  unfold bad_mode. cbn [key type string_ opt_mode]. rewrite Hv.
  rewrite (bool_decide_eq_true_2 _ (eq_refl : "mode" = "mode")). cbn [andb].
  eexists. split; [reflexivity|]. cbn [mode mount_opts]. split; [reflexivity|].
  apply mask_range.
Qed.

(** The option [mode=140777], a socket's file type over 0777. *)
Lemma mode_masked_witness :
  exists fsi',
    myfs_parse_param (mk_fc (Some (mk_fsi (mk_opts RAMFS_DEFAULT_MODE))) true) (opt_mode "140777")
    = Some (0, mk_fc (Some fsi') true)
    /\ mode (mount_opts fsi') = Z.land (oct "140777") S_IALLUGO
    /\ 0 <= mode (mount_opts fsi') <= oct "7777".
Proof.
  apply (mode_masked (mk_fc (Some (mk_fsi (mk_opts RAMFS_DEFAULT_MODE))) true)
           (mk_fsi (mk_opts RAMFS_DEFAULT_MODE)) (oct "140777") "140777").
  - reflexivity.
  - vm_compute. reflexivity.
Defined.

(** The mode stays within the permission bits through any sequence of
    parameters. *)
Lemma parse_params_mode_range fc fsi ps r fc' :
  s_fs_info fc = Some fsi -> 0 <= mode (mount_opts fsi) <= oct "7777" ->
  parse_params fc ps = Some (r, fc') ->
  exists fsi', s_fs_info fc' = Some fsi' /\ 0 <= mode (mount_opts fsi') <= oct "7777".
Proof.
  revert fc fsi. induction ps as [|p rest IH]; intros fc fsi Hf Hrange H.
  - inversion H; subst. eauto.
  - cbn [parse_params] in H. rewrite (myfs_parse_param_cases fc fsi p Hf) in H.
    destruct (bool_decide (key p = "mode")).
    + destruct (bad_mode p).
      * inversion H; subst. eauto.
      * destruct (kstrtouint (string_ p) 8) as [e|v]; [discriminate|].
        cbn [Z.ltb Z.compare] in H.
        eapply (IH (mk_fc (Some (mk_fsi (mk_opts (Z.land v S_IALLUGO)))) (ops_set fc))
                   (mk_fsi (mk_opts (Z.land v S_IALLUGO)))); [reflexivity| |exact H].
        cbn [mode mount_opts]. apply mask_range.
    + cbn [Z.ltb Z.compare] in H. eapply IH; eauto.
Qed.

End MountFacts.

(** ** Well-formed states under the primitive state changes *)

Module WfFacts.
Import Num Stat Errno Kernel KernelFacts.

Lemma wf_intro s :
  (forall k a, dcache s !! k = Some a ->
     exists d, dentries s !! a = Some d /\ (d_parent d, d_name d) = k) ->
  (forall a d x, dentries s !! a = Some d -> d_inode d = Ptr x ->
     (x < length (inodes s))%nat) ->
  wf s = true.
Proof.
  intros Hc Hn. unfold wf. apply andb_true_intro. split.
  - unfold dcache_ok. apply forallb_forall. intros [k a] Hin.
    apply list_elem_of_In in Hin. apply elem_of_map_to_list in Hin.
    destruct (Hc _ _ Hin) as (d & -> & Hk). now apply bool_decide_eq_true_2.
  - unfold no_dangling. apply forallb_forall. intros d Hin.
    apply list_elem_of_In in Hin. apply list_elem_of_lookup_1 in Hin as [a Ha].
    destruct (d_inode d) as [|x|] eqn:Hx; try reflexivity.
    apply bool_decide_eq_true_2. eapply Hn; eauto.
Qed.

Lemma wf_put_dentry s a d e :
  wf s = true -> dentry_at s (Ptr a) = Some d ->
  d_name e = d_name d -> d_parent e = d_parent d ->
  (forall x, d_inode e = Ptr x -> (x < length (inodes s))%nat) ->
  wf (put_dentry a e s) = true.
Proof.
  intros Hwf Hd Hn Hp Hi. apply wf_intro.
  - intros k b Hk. destruct (wf_hashed _ _ _ Hwf Hk) as (f & Hf & Hkf).
    destruct (decide (a = b)) as [<-|Hne].
    + exists e. split; [exact (dentry_at_put_same _ _ _ _ Hd)|].
      cbn in Hd. rewrite Hd in Hf. inversion Hf; subst f. now rewrite Hn, Hp.
    + exists f. split; [|exact Hkf].
      assert (Ho : dentries (put_dentry a e s) !! b = dentries s !! b)
        by exact (dentry_at_put_other s a b e Hne).
      now rewrite Ho.
  - intros b f x Hf Hx. change (length (inodes (put_dentry a e s))) with (length (inodes s)).
    destruct (decide (a = b)) as [<-|Hne].
    + assert (Ho : dentries (put_dentry a e s) !! a = Some e)
        by exact (dentry_at_put_same _ _ _ _ Hd).
      rewrite Ho in Hf. inversion Hf; subst f. now apply Hi.
    + assert (Ho : dentries (put_dentry a e s) !! b = dentries s !! b)
        by exact (dentry_at_put_other s a b e Hne).
      rewrite Ho in Hf. exact (wf_no_dangling _ _ _ _ Hwf Hf Hx).
Qed.

Lemma wf_put_inode s a i : wf s = true -> wf (put_inode a i s) = true.
Proof.
  intros Hwf. apply wf_intro.
  - intros k b Hk. exact (wf_hashed _ _ _ Hwf Hk).
  - intros b f x Hf Hx. unfold put_inode. cbn. rewrite length_insert.
    exact (wf_no_dangling _ _ _ _ Hwf Hf Hx).
Qed.

Lemma wf_allocated n ino i s : wf s = true -> wf (allocated n ino i s) = true.
Proof.
  intros Hwf. apply wf_intro.
  - intros k b Hk. exact (wf_hashed _ _ _ Hwf Hk).
  - intros b f x Hf Hx. unfold allocated. cbn. rewrite length_app. cbn.
    pose proof (wf_no_dangling _ _ _ _ Hwf Hf Hx). lia.
Qed.

Lemma wf_d_alloc_done pa b name n s :
  wf s = true -> dentry_at s (Ptr pa) = Some b -> wf (d_alloc_done pa b name n s) = true.
Proof.
  intros Hwf Hb. unfold d_alloc_done.
  set (s0 := set_dentry_slab n (set_dentries (dentries s ++ [_]) s)).
  assert (Hb0 : dentry_at s0 (Ptr pa) = Some b).
  { unfold dentry_at, s0. cbn. rewrite lookup_app_l; [exact Hb|].
    now apply lookup_lt_Some in Hb. }
  assert (Hwf0 : wf s0 = true).
  { apply wf_intro.
    - intros k c Hk. destruct (wf_hashed _ _ _ Hwf Hk) as (f & Hf & Hkf).
      exists f. split; [|exact Hkf]. unfold s0. cbn.
      rewrite lookup_app_l; [exact Hf|]. now apply lookup_lt_Some in Hf.
    - intros c f x Hf Hx. unfold s0 in *. cbn in *.
      destruct (decide (c < length (dentries s))%nat) as [Hlt|Hge].
      + rewrite lookup_app_l in Hf by exact Hlt. exact (wf_no_dangling _ _ _ _ Hwf Hf Hx).
      + rewrite lookup_app_r in Hf by lia.
        destruct (c - length (dentries s))%nat; cbn in Hf; [|discriminate].
        inversion Hf; subst f. discriminate. }
  eapply wf_put_dentry; [exact Hwf0|exact Hb0|reflexivity|reflexivity|].
  intros x Hx. cbn in Hx. exact (wf_no_dangling s0 pa b x Hwf0 Hb0 Hx).
Qed.

Lemma wf_d_hash_done pa name a d s :
  wf s = true -> dentry_at s (Ptr a) = Some d -> d_parent d = pa -> d_name d = name ->
  wf (d_hash_done pa name a s) = true.
Proof.
  intros Hwf Hd Hp Hn. apply wf_intro.
  - intros k b Hk. unfold d_hash_done in Hk. cbn in Hk.
    destruct (decide (k = (pa, name))) as [->|Hne].
    + rewrite lookup_insert_eq in Hk. inversion Hk; subst b.
      exists d. split; [exact Hd|]. now rewrite Hp, Hn.
    + rewrite lookup_insert_ne in Hk by congruence. exact (wf_hashed _ _ _ Hwf Hk).
  - intros b f x Hf Hx. exact (wf_no_dangling _ _ _ _ Hwf Hf Hx).
Qed.

End WfFacts.

(** ** src/myfs.c: every outcome of the directory operations *)

Module MyfsOutcomes.
Import Num Stat Errno Kernel KernelFacts Myfs Boot MyfsFacts Shapes.

Lemma inode_init_owner_cases n ino i s dir mode :
  dir = NULL \/ is_Some (inode_at s dir) ->
  exists m g,
    inode_init_owner (Ptr (length (inodes s))) dir mode (allocated n ino i s)
    = Ok tt (allocated n ino (set_i_mode (u16 m) (set_i_gid g (set_i_uid (fsuid (current s)) i))) s)
    /\ Z.land m S_IFMT = Z.land mode S_IFMT
    /\ (dir = NULL -> m = mode /\ g = fsgid (current s))
    /\ (S_ISDIR mode = false -> Z.land mode S_ISGID = 0 -> m = mode)
    /\ (forall d, inode_at s dir = Some d ->
        if Z.land (i_mode d) S_ISGID =? 0 then g = fsgid (current s)
        else g = i_gid d /\ (S_ISDIR mode = true -> m = Z.lor mode S_ISGID)).
Proof.
  intros Hdir. unfold inode_init_owner. step. step.
  destruct Hdir as [-> | [d Hd]].
  - do 2 eexists.
    split; [|split; [reflexivity|split; [split; reflexivity|split; [reflexivity|discriminate]]]].
    do 2 step. apply update_new.
  - assert (Hnn : dir <> NULL) by (intros ->; discriminate).
    destruct dir as [|a|e]; [congruence| |discriminate].
    step.
    destruct (Z.land (i_mode d) S_ISGID =? 0) eqn:Eg; cbn [negb].
    + do 2 eexists. split; [|split; [reflexivity|split; [congruence|split; [reflexivity|]]]].
      * do 2 step. apply update_new.
      * intros d' Hd'. rewrite Hd in Hd'. inversion Hd'; subst d'. now rewrite Eg.
    + destruct (S_ISDIR mode) eqn:Ed.
      * do 2 eexists.
        split; [|split; [apply lor_sgid_fmt|split; [congruence|split; [discriminate|]]]].
        -- do 2 step. apply update_new.
        -- intros d' Hd'. rewrite Hd in Hd'. inversion Hd'; subst d'. rewrite Eg. now split.
      * destruct (Z.land mode (Z.lor S_ISGID S_IXGRP) =? Z.lor S_ISGID S_IXGRP) eqn:Ex.
        -- match goal with |- context [if ?c then _ else _] => destruct c end.
           ++ do 2 eexists. split; [|split; [apply clear_sgid_fmt|split; [congruence|split]]].
              ** do 2 step. apply update_new.
              ** intros _ Hz. exfalso. apply Z.eqb_eq in Ex.
                 assert (Hb : Z.testbit (Z.land mode (Z.lor S_ISGID S_IXGRP)) 10 = true)
                   by (rewrite Ex; reflexivity).
                 rewrite Z.land_spec in Hb. apply andb_prop in Hb as [Hb _].
                 assert (Hc : Z.testbit (Z.land mode S_ISGID) 10 = true)
                   by (rewrite Z.land_spec, Hb; reflexivity).
                 rewrite Hz in Hc. discriminate.
              ** intros d' Hd'. rewrite Hd in Hd'. inversion Hd'; subst d'. rewrite Eg.
                 split; [reflexivity|discriminate].
           ++ do 2 eexists. split; [|split; [reflexivity|split; [congruence|split; [reflexivity|]]]].
              ** do 2 step. apply update_new.
              ** intros d' Hd'. rewrite Hd in Hd'. inversion Hd'; subst d'. rewrite Eg.
                 split; [reflexivity|discriminate].
        -- cbn [andb]. do 2 eexists.
           split; [|split; [reflexivity|split; [congruence|split; [reflexivity|]]]].
           ++ do 2 step. apply update_new.
           ++ intros d' Hd'. rewrite Hd in Hd'. inversion Hd'; subst d'. rewrite Eg.
              split; [reflexivity|discriminate].
Qed.

Lemma init_special_inode_fields n ino i s mode dev :
  exists j,
    init_special_inode (Ptr (length (inodes s))) mode dev (allocated n ino i s)
    = Ok tt (allocated n ino j s)
    /\ i_mode j = u16 mode /\ i_nlink j = i_nlink i
    /\ i_atime j = i_atime i /\ i_mtime j = i_mtime i /\ i_ctime j = i_ctime i
    /\ i_ino j = i_ino i /\ i_sb j = i_sb i /\ i_uid j = i_uid i /\ i_gid j = i_gid i
    /\ i_mapping j = i_mapping i /\ i_op j = i_op i /\ i_blocks j = i_blocks i
    /\ (S_ISCHR mode = true -> i_fop j = def_chr_fops /\ i_rdev j = dev)
    /\ (S_ISBLK mode = true -> i_fop j = def_blk_fops /\ i_rdev j = dev)
    /\ (S_ISFIFO mode = true -> i_fop j = pipefifo_fops).
Proof.
  unfold init_special_inode. step.
  unfold S_ISCHR, S_ISBLK, S_ISFIFO. rewrite !u16_fmt.
  destruct (Z.eqb_spec (Z.land mode S_IFMT) S_IFCHR) as [E|E].
  { eexists; split; [apply update_new|]. rewrite ?E. cbn.
    repeat split; try reflexivity; try discriminate. }
  destruct (Z.eqb_spec (Z.land mode S_IFMT) S_IFBLK) as [E1|E1].
  { eexists; split; [apply update_new|]. rewrite ?E1. cbn.
    repeat split; try reflexivity; try discriminate. }
  destruct (Z.eqb_spec (Z.land mode S_IFMT) S_IFIFO) as [E2|E2].
  { eexists; split; [apply update_new|]. rewrite ?E2. cbn.
    repeat split; try reflexivity; try discriminate. }
  eexists; split; [reflexivity|]. cbn.
  repeat split; try reflexivity; try discriminate.
Qed.

Lemma next_ino_range x :
  0 < (if u32 (x + 1) =? 0 then 1 else u32 (x + 1)) <= UINT_MAX.
Proof.
  assert (H : 0 <= u32 (x + 1) < 2 ^ 32) by (apply Z.mod_pos_bound; lia).
  unfold UINT_MAX. destruct (Z.eqb_spec (u32 (x + 1)) 0); lia.
Qed.

Lemma myfs_get_inode_made sb dir mode dev s n :
  inode_slab s = S n ->
  dir = NULL \/ is_Some (inode_at s dir) ->
  exists ino i,
    Myfs.myfs_get_inode sb dir mode dev s
    = Ok (Ptr (length (inodes s))) (allocated n ino i s)
    /\ born s mode i
    /\ made s sb mode dev ino i
    /\ (dir = NULL -> i_mode i = u16 mode /\ i_gid i = fsgid (current s))
    /\ owned s dir mode i.
Proof.
  intros Hn Hdir. unfold Myfs.myfs_get_inode.
  rewrite (bind_ok _ _ _ _ _ (new_inode_room sb s n Hn)).
  step. step.
  pose proof (next_ino_range (last_ino s)) as Hr.
  set (ino := if u32 (last_ino s + 1) =? 0 then 1 else u32 (last_ino s + 1)) in *.
  destruct (inode_init_owner_cases n ino (set_i_ino ino (fresh_inode sb))
              s dir mode Hdir) as (m & g & Hown & Hfmt & Hnull & Hsg & Hgrp).
  rewrite (bind_ok _ _ _ _ _ Hown).
  step. unfold mapping_set_gfp_mask, mapping_set_unevictable. step. step. step. step.
  assert (Hgrp' : forall j, i_gid j = g -> (S_ISDIR mode = true -> i_mode j = u16 m) ->
                         owned s dir mode j).
  { intros j Hjg Hjm d0 Hd0. specialize (Hgrp d0 Hd0).
    destruct (Z.land (i_mode d0) S_ISGID =? 0); [congruence|].
    destruct Hgrp as [Hg1 Hg2]. split; [congruence|].
    intros Hx. rewrite (Hjm Hx), (Hg2 Hx). reflexivity. }
  clear Hgrp.
  unfold born, made, S_ISDIR, S_ISREG, S_ISLNK, S_ISCHR, S_ISBLK, S_ISFIFO in *.
  destruct (Z.eqb_spec (Z.land mode S_IFMT) S_IFREG) as [Er|Er].
  { step. do 2 eexists. split; [reflexivity|].
    rewrite Er in *. cbn. rewrite u16_fmt. rewrite Hfmt.
    repeat split; try assumption; try reflexivity; try discriminate; try lia;
      try (intros; f_equal; now auto); try (intros; f_equal; now apply Hnull);
      try (apply Hgrp'; [reflexivity|intros _; reflexivity]). }
  destruct (Z.eqb_spec (Z.land mode S_IFMT) S_IFDIR) as [Ed|Ed].
  { step. unfold inc_nlink. step. do 2 eexists. split; [reflexivity|].
    rewrite Ed in *. cbn. rewrite u16_fmt. rewrite ?Hfmt.
    repeat split; try assumption; try reflexivity; try discriminate; try lia;
      try (intros; f_equal; now auto); try (intros; f_equal; now apply Hnull);
      try (apply Hgrp'; [reflexivity|intros _; reflexivity]). }
  destruct (Z.eqb_spec (Z.land mode S_IFMT) S_IFLNK) as [El|El].
  { step. unfold inode_nohighmem, mapping_set_gfp_mask. step. do 2 eexists. split; [reflexivity|].
    rewrite El in *. cbn. rewrite u16_fmt. rewrite ?Hfmt.
    repeat split; try assumption; try reflexivity; try discriminate; try lia;
      try (intros; f_equal; now auto); try (intros; f_equal; now apply Hnull);
      try (apply Hgrp'; [reflexivity|intros _; reflexivity]). }
  edestruct init_special_inode_fields as
    (j & Hj & Hm & Hl & Ha & Hmt & Hc & Hi & Hsb & Hu & Hg & Hmap & Hop & _ & Hchr & Hblk & Hff).
  rewrite (bind_ok _ _ _ _ _ Hj). do 2 eexists. split; [reflexivity|].
  unfold S_ISCHR, S_ISBLK, S_ISFIFO in *.
  rewrite Hm, Hl, Ha, Hmt, Hc, Hi, Hsb, Hu, Hg, Hmap. cbn. rewrite u16_fmt.
  destruct (Z.eqb_spec (Z.land mode S_IFMT) S_IFDIR); [contradiction|].
  repeat split; try assumption; try reflexivity; try discriminate; try lia;
    try (intros; f_equal; now auto); try (intros; now apply Hnull);
    try (intros Hx; apply Z.eqb_eq in Hx; contradiction);
    try (edestruct Hchr as [? ?]; [eassumption|]; assumption);
    try (edestruct Hblk as [? ?]; [eassumption|]; assumption);
    try (now apply Hff);
    try (apply Hgrp'; [rewrite Hg; reflexivity|discriminate]).
Qed.

Lemma myfs_mknod_made da a mode dev s d n de :
  inode_at s (Ptr da) = Some d -> inode_slab s = S n ->
  dentry_at s (Ptr a) = Some de -> d_inode de = NULL ->
  exists ino i,
    Myfs.myfs_mknod (Ptr da) (Ptr a) mode dev s = Ok 0 (mknod_done da d a de n ino i s)
    /\ born s mode i /\ made s (i_sb d) mode dev ino i
    /\ Myfs.myfs_get_inode (i_sb d) (Ptr da) mode dev s
       = Ok (Ptr (length (inodes s))) (allocated n ino i s).
Proof.
  intros Hd Hn Hde Hneg. unfold Myfs.myfs_mknod.
  rewrite (bind_ok _ _ _ _ _ (load_inode_ok _ _ _ Hd)).
  destruct (myfs_get_inode_made (i_sb d) (Ptr da) mode dev s n Hn) as (ino & i & Hg & Hb & Hm & _);
    [right; eauto|].
  rewrite (bind_ok _ _ _ _ _ Hg). exists ino, i.
  split; [|split; [exact Hb|split; [exact Hm|exact Hg]]].
  assert (Hde1 : dentry_at (allocated n ino i s) (Ptr a) = Some de) by exact Hde.
  erewrite bind_ok by (eapply d_instantiate_ok; [exact Hde1|exact Hneg|apply inode_at_allocated_new]).
  erewrite bind_ok by (eapply dget_ok; eapply dentry_at_put_same; exact Hde1).
  erewrite bind_ok by reflexivity.
  erewrite bind_ok.
  2:{ eapply update_inode_ok. rewrite !inode_at_put_dentry.
      apply inode_at_allocated_old. exact Hd. }
  unfold ret, mknod_done. f_equal. f_equal.
  unfold put_dentry. simpl. unfold set_dentries. simpl. now rewrite list_insert_insert_eq.
Qed.

Lemma myfs_create_made da a mode excl s d n de :
  inode_at s (Ptr da) = Some d -> inode_slab s = S n ->
  dentry_at s (Ptr a) = Some de -> d_inode de = NULL ->
  exists ino i,
    Myfs.myfs_create (Ptr da) (Ptr a) mode excl s = Ok 0 (mknod_done da d a de n ino i s)
    /\ born s (Z.lor mode S_IFREG) i /\ made s (i_sb d) (Z.lor mode S_IFREG) 0 ino i
    /\ Myfs.myfs_get_inode (i_sb d) (Ptr da) (Z.lor mode S_IFREG) 0 s
       = Ok (Ptr (length (inodes s))) (allocated n ino i s).
Proof.
  intros Hd Hn Hde Hneg. unfold Myfs.myfs_create.
  destruct (myfs_mknod_made da a (Z.lor mode S_IFREG) 0 s d n de Hd Hn Hde Hneg)
    as (ino & i & Hm & Hb & Hmade & Hget).
  rewrite (bind_ok _ _ _ _ _ Hm). exists ino, i.
  split; [|split; [assumption|split; assumption]].
  erewrite bind_ok.
  2:{ eapply printk_d_iname_ok. apply (mknod_done_dentry da a n ino d i de s Hde). }
  reflexivity.
Qed.

Lemma myfs_mkdir_made da a mode s d n de :
  inode_at s (Ptr da) = Some d -> inode_slab s = S n ->
  dentry_at s (Ptr a) = Some de -> d_inode de = NULL ->
  exists ino i,
    Myfs.myfs_mkdir (Ptr da) (Ptr a) mode s
    = Ok 0 (put_inode da
              (set_i_nlink (u32 (i_nlink d + 1)) (set_i_mtime (now s) (set_i_ctime (now s) d)))
              (mknod_done da d a de n ino i s))
    /\ born s (Z.lor mode S_IFDIR) i /\ made s (i_sb d) (Z.lor mode S_IFDIR) 0 ino i
    /\ Myfs.myfs_get_inode (i_sb d) (Ptr da) (Z.lor mode S_IFDIR) 0 s
       = Ok (Ptr (length (inodes s))) (allocated n ino i s).
Proof.
  intros Hd Hn Hde Hneg. unfold Myfs.myfs_mkdir.
  destruct (myfs_mknod_made da a (Z.lor mode S_IFDIR) 0 s d n de Hd Hn Hde Hneg)
    as (ino & i & Hm & Hb & Hmade & Hget).
  rewrite (bind_ok _ _ _ _ _ Hm). exists ino, i.
  split; [|split; [assumption|split; assumption]].
  change (0 =? 0) with true. cbv iota.
  rewrite (bind_ok _ _ _ _ _ (inc_nlink_ok _ _ _ (mknod_done_dir da a n ino d i de s Hd))).
  erewrite bind_ok.
  2:{ eapply printk_d_iname_ok. rewrite dentry_at_put_inode.
      apply (mknod_done_dentry da a n ino d i de s Hde). }
  reflexivity.
Qed.

Lemma iput_released n ino i s :
  inode_slab s = S n ->
  iput (Ptr (length (inodes s))) (allocated n ino i s) = Ok tt (released ino s).
Proof.
  intros Hn. unfold iput. rewrite inode_at_allocated_new.
  unfold released, allocated. cbn. rewrite snoc_insert. rewrite <- Hn.
  destruct s; reflexivity.
Qed.

(** [myfs_symlink] with an inode to take: the inode it starts from, and
    what the call comes to with and without a page for the body. *)
Lemma myfs_symlink_made da dentry symname s d n :
  inode_at s (Ptr da) = Some d -> inode_slab s = S n ->
  exists ino i,
    born s (Z.lor S_IFLNK S_IRWXUGO) i
    /\ made s (i_sb d) (Z.lor S_IFLNK S_IRWXUGO) 0 ino i
    /\ Myfs.myfs_get_inode (i_sb d) (Ptr da) (Z.lor S_IFLNK S_IRWXUGO) 0 s
       = Ok (Ptr (length (inodes s))) (allocated n ino i s)
    /\ (page_pool s = O ->
        Myfs.myfs_symlink (Ptr da) dentry symname s = Ok (- ENOMEM) (released ino s))
    /\ (forall k a de,
          page_pool s = S k -> dentry = Ptr a -> dentry_at s dentry = Some de ->
          d_inode de = NULL ->
          Myfs.myfs_symlink (Ptr da) dentry symname s
          = Ok 0 (mknod_done da d a de n ino
                    (set_i_mapping (set_page0 (Some symname) (i_mapping i)) i)
                    (set_page_pool k s))).
Proof.
  intros Hd Hn.
  destruct (myfs_get_inode_made (i_sb d) (Ptr da) (Z.lor S_IFLNK S_IRWXUGO) 0 s n Hn)
    as (ino & i & Hg & Hb & Hm & _); [right; eauto|].
  exists ino, i. split; [exact Hb|]. split; [exact Hm|]. split; [exact Hg|]. split.
  - intros Hk. unfold Myfs.myfs_symlink.
    rewrite (bind_ok _ _ _ _ _ (load_inode_ok _ _ _ Hd)).
    rewrite (bind_ok _ _ _ _ _ Hg). cbv beta iota.
    erewrite bind_ok by (apply page_symlink_enomem; exact Hk).
    change (- ENOMEM =? 0) with false. cbv iota.
    rewrite (bind_ok _ _ _ _ _ (iput_released n ino i s Hn)). reflexivity.
  - intros k a de Hk -> Hde Hneg. unfold Myfs.myfs_symlink.
    rewrite (bind_ok _ _ _ _ _ (load_inode_ok _ _ _ Hd)).
    rewrite (bind_ok _ _ _ _ _ Hg). cbv beta iota.
    rewrite (bind_ok _ _ _ _ _ (page_symlink_new n ino i s symname _ k Hk)).
    change (0 =? 0) with true. cbv iota.
    set (i' := set_i_mapping (set_page0 (Some symname) (i_mapping i)) i) in *.
    set (s0 := set_page_pool k s) in *.
    rewrite !bind_assoc.
    assert (Hde1 : dentry_at (allocated n ino i' s0) (Ptr a) = Some de) by exact Hde.
    assert (Hd0 : inode_at s0 (Ptr da) = Some d) by exact Hd.
    change (length (inodes s)) with (length (inodes s0)).
    erewrite bind_ok
      by (eapply d_instantiate_ok; [exact Hde1|exact Hneg|apply inode_at_allocated_new]).
    rewrite ?bind_assoc.
    erewrite bind_ok by (eapply dget_ok; eapply dentry_at_put_same; exact Hde1).
    rewrite ?bind_assoc.
    erewrite bind_ok by reflexivity.
    rewrite ?bind_assoc.
    erewrite bind_ok.
    2:{ eapply update_inode_ok. rewrite !inode_at_put_dentry.
        apply inode_at_allocated_old. exact Hd0. }
    unfold ret, mknod_done. f_equal. f_equal.
    unfold put_dentry. simpl. unfold set_dentries. simpl. now rewrite list_insert_insert_eq.
Qed.

Lemma inode_at_released ino s p : inode_at (released ino s) p = inode_at s p.
Proof.
  destruct p as [|a|]; try reflexivity. unfold inode_at, released. cbn.
  destruct (decide (a < length (inodes s))%nat) as [Hlt|Hge].
  - now rewrite lookup_app_l.
  - rewrite lookup_app_r by lia.
    rewrite (lookup_ge_None_2 (inodes s) a) by lia.
    destruct (a - length (inodes s))%nat; reflexivity.
Qed.

Lemma d_make_root_full n ino i s :
  inode_slab s = S n -> dentry_slab s = O ->
  d_make_root (Ptr (length (inodes s))) (allocated n ino i s) = Ok NULL (released ino s).
Proof.
  intros Hn Hj. unfold d_make_root.
  rewrite (bind_ok _ _ _ _ _ (load_inode_ok _ _ _ (inode_at_allocated_new n ino i s))).
  assert (Ha : d_alloc_anon (allocated n ino i s) = Ok NULL (allocated n ino i s)).
  { unfold d_alloc_anon. cbn. now rewrite Hj. }
  rewrite (bind_ok _ _ _ _ _ Ha). cbv beta iota.
  now rewrite (bind_ok _ _ _ _ _ (iput_released n ino i s Hn)).
Qed.

Lemma myfs_tmpfile_made dir a mode s d n de :
  inode_at s dir = Some d -> inode_slab s = S n ->
  dentry_at s (Ptr a) = Some de -> d_inode de = NULL ->
  d_unlinked s a de = true -> strlen (d_name de) < DNAME_INLINE_LEN ->
  exists ino i,
    Myfs.myfs_tmpfile dir (Ptr a) mode s = Ok 0 (tmpfile_done a de n ino i s)
    /\ born s mode i /\ made s (i_sb d) mode 0 ino i
    /\ Myfs.myfs_get_inode (i_sb d) dir mode 0 s
       = Ok (Ptr (length (inodes s))) (allocated n ino i s).
Proof.
  intros Hd Hn Hde Hneg Hu Hlen. unfold Myfs.myfs_tmpfile.
  rewrite (bind_ok _ _ _ _ _ (load_inode_ok _ _ _ Hd)).
  destruct (myfs_get_inode_made (i_sb d) dir mode 0 s n Hn)
    as (ino & i & Hg & Hb & Hm & _); [right; eauto|].
  rewrite (bind_ok _ _ _ _ _ Hg). cbv beta iota.
  exists ino, i. split; [|split; [assumption|split; [assumption|exact Hg]]].
  unfold d_tmpfile, inode_dec_link_count, drop_nlink. rewrite !bind_assoc.
  rewrite (bind_ok _ _ _ _ _ (update_new _ _ _ _ _)).
  set (i' := set_i_nlink (u32 (i_nlink i - 1)) i) in *.
  assert (Hde1 : dentry_at (allocated n ino i' s) (Ptr a) = Some de) by exact Hde.
  rewrite ?bind_assoc.
  rewrite (bind_ok _ _ _ _ _ (load_dentry_ok _ _ _ Hde1)).
  rewrite ?bind_assoc.
  erewrite bind_ok by reflexivity.
  cbv beta iota.
  change (d_unlinked (id (allocated n ino i' s)) a de) with (d_unlinked s a de).
  rewrite Hu, Hneg.
  assert (Hl : (DNAME_INLINE_LEN <=? strlen (d_name de)) = false) by (apply Z.leb_gt; exact Hlen).
  rewrite Hl. cbn [is_null negb orb]. rewrite !bind_assoc.
  rewrite (bind_ok _ _ _ _ _ (load_inode_ok _ _ _ (inode_at_allocated_new _ _ _ _))).
  rewrite ?bind_assoc.
  erewrite bind_ok by (eapply store_dentry_ok; exact Hde1).
  rewrite ?bind_assoc.
  erewrite bind_ok.
  2:{ eapply d_instantiate_ok.
      - eapply (dentry_at_put_same _ _ _ _ Hde1).
      - exact Hneg.
      - rewrite inode_at_put_dentry. apply inode_at_allocated_new. }
  unfold ret, tmpfile_done. f_equal.
  unfold put_dentry. simpl. unfold set_dentries. simpl. now rewrite list_insert_insert_eq.
Qed.

Lemma allocated_inj n ino i n' ino' i' s :
  allocated n ino i s = allocated n' ino' i' s -> i = i'.
Proof.
  intros H. apply (f_equal inodes) in H. cbn in H.
  apply app_inv_head in H. now inversion H.
Qed.

Lemma u16_sgid m : Z.land (u16 (Z.lor m S_ISGID)) S_ISGID = S_ISGID.
Proof.
  unfold u16, wrap. rewrite <- Z.land_ones by lia. rewrite <- Z.land_assoc.
  change (Z.land (Z.ones 16) S_ISGID) with S_ISGID.
  rewrite Z.land_lor_distr_l, Z.land_diag.
  apply Z.bits_inj'. intros k _. rewrite Z.lor_spec, Z.land_spec.
  destruct (Z.testbit m k), (Z.testbit S_ISGID k); reflexivity.
Qed.

Lemma inode_after_owner o i :
  i_uid (inode_after o i) = i_uid i /\ i_gid (inode_after o i) = i_gid i
  /\ i_mode (inode_after o i) = i_mode i /\ i_fop (inode_after o i) = i_fop i
  /\ i_rdev (inode_after o i) = i_rdev i /\ i_op (inode_after o i) = i_op i.
Proof. destruct o; repeat split; reflexivity. Qed.

Lemma put_inode_id s a i : inode_at s (Ptr a) = Some i -> put_inode a i s = s.
Proof.
  intros H. unfold put_inode, set_inodes. cbn in H.
  destruct (inodes s !! a) as [[j|]|] eqn:E; try discriminate. cbn in H. inversion H; subst j.
  rewrite (list_insert_id _ _ _ E). now destruct s.
Qed.

(** Every way a call through [myfs_dir_inode_operations] can return. *)
Lemma myfs_ops_outcome o dir dentry s r s' :
  Myfs.myfs_dir_inode_operations o dir dentry s = Ok r s' ->
  exists d, inode_at s dir = Some d /\
    ((r = - ENOSPC /\ s' = s /\ inode_slab s = O)
     \/ (exists n ino i,
           inode_slab s = S n /\ born s (mode_of o) i
           /\ made s (i_sb d) (mode_of o) (dev_of o) ino i
           /\ Myfs.myfs_get_inode (i_sb d) dir (mode_of o) (dev_of o) s
              = Ok (Ptr (length (inodes s))) (allocated n ino i s)
           /\ ((r = - ENOMEM /\ (exists symname, o = op_symlink symname)
                /\ page_pool s = O /\ s' = released ino s)
               \/ (exists da a de,
                     r = 0 /\ dir = Ptr da /\ dentry = Ptr a
                     /\ dentry_at s dentry = Some de /\ d_inode de = NULL
                     /\ ((exists symname, o = op_symlink symname) -> page_pool s <> O)
                     /\ ((exists mode, o = op_tmpfile mode) ->
                         d_unlinked s a de = true /\ strlen (d_name de) < DNAME_INLINE_LEN)
                     /\ s' = op_result o da d a de n ino i s)))).
Proof.
  intros H. destruct o as [mode excl | symname | mode | mode dev | mode]; cbn in H.
  - pose proof (myfs_create_inv _ _ _ _ _ _ _ H) as
      [(-> & -> & Hn & [d Hd]) | (da & d & a & de & n & ino & i & -> & -> & Hd & Hn & Hde & Hneg & -> & _ & _)].
    { exists d. split; [exact Hd|]. left. auto. }
    exists d. split; [exact Hd|]. right.
    destruct (myfs_create_made da a mode excl s d n de Hd Hn Hde Hneg) as (ino' & i' & Hm & Hb & Hmade & Hget).
    rewrite Hm in H. inversion H; subst s'. exists n, ino', i'.
    split; [exact Hn|]. split; [exact Hb|]. split; [exact Hmade|]. split; [exact Hget|]. right.
    exists da, a, de. repeat (split; [first [reflexivity|assumption]|]).
    split; [intros [? ?]; discriminate|]. split; [intros [? ?]; discriminate|]. reflexivity.
  - pose proof (myfs_symlink_inv _ _ _ _ _ _ H) as
      [(-> & -> & Hn & [d Hd]) | [(-> & Hk & Hn) | (da & d & a & de & n & ino & i & k & -> & -> & Hd & Hn & Hk & Hde & Hneg & -> & _ & _)]].
    { exists d. split; [exact Hd|]. left. auto. }
    { destruct (inode_at s dir) as [d|] eqn:Hd.
      2:{ unfold Myfs.myfs_symlink in H.
          now rewrite (bind_ok_oops _ _ _ (load_inode_oops _ _ Hd)) in H. }
      assert (exists da, dir = Ptr da) as [da ->] by (destruct dir; try discriminate; eauto).
      destruct (inode_slab s) as [|n] eqn:Hn'; [congruence|].
      destruct (myfs_symlink_made da dentry symname s d n Hd Hn') as (ino & i & Hb & Hmade & Hget & Hfail & _).
      rewrite (Hfail Hk) in H. inversion H; subst s'.
      exists d. split; [reflexivity|]. right. exists n, ino, i.
      split; [reflexivity|]. split; [exact Hb|]. split; [exact Hmade|]. split; [exact Hget|]. left.
      split; [reflexivity|]. split; [eauto|]. split; [exact Hk|reflexivity]. }
    exists d. split; [exact Hd|]. right.
    destruct (myfs_symlink_made da (Ptr a) symname s d n Hd Hn) as (ino' & i' & Hb & Hmade & Hget & _ & Hok).
    rewrite (Hok k a de Hk eq_refl Hde Hneg) in H. inversion H; subst s'.
    exists n, ino', i'.
    split; [exact Hn|]. split; [exact Hb|]. split; [exact Hmade|]. split; [exact Hget|]. right.
    exists da, a, de. repeat (split; [first [reflexivity|assumption]|]).
    split; [intros _; congruence|]. split; [intros [? ?]; discriminate|].
    unfold op_result, pool_after. rewrite Hk. reflexivity.
  - pose proof (myfs_mkdir_inv _ _ _ _ _ _ H) as
      [(-> & -> & Hn & [d Hd]) | (da & d & a & de & n & ino & i & -> & -> & Hd & Hn & Hde & Hneg & -> & _ & _)].
    { exists d. split; [exact Hd|]. left. auto. }
    exists d. split; [exact Hd|]. right.
    destruct (myfs_mkdir_made da a mode s d n de Hd Hn Hde Hneg) as (ino' & i' & Hm & Hb & Hmade & Hget).
    rewrite Hm in H. inversion H; subst s'. exists n, ino', i'.
    split; [exact Hn|]. split; [exact Hb|]. split; [exact Hmade|]. split; [exact Hget|]. right.
    exists da, a, de. repeat (split; [first [reflexivity|assumption]|]).
    split; [intros [? ?]; discriminate|]. split; [intros [? ?]; discriminate|].
    unfold op_result, mknod_done. cbn [dir_after dentry_after inode_after pool_after].
    now rewrite put_inode_twice.
  - pose proof (myfs_mknod_inv _ _ _ _ _ _ _ H) as
      [(-> & -> & Hn & [d Hd]) | (da & d & a & de & n & ino & i & -> & -> & Hd & Hn & Hde & Hneg & -> & _ & _)].
    { exists d. split; [exact Hd|]. left. auto. }
    exists d. split; [exact Hd|]. right.
    destruct (myfs_mknod_made da a mode dev s d n de Hd Hn Hde Hneg) as (ino' & i' & Hm & Hb & Hmade & Hget).
    rewrite Hm in H. inversion H; subst s'. exists n, ino', i'.
    split; [exact Hn|]. split; [exact Hb|]. split; [exact Hmade|]. split; [exact Hget|]. right.
    exists da, a, de. repeat (split; [first [reflexivity|assumption]|]).
    split; [intros [? ?]; discriminate|]. split; [intros [? ?]; discriminate|]. reflexivity.
  - pose proof (myfs_tmpfile_inv _ _ _ _ _ _ H) as
      [(-> & -> & Hn & [d Hd]) | (a & de & n & ino & i & -> & [d Hd] & Hn & Hde & Hneg & Hu & Hlen & -> & _ & _)].
    { exists d. split; [exact Hd|]. left. auto. }
    exists d. split; [exact Hd|]. right.
    assert (exists da, dir = Ptr da) as [da ->] by (destruct dir; try discriminate; eauto).
    destruct (myfs_tmpfile_made (Ptr da) a mode s d n de Hd Hn Hde Hneg Hu Hlen)
      as (ino' & i' & Hm & Hb & Hmade & Hget).
    rewrite Hm in H. inversion H; subst s'. exists n, ino', i'.
    split; [exact Hn|]. split; [exact Hb|]. split; [exact Hmade|]. split; [exact Hget|]. right.
    exists da, a, de. repeat (split; [first [reflexivity|assumption]|]).
    split; [intros [? ?]; discriminate|]. split; [intros _; split; assumption|].
    unfold op_result, tmpfile_done. cbn [dir_after dentry_after inode_after pool_after].
    symmetry. apply put_inode_id. rewrite inode_at_put_dentry.
    apply inode_at_allocated_old. exact Hd.
Qed.

(** Reading the state [op_result]. *)
Section OpResult.
Variables (o : dir_op) (da a n : nat) (ino : Z) (d i : inode) (de : dentry) (s : kstate).
Hypothesis Hd : inode_at s (Ptr da) = Some d.
Hypothesis Hde : dentry_at s (Ptr a) = Some de.

Let s' := op_result o da d a de n ino i s.

Lemma pool_after_inodes : inodes (pool_after o s) = inodes s.
Proof. now destruct o. Qed.

Lemma pool_after_dentries : dentries (pool_after o s) = dentries s.
Proof. now destruct o. Qed.

Lemma op_result_dir : inode_at s' (Ptr da) = Some (dir_after o (now s) d).
Proof.
  unfold s', op_result. eapply inode_at_put_same.
  rewrite inode_at_put_dentry. eapply inode_at_allocated_old.
  unfold inode_at. rewrite pool_after_inodes. exact Hd.
Qed.

Lemma op_result_new : inode_at s' (Ptr (length (inodes s))) = Some (inode_after o i).
Proof.
  unfold s', op_result. pose proof (inode_at_lt _ _ _ Hd).
  rewrite inode_at_put_other by lia. rewrite inode_at_put_dentry.
  rewrite <- pool_after_inodes. apply inode_at_allocated_new.
Qed.

Lemma op_result_old b j :
  b <> da -> inode_at s (Ptr b) = Some j -> inode_at s' (Ptr b) = Some j.
Proof.
  intros Hne Hj. unfold s', op_result.
  rewrite inode_at_put_other by congruence. rewrite inode_at_put_dentry.
  apply inode_at_allocated_old. unfold inode_at. rewrite pool_after_inodes. exact Hj.
Qed.

Lemma op_result_dentry :
  dentry_at s' (Ptr a) = Some (dentry_after o (length (inodes s)) i de).
Proof.
  unfold s', op_result. rewrite dentry_at_put_inode.
  eapply dentry_at_put_same. rewrite dentry_at_allocated.
  unfold dentry_at. rewrite pool_after_dentries. exact Hde.
Qed.

Lemma op_result_dentry_other b :
  b <> a -> dentry_at s' (Ptr b) = dentry_at s (Ptr b).
Proof.
  intros Hne. unfold s', op_result. rewrite dentry_at_put_inode.
  rewrite dentry_at_put_other by congruence. rewrite dentry_at_allocated.
  unfold dentry_at. now rewrite pool_after_dentries.
Qed.

Lemma op_result_dentries :
  dentries s' = <[a := dentry_after o (length (inodes s)) i de]> (dentries s).
Proof. unfold s', op_result. cbn. now rewrite pool_after_dentries. Qed.

Lemma op_result_dcache : dcache s' = dcache s.
Proof. unfold s'. now destruct o. Qed.

Lemma op_result_length : length (inodes s') = S (length (inodes s)).
Proof.
  unfold s', op_result. cbn. rewrite length_insert, length_app, pool_after_inodes. cbn. lia.
Qed.

Lemma op_result_slabs : inode_slab s' = n /\ dentry_slab s' = dentry_slab s.
Proof. unfold s'. now destruct o. Qed.

End OpResult.

End MyfsOutcomes.

Module MyfsProps.
Import Num Stat Errno Kernel KernelFacts Myfs Boot MyfsFacts Shapes WfFacts MyfsOutcomes.

Lemma dentry_after_inode o x i de : d_inode (dentry_after o x i de) = Ptr x.
Proof. now destruct o. Qed.

Lemma dentry_after_parent o x i de : d_parent (dentry_after o x i de) = d_parent de.
Proof. now destruct o. Qed.

(** X4: the five operations keep the state well-formed: if every cache entry
    led to a dentry of that parent and name and no dentry pointed past the
    inode heap before the call, the same holds after it, whatever it
    returned. *)
Theorem myfs_ops_keep_wf o dir dentry s r s' :
  wf s = true ->
  Myfs.myfs_dir_inode_operations o dir dentry s = Ok r s' ->
  wf s' = true.
Proof.
  intros Hwf H.
  destruct (myfs_ops_outcome _ _ _ _ _ _ H) as
    (d & Hd & [(_ & -> & _) | (n & ino & i & Hn & Hb & Hm & Hget &
       [(_ & _ & _ & ->) | (da & a & de & _ & -> & -> & Hde & Hneg & _ & Htmp & ->)])]).
  - exact Hwf.
  - apply wf_intro.
    + intros k a Hk. exact (wf_hashed _ _ _ Hwf Hk).
    + intros a e x He Hx. pose proof (wf_no_dangling _ _ _ _ Hwf He Hx).
      unfold released. cbn. rewrite length_app. cbn. lia.
  - apply wf_intro.
    + intros k b Hk. rewrite op_result_dcache in Hk.
      destruct (wf_hashed _ _ _ Hwf Hk) as (e & He & Hke).
      destruct (decide (b = a)) as [->|Hne].
      * assert (e = de) as -> by (cbn in Hde; congruence).
        eexists. split; [exact (op_result_dentry o da a n ino d i de s Hde)|].
        destruct o; try exact Hke.
        exfalso. destruct Htmp as [Hu _]; [eauto|].
        unfold d_unlinked, d_hashed in Hu. apply andb_prop in Hu as [Hh _].
        apply negb_true_iff in Hh. apply bool_decide_eq_false_1 in Hh.
        inversion Hke; subst. congruence.
      * exists e. split; [|exact Hke].
        assert (Ho : dentries (op_result o da d a de n ino i s) !! b = dentries s !! b)
          by exact (op_result_dentry_other o da a n ino d i de s b Hne).
        now rewrite Ho.
    + intros b e x He Hx. rewrite (op_result_length o da a n ino d i de s).
      destruct (decide (b = a)) as [->|Hne].
      * assert (Ho : dentries (op_result o da d a de n ino i s) !! a
                     = Some (dentry_after o (length (inodes s)) i de))
          by exact (op_result_dentry o da a n ino d i de s Hde).
        rewrite Ho in He. inversion He; subst e.
        rewrite dentry_after_inode in Hx. inversion Hx. lia.
      * assert (Ho : dentries (op_result o da d a de n ino i s) !! b = dentries s !! b)
          by exact (op_result_dentry_other o da a n ino d i de s b Hne).
        rewrite Ho in He.
        pose proof (wf_no_dangling _ _ _ _ Hwf He Hx). lia.
Qed.

(** A mkdir of the name a under the root of a fresh mount. *)
Lemma myfs_ops_keep_wf_witness :
  wf (after (myfs_dir_inode_operations (op_mkdir (oct "755")) (Ptr 0) (Ptr 1)) with_negative)
  = true.
Proof.
  apply (myfs_ops_keep_wf (op_mkdir (oct "755")) (Ptr 0) (Ptr 1) with_negative 0).
  - vm_compute. reflexivity.
  - vm_compute. reflexivity.
Defined.

(** X2: a call through [myfs_dir_inode_operations] that returns gives 0,
    [-ENOSPC] or [-ENOMEM]: [-ENOSPC] exactly when no inode is left, and
    then the state is untouched; [-ENOMEM] exactly when the call is
    [myfs_symlink], an inode is left and no page is. *)
Theorem myfs_ops_error_codes o dir dentry s r s' :
  Myfs.myfs_dir_inode_operations o dir dentry s = Ok r s' ->
  (r = 0 \/ r = - ENOSPC \/ r = - ENOMEM)
  /\ (r = - ENOSPC <-> inode_slab s = O)
  /\ (r = - ENOMEM <->
      inode_slab s <> O /\ page_pool s = O /\ exists symname, o = op_symlink symname)
  /\ (r = - ENOSPC -> s' = s).
Proof.
  intros H.
  destruct (myfs_ops_outcome _ _ _ _ _ _ H) as
    (d & Hd & [(-> & -> & Hn) | (n & ino & i & Hn & Hb & Hm & Hget &
       [(-> & Hsym & Hk & ->) | (da & a & de & -> & -> & -> & Hde & Hneg & Hpg & Htmp & ->)])]).
  - split; [auto|]. split; [tauto|]. split; [|auto].
    split; [discriminate|]. intros (Hne & _). congruence.
  - split; [auto|]. split; [split; [discriminate|congruence]|].
    split; [|discriminate]. split; [|reflexivity]. intros _. split; [congruence|]. auto.
  - split; [auto|]. split; [split; [discriminate|congruence]|].
    split; [|discriminate]. split; [discriminate|].
    intros (_ & Hk & Hsym). exfalso. exact (Hpg Hsym Hk).
Qed.

(** A symlink under the root when no page is left. *)
Lemma myfs_ops_error_codes_witness :
  (- ENOMEM = 0 \/ - ENOMEM = - ENOSPC \/ - ENOMEM = - ENOMEM)
  /\ (- ENOMEM = - ENOSPC <-> inode_slab (set_page_pool 0 with_negative) = O)
  /\ (- ENOMEM = - ENOMEM <->
      inode_slab (set_page_pool 0 with_negative) <> O
      /\ page_pool (set_page_pool 0 with_negative) = O
      /\ exists symname, op_symlink "target" = op_symlink symname)
  /\ (- ENOMEM = - ENOSPC ->
      after (myfs_dir_inode_operations (op_symlink "target") (Ptr 0) (Ptr 1))
        (set_page_pool 0 with_negative)
      = set_page_pool 0 with_negative).
Proof.
  apply (myfs_ops_error_codes (op_symlink "target") (Ptr 0) (Ptr 1)
           (set_page_pool 0 with_negative)).
  vm_compute. reflexivity.
Defined.

(** X3: a call that returns 0 was made on a live directory and a negative
    dentry.  It has taken one inode from the slab and put it at a fresh
    address behind the dentry.  Of the inodes that were there only the
    directory may differ ([dir_after]: stamped with the clock, one more link
    for mkdir, untouched by tmpfile); of the dentries only the one handed in
    ([dentry_after]: the inode attached and one more reference, or for
    tmpfile the inode attached and the name replaced by # and the inode
    number); the dentry cache and the dentry slab are as they were. *)
Theorem myfs_ops_frame o dir dentry s s' :
  Myfs.myfs_dir_inode_operations o dir dentry s = Ok 0 s' ->
  exists da a d de x i,
    dir = Ptr da /\ dentry = Ptr a
    /\ inode_at s dir = Some d /\ dentry_at s dentry = Some de /\ d_inode de = NULL
    /\ inode_at s (Ptr x) = None /\ inode_at s' (Ptr x) = Some i
    /\ inode_at s' dir = Some (dir_after o (now s) d)
    /\ dentry_at s' dentry = Some (dentry_after o x i de)
    /\ (forall b j, b <> da -> inode_at s (Ptr b) = Some j -> inode_at s' (Ptr b) = Some j)
    /\ (forall b, b <> a -> dentry_at s' (Ptr b) = dentry_at s (Ptr b))
    /\ dcache s' = dcache s
    /\ length (inodes s') = S (length (inodes s))
    /\ inode_slab s = S (inode_slab s')
    /\ dentry_slab s' = dentry_slab s.
Proof.
  intros H.
  destruct (myfs_ops_outcome _ _ _ _ _ _ H) as
    (d & Hd & [(Hr & _) | (n & ino & i & Hn & Hb & Hm & Hget &
       [(Hr & _) | (da & a & de & _ & -> & -> & Hde & Hneg & Hpg & Htmp & ->)])]);
    try discriminate.
  exists da, a, d, de, (length (inodes s)), (inode_after o i).
  split; [reflexivity|]. split; [reflexivity|]. split; [exact Hd|]. split; [exact Hde|].
  split; [exact Hneg|]. split.
  { destruct (inode_at s (Ptr (length (inodes s)))) eqn:E; [|reflexivity].
    apply inode_at_lt in E. lia. }
  split; [exact (op_result_new o da a n ino d i de s Hd)|].
  split; [exact (op_result_dir o da a n ino d i de s Hd)|].
  split.
  { rewrite (op_result_dentry o da a n ino d i de s Hde). now destruct o. }
  split; [exact (op_result_old o da a n ino d i de s)|].
  split; [exact (op_result_dentry_other o da a n ino d i de s)|].
  split; [exact (op_result_dcache o da a n ino d i de s)|].
  split; [exact (op_result_length o da a n ino d i de s)|].
  destruct (op_result_slabs o da a n ino d i de s) as [-> ->]. auto.
Qed.

(** A create of the name a, mode 0644, under the root. *)
Lemma myfs_ops_frame_witness :
  exists da a d de x i,
    Ptr 0 = Ptr da /\ Ptr 1 = Ptr a
    /\ inode_at with_negative (Ptr 0) = Some d
    /\ dentry_at with_negative (Ptr 1) = Some de /\ d_inode de = NULL
    /\ inode_at with_negative (Ptr x) = None
    /\ inode_at (after (myfs_dir_inode_operations (op_create (oct "644") false) (Ptr 0) (Ptr 1))
                   with_negative) (Ptr x) = Some i
    /\ inode_at (after (myfs_dir_inode_operations (op_create (oct "644") false) (Ptr 0) (Ptr 1))
                   with_negative) (Ptr 0)
       = Some (dir_after (op_create (oct "644") false) (now with_negative) d)
    /\ dentry_at (after (myfs_dir_inode_operations (op_create (oct "644") false) (Ptr 0) (Ptr 1))
                    with_negative) (Ptr 1)
       = Some (dentry_after (op_create (oct "644") false) x i de)
    /\ (forall b j, b <> da -> inode_at with_negative (Ptr b) = Some j ->
          inode_at (after (myfs_dir_inode_operations (op_create (oct "644") false) (Ptr 0) (Ptr 1))
                      with_negative) (Ptr b) = Some j)
    /\ (forall b, b <> a ->
          dentry_at (after (myfs_dir_inode_operations (op_create (oct "644") false) (Ptr 0) (Ptr 1))
                       with_negative) (Ptr b) = dentry_at with_negative (Ptr b))
    /\ dcache (after (myfs_dir_inode_operations (op_create (oct "644") false) (Ptr 0) (Ptr 1))
                 with_negative) = dcache with_negative
    /\ length (inodes (after (myfs_dir_inode_operations (op_create (oct "644") false)
                                (Ptr 0) (Ptr 1)) with_negative))
       = S (length (inodes with_negative))
    /\ inode_slab with_negative
       = S (inode_slab (after (myfs_dir_inode_operations (op_create (oct "644") false)
                                 (Ptr 0) (Ptr 1)) with_negative))
    /\ dentry_slab (after (myfs_dir_inode_operations (op_create (oct "644") false)
                             (Ptr 0) (Ptr 1)) with_negative)
       = dentry_slab with_negative.
Proof.
  apply (myfs_ops_frame (op_create (oct "644") false) (Ptr 0) (Ptr 1) with_negative).
  vm_compute. reflexivity.
Defined.

(** X8: a [myfs_symlink] that returns 0 has put a new symlink behind the
    dentry: mode S_IFLNK|0777, link count 1, [page_symlink_inode_operations],
    a GFP_USER mapping whose first page holds the target.  One page has been
    taken from the pool and the directory's link count is unchanged. *)
Theorem symlink_makes_link dir dentry symname s s' :
  Myfs.myfs_symlink dir dentry symname s = Ok 0 s' ->
  exists x i de' d d',
    dentry_at s' dentry = Some de' /\ d_inode de' = Ptr x
    /\ inode_at s (Ptr x) = None /\ inode_at s' (Ptr x) = Some i
    /\ i_mode i = Z.lor S_IFLNK S_IRWXUGO /\ S_ISLNK (i_mode i) = true
    /\ page0 (i_mapping i) = Some symname
    /\ i_nlink i = 1
    /\ i_op i = page_symlink_iops /\ gfp_mask (i_mapping i) = GFP_USER
    /\ inode_at s dir = Some d /\ inode_at s' dir = Some d'
    /\ i_nlink d' = i_nlink d
    /\ page_pool s = S (page_pool s').
Proof.
  intros H. change (myfs_dir_inode_operations (op_symlink symname) dir dentry s = Ok 0 s') in H.
  destruct (myfs_ops_outcome _ _ _ _ _ _ H) as
    (d & Hd & [(Hr & _) | (n & ino & i & Hn & Hb & Hm & Hget &
       [(Hr & _) | (da & a & de & _ & -> & -> & Hde & Hneg & Hpg & Htmp & ->)])]);
    try discriminate.
  destruct Hb as (Hl & _).
  destruct Hm as (_ & _ & _ & _ & _ & _ & _ & _ & _ & Hlnk & _ & _ & _ & _ & Hmode & _).
  destruct (Hlnk eq_refl) as (Hop & _ & Hgfp).
  pose proof (Hmode eq_refl eq_refl) as Hmd.
  eexists (length (inodes s)), _, _, d, _.
  split; [exact (op_result_dentry _ da a n ino d i de s Hde)|].
  split; [reflexivity|]. split.
  { destruct (inode_at s (Ptr (length (inodes s)))) eqn:E; [|reflexivity].
    apply inode_at_lt in E. lia. }
  split; [exact (op_result_new _ da a n ino d i de s Hd)|].
  cbn [inode_after i_mode i_mapping i_nlink i_op set_i_mapping page0 set_page0 gfp_mask].
  rewrite Hmd. split; [reflexivity|]. split; [reflexivity|]. split; [reflexivity|].
  split; [exact Hl|]. split; [exact Hop|]. split; [exact Hgfp|]. split; [exact Hd|].
  split; [exact (op_result_dir _ da a n ino d i de s Hd)|]. split; [reflexivity|].
  unfold op_result, pool_after. cbn. destruct (page_pool s); [|reflexivity].
  exfalso. apply Hpg; eauto.
Qed.

(** A symlink named a under the root. *)
Lemma symlink_makes_link_witness :
  exists x i de' d d',
    dentry_at (after (myfs_symlink (Ptr 0) (Ptr 1) "target") with_negative) (Ptr 1) = Some de'
    /\ d_inode de' = Ptr x
    /\ inode_at with_negative (Ptr x) = None
    /\ inode_at (after (myfs_symlink (Ptr 0) (Ptr 1) "target") with_negative) (Ptr x) = Some i
    /\ i_mode i = Z.lor S_IFLNK S_IRWXUGO /\ S_ISLNK (i_mode i) = true
    /\ page0 (i_mapping i) = Some "target"
    /\ i_nlink i = 1
    /\ i_op i = page_symlink_iops /\ gfp_mask (i_mapping i) = GFP_USER
    /\ inode_at with_negative (Ptr 0) = Some d
    /\ inode_at (after (myfs_symlink (Ptr 0) (Ptr 1) "target") with_negative) (Ptr 0) = Some d'
    /\ i_nlink d' = i_nlink d
    /\ page_pool with_negative
       = S (page_pool (after (myfs_symlink (Ptr 0) (Ptr 1) "target") with_negative)).
Proof.
  apply (symlink_makes_link (Ptr 0) (Ptr 1) "target" with_negative).
  vm_compute. reflexivity.
Defined.

(** X9: a [myfs_symlink] that returns an error leaves nothing behind.  The
    error is [-ENOSPC] or [-ENOMEM]; the inode taken before the page
    allocation failed has been put again, so the slab count is what it was
    and every address holds the inode it held, or none; dentries, dentry
    cache and page pool are as before. *)
Theorem symlink_failure_undone dir dentry symname s r s' :
  Myfs.myfs_symlink dir dentry symname s = Ok r s' -> r <> 0 ->
  (r = - ENOSPC \/ r = - ENOMEM)
  /\ inode_slab s' = inode_slab s /\ page_pool s' = page_pool s
  /\ dentries s' = dentries s /\ dcache s' = dcache s
  /\ forall p, inode_at s' p = inode_at s p.
Proof.
  intros H Hnz. change (myfs_dir_inode_operations (op_symlink symname) dir dentry s = Ok r s') in H.
  destruct (myfs_ops_outcome _ _ _ _ _ _ H) as
    (d & Hd & [(-> & -> & _) | (n & ino & i & Hn & Hb & Hm & Hget &
       [(-> & _ & _ & ->) | (da & a & de & -> & _)])]).
  - auto 10.
  - split; [auto|]. repeat split. apply inode_at_released.
  - congruence.
Qed.

(** The same symlink when no page is left. *)
Lemma symlink_failure_undone_witness :
  (- ENOMEM = - ENOSPC \/ - ENOMEM = - ENOMEM)
  /\ inode_slab (after (myfs_symlink (Ptr 0) (Ptr 1) "target") (set_page_pool 0 with_negative))
     = inode_slab (set_page_pool 0 with_negative)
  /\ page_pool (after (myfs_symlink (Ptr 0) (Ptr 1) "target") (set_page_pool 0 with_negative))
     = page_pool (set_page_pool 0 with_negative)
  /\ dentries (after (myfs_symlink (Ptr 0) (Ptr 1) "target") (set_page_pool 0 with_negative))
     = dentries (set_page_pool 0 with_negative)
  /\ dcache (after (myfs_symlink (Ptr 0) (Ptr 1) "target") (set_page_pool 0 with_negative))
     = dcache (set_page_pool 0 with_negative)
  /\ forall p,
       inode_at (after (myfs_symlink (Ptr 0) (Ptr 1) "target") (set_page_pool 0 with_negative)) p
       = inode_at (set_page_pool 0 with_negative) p.
Proof.
  apply (symlink_failure_undone (Ptr 0) (Ptr 1) "target" (set_page_pool 0 with_negative)).
  - vm_compute. reflexivity.
  - vm_compute. discriminate.
Defined.

(** X7: when [mode | S_IFREG] is a regular-file mode, a [myfs_create] that
    returns 0 has put a new regular file behind the dentry: link count 1,
    the file operation tables of myfs, an empty mapping on [ram_aops], owned
    by the caller's fsuid; its mode is [mode | S_IFREG] when [mode] has no
    set-group-id bit.  The directory's link count is unchanged, and every
    name the dentry is hashed under looks up to the new inode. *)
Theorem create_makes_regular_file dir dentry mode excl s s' :
  S_ISREG (Z.lor mode S_IFREG) = true ->
  Myfs.myfs_create dir dentry mode excl s = Ok 0 s' ->
  exists x i de' d d',
    dentry_at s' dentry = Some de' /\ d_inode de' = Ptr x
    /\ inode_at s (Ptr x) = None /\ inode_at s' (Ptr x) = Some i
    /\ S_ISREG (i_mode i) = true /\ i_nlink i = 1
    /\ (Z.land mode S_ISGID = 0 -> i_mode i = u16 (Z.lor mode S_IFREG))
    /\ i_op i = myfs_file_iops /\ i_fop i = myfs_file_fops
    /\ a_ops (i_mapping i) = ram_aops /\ page0 (i_mapping i) = None
    /\ i_uid i = fsuid (current s)
    /\ inode_at s dir = Some d /\ inode_at s' dir = Some d'
    /\ i_nlink d' = i_nlink d
    /\ forall p nm a, dentry = Ptr a -> dcache s !! (p, nm) = Some a ->
                      lookup s' p nm = Some (Ptr x).
Proof.
  intros Hreg H.
  change (myfs_dir_inode_operations (op_create mode excl) dir dentry s = Ok 0 s') in H.
  destruct (myfs_ops_outcome _ _ _ _ _ _ H) as
    (d & Hd & [(Hr & _) | (n & ino & i & Hn & Hb & Hm & Hget &
       [(Hr & _) | (da & a & de & _ & -> & -> & Hde & Hneg & Hpg & Htmp & ->)])]);
    try discriminate.
  cbn [mode_of dev_of] in Hb, Hm.
  destruct (born_regular _ _ _ Hreg Hb) as (Hty & Hl).
  destruct Hm as (_ & _ & _ & Huid & Haops & _ & Hpage & Hfile & _ & _ & _ & _ & _ & _ & Hmode & _).
  destruct (Hfile Hreg) as (Hop & Hfop & _).
  eexists (length (inodes s)), _, _, d, _.
  split; [exact (op_result_dentry _ da a n ino d i de s Hde)|].
  split; [reflexivity|]. split.
  { destruct (inode_at s (Ptr (length (inodes s)))) eqn:E; [|reflexivity].
    apply inode_at_lt in E. lia. }
  split; [exact (op_result_new _ da a n ino d i de s Hd)|].
  cbn [inode_after].
  split; [exact Hty|]. split; [exact Hl|]. split.
  { intros Hsg. apply Hmode.
    - unfold S_ISDIR. unfold S_ISREG in Hreg. apply Z.eqb_eq in Hreg. rewrite Hreg. reflexivity.
    - rewrite Z.land_lor_distr_l, Hsg. reflexivity. }
  split; [exact Hop|]. split; [exact Hfop|]. split; [exact Haops|]. split; [exact Hpage|].
  split; [exact Huid|]. split; [exact Hd|].
  split; [exact (op_result_dir _ da a n ino d i de s Hd)|]. split; [reflexivity|].
  intros p nm a' Ha Hc. inversion Ha; subst a'.
  eapply lookup_via.
  - rewrite op_result_dcache. exact Hc.
  - exact (op_result_dentry _ da a n ino d i de s Hde).
  - reflexivity.
Qed.

(** A file of mode 0644 named a under the root. *)
Lemma create_makes_regular_file_witness :
  exists x i de' d d',
    dentry_at (after (myfs_create (Ptr 0) (Ptr 1) (oct "644") false) with_negative) (Ptr 1)
    = Some de'
    /\ d_inode de' = Ptr x
    /\ inode_at with_negative (Ptr x) = None
    /\ inode_at (after (myfs_create (Ptr 0) (Ptr 1) (oct "644") false) with_negative) (Ptr x)
       = Some i
    /\ S_ISREG (i_mode i) = true /\ i_nlink i = 1
    /\ (Z.land (oct "644") S_ISGID = 0 -> i_mode i = u16 (Z.lor (oct "644") S_IFREG))
    /\ i_op i = myfs_file_iops /\ i_fop i = myfs_file_fops
    /\ a_ops (i_mapping i) = ram_aops /\ page0 (i_mapping i) = None
    /\ i_uid i = fsuid (current with_negative)
    /\ inode_at with_negative (Ptr 0) = Some d
    /\ inode_at (after (myfs_create (Ptr 0) (Ptr 1) (oct "644") false) with_negative) (Ptr 0)
       = Some d'
    /\ i_nlink d' = i_nlink d
    /\ forall p nm a, Ptr 1 = Ptr a -> dcache with_negative !! (p, nm) = Some a ->
         lookup (after (myfs_create (Ptr 0) (Ptr 1) (oct "644") false) with_negative) p nm
         = Some (Ptr x).
Proof.
  apply (create_makes_regular_file (Ptr 0) (Ptr 1) (oct "644") false with_negative).
  - vm_compute. reflexivity.
  - vm_compute. reflexivity.
Defined.

(** X26: a [myfs_mknod] that returns 0 has put a new inode behind the dentry,
    of the file type of [mode], with link count 2 for a directory and 1
    otherwise, owned by the caller's fsuid.  A character or block device
    node carries the device number [dev] and the default device file
    operations, a fifo the pipe operations, and such a special file has the
    mode exactly as given; a regular file and a directory get the tables of
    myfs. *)
Theorem mknod_makes_node dir dentry mode dev s s' :
  Myfs.myfs_mknod dir dentry mode dev s = Ok 0 s' ->
  exists x i de',
    dentry_at s' dentry = Some de' /\ d_inode de' = Ptr x
    /\ inode_at s (Ptr x) = None /\ inode_at s' (Ptr x) = Some i
    /\ Z.land (i_mode i) S_IFMT = Z.land mode S_IFMT
    /\ i_nlink i = (if S_ISDIR mode then 2 else 1)
    /\ i_uid i = fsuid (current s)
    /\ (S_ISREG mode = false -> S_ISDIR mode = false -> S_ISLNK mode = false ->
        i_mode i = u16 mode)
    /\ (S_ISCHR mode = true -> i_fop i = def_chr_fops /\ i_rdev i = dev)
    /\ (S_ISBLK mode = true -> i_fop i = def_blk_fops /\ i_rdev i = dev)
    /\ (S_ISFIFO mode = true -> i_fop i = pipefifo_fops)
    /\ (S_ISREG mode = true -> i_op i = myfs_file_iops /\ i_fop i = myfs_file_fops)
    /\ (S_ISDIR mode = true -> i_op i = myfs_dir_iops /\ i_fop i = simple_dir_fops).
Proof.
  intros H.
  change (myfs_dir_inode_operations (op_mknod mode dev) dir dentry s = Ok 0 s') in H.
  destruct (myfs_ops_outcome _ _ _ _ _ _ H) as
    (d & Hd & [(Hr & _) | (n & ino & i & Hn & Hb & Hm & Hget &
       [(Hr & _) | (da & a & de & _ & -> & -> & Hde & Hneg & Hpg & Htmp & ->)])]);
    try discriminate.
  cbn [mode_of dev_of] in Hb, Hm.
  destruct Hb as (Hl & Hty & _).
  destruct Hm as (_ & _ & _ & Huid & _ & _ & _ & Hfile & Hdr & _ & _ & Hchr & Hblk & Hff & _ & Hsp).
  eexists (length (inodes s)), _, _.
  split; [exact (op_result_dentry _ da a n ino d i de s Hde)|].
  split; [reflexivity|]. split.
  { destruct (inode_at s (Ptr (length (inodes s)))) eqn:E; [|reflexivity].
    apply inode_at_lt in E. lia. }
  split; [exact (op_result_new _ da a n ino d i de s Hd)|].
  cbn [inode_after].
  split; [exact Hty|]. split; [exact Hl|]. split; [exact Huid|]. split; [exact Hsp|].
  split; [exact Hchr|]. split; [exact Hblk|]. split; [exact Hff|].
  split; [intros Hx; destruct (Hfile Hx) as (? & ? & _); now split|].
  intros Hx; destruct (Hdr Hx) as (? & ? & _); now split.
Qed.

(** A character device node of mode 0600 and device number 259 named a under the root. *)
Lemma mknod_makes_node_witness :
  exists x i de',
    dentry_at (after (myfs_mknod (Ptr 0) (Ptr 1) (Z.lor S_IFCHR (oct "600")) 259) with_negative)
      (Ptr 1) = Some de'
    /\ d_inode de' = Ptr x
    /\ inode_at with_negative (Ptr x) = None
    /\ inode_at (after (myfs_mknod (Ptr 0) (Ptr 1) (Z.lor S_IFCHR (oct "600")) 259) with_negative)
         (Ptr x) = Some i
    /\ Z.land (i_mode i) S_IFMT = Z.land (Z.lor S_IFCHR (oct "600")) S_IFMT
    /\ i_nlink i = (if S_ISDIR (Z.lor S_IFCHR (oct "600")) then 2 else 1)
    /\ i_uid i = fsuid (current with_negative)
    /\ (S_ISREG (Z.lor S_IFCHR (oct "600")) = false ->
        S_ISDIR (Z.lor S_IFCHR (oct "600")) = false ->
        S_ISLNK (Z.lor S_IFCHR (oct "600")) = false ->
        i_mode i = u16 (Z.lor S_IFCHR (oct "600")))
    /\ (S_ISCHR (Z.lor S_IFCHR (oct "600")) = true -> i_fop i = def_chr_fops /\ i_rdev i = 259)
    /\ (S_ISBLK (Z.lor S_IFCHR (oct "600")) = true -> i_fop i = def_blk_fops /\ i_rdev i = 259)
    /\ (S_ISFIFO (Z.lor S_IFCHR (oct "600")) = true -> i_fop i = pipefifo_fops)
    /\ (S_ISREG (Z.lor S_IFCHR (oct "600")) = true ->
        i_op i = myfs_file_iops /\ i_fop i = myfs_file_fops)
    /\ (S_ISDIR (Z.lor S_IFCHR (oct "600")) = true ->
        i_op i = myfs_dir_iops /\ i_fop i = simple_dir_fops).
Proof.
  apply (mknod_makes_node (Ptr 0) (Ptr 1) (Z.lor S_IFCHR (oct "600")) 259 with_negative).
  vm_compute. reflexivity.
Defined.

(** X27: the inode a successful operation puts behind the dentry belongs to
    the caller's fsuid.  Its group is the caller's fsgid when the directory
    is not set-group-id; under a set-group-id directory it is the
    directory's group, and a new directory is set-group-id as well. *)
Theorem new_inode_owner o dir dentry s s' :
  Myfs.myfs_dir_inode_operations o dir dentry s = Ok 0 s' ->
  exists d x i de',
    inode_at s dir = Some d
    /\ dentry_at s' dentry = Some de' /\ d_inode de' = Ptr x
    /\ inode_at s' (Ptr x) = Some i
    /\ i_uid i = fsuid (current s)
    /\ (Z.land (i_mode d) S_ISGID = 0 -> i_gid i = fsgid (current s))
    /\ (Z.land (i_mode d) S_ISGID <> 0 ->
        i_gid i = i_gid d
        /\ (S_ISDIR (mode_of o) = true -> Z.land (i_mode i) S_ISGID = S_ISGID)).
Proof.
  intros H.
  destruct (myfs_ops_outcome _ _ _ _ _ _ H) as
    (d & Hd & [(Hr & _) | (n & ino & i & Hn & Hb & Hm & Hget &
       [(Hr & _) | (da & a & de & _ & -> & -> & Hde & Hneg & Hpg & Htmp & ->)])]);
    try discriminate.
  destruct (myfs_get_inode_made (i_sb d) (Ptr da) (mode_of o) (dev_of o) s n Hn)
    as (ino' & i' & Hg' & _ & _ & _ & Hown); [right; eauto|].
  rewrite Hget in Hg'.
  assert (Hi : allocated n ino i s = allocated n ino' i' s) by congruence.
  apply allocated_inj in Hi. subst i'.
  specialize (Hown d Hd).
  destruct Hm as (_ & _ & _ & Huid & _).
  destruct (inode_after_owner o i) as (Eu & Eg & Em & _).
  exists d, (length (inodes s)). eexists _, _.
  split; [exact Hd|].
  split; [exact (op_result_dentry _ da a n ino d i de s Hde)|].
  split; [apply dentry_after_inode|].
  split; [exact (op_result_new _ da a n ino d i de s Hd)|].
  rewrite Eu, Eg, Em. split; [exact Huid|].
  destruct (Z.eqb_spec (Z.land (i_mode d) S_ISGID) 0) as [Ez|Ez].
  - split; [intros _; exact Hown|contradiction].
  - split; [contradiction|]. intros _. destruct Hown as [Hg1 Hg2].
    split; [exact Hg1|]. intros Hx. rewrite (Hg2 Hx). apply u16_sgid.
Qed.

(** A mkdir under a set-group-id root directory of group 42. *)
Lemma new_inode_owner_witness :
  exists d x i de',
    inode_at sgid_mounted (Ptr 0) = Some d
    /\ dentry_at (after (myfs_mkdir (Ptr 0) (Ptr 1) (oct "755")) sgid_mounted) (Ptr 1) = Some de'
    /\ d_inode de' = Ptr x
    /\ inode_at (after (myfs_mkdir (Ptr 0) (Ptr 1) (oct "755")) sgid_mounted) (Ptr x) = Some i
    /\ i_uid i = fsuid (current sgid_mounted)
    /\ (Z.land (i_mode d) S_ISGID = 0 -> i_gid i = fsgid (current sgid_mounted))
    /\ (Z.land (i_mode d) S_ISGID <> 0 ->
        i_gid i = i_gid d
        /\ (S_ISDIR (mode_of (op_mkdir (oct "755"))) = true ->
            Z.land (i_mode i) S_ISGID = S_ISGID)).
Proof.
  apply (new_inode_owner (op_mkdir (oct "755")) (Ptr 0) (Ptr 1) sgid_mounted).
  vm_compute. reflexivity.
Defined.

(** X1: with an inode left and [dir] NULL or live, [myfs_get_inode] returns a
    new address holding an inode and leaves every inode that was there as it
    was.  The new inode has a non-zero number, the super block it was asked
    for, the caller's fsuid, the three times at the clock, an unevictable
    page-cache mapping on [ram_aops] (GFP_USER for a symlink, GFP_HIGHUSER
    otherwise), and the operation tables of its file type: the file tables
    of myfs for a regular file, the directory tables for a directory,
    [page_symlink_inode_operations] for a symlink, and the file operations
    and device number [init_special_inode] gives a device node or a fifo. *)
Theorem get_inode_by_type sb dir mode dev s :
  inode_slab s <> O ->
  dir = NULL \/ is_Some (inode_at s dir) ->
  exists x i s',
    Myfs.myfs_get_inode sb dir mode dev s = Ok (Ptr x) s'
    /\ inode_at s (Ptr x) = None /\ inode_at s' (Ptr x) = Some i
    /\ (forall p j, inode_at s p = Some j -> inode_at s' p = Some j)
    /\ i_ino i <> 0 /\ i_sb i = sb /\ i_uid i = fsuid (current s)
    /\ i_atime i = now s /\ i_mtime i = now s /\ i_ctime i = now s
    /\ a_ops (i_mapping i) = ram_aops /\ unevictable (i_mapping i) = true
    /\ gfp_mask (i_mapping i) = (if S_ISLNK mode then GFP_USER else GFP_HIGHUSER)
    /\ (S_ISREG mode = true -> i_op i = myfs_file_iops /\ i_fop i = myfs_file_fops)
    /\ (S_ISDIR mode = true -> i_op i = myfs_dir_iops /\ i_fop i = simple_dir_fops)
    /\ (S_ISLNK mode = true -> i_op i = page_symlink_iops)
    /\ (S_ISCHR mode = true -> i_fop i = def_chr_fops /\ i_rdev i = dev)
    /\ (S_ISBLK mode = true -> i_fop i = def_blk_fops /\ i_rdev i = dev)
    /\ (S_ISFIFO mode = true -> i_fop i = pipefifo_fops).
Proof.
  intros Hn Hdir. destruct (inode_slab s) as [|n] eqn:Hs; [congruence|].
  destruct (myfs_get_inode_made sb dir mode dev s n Hs Hdir) as (ino & i & Hg & Hb & Hm & _).
  destruct Hb as (_ & _ & Ha & Hmt & Hc).
  destruct Hm as (Hino & Hrange & Hsb & Huid & Haops & Hun & _ & Hreg & Hdr & Hlnk & Hnl
                  & Hchr & Hblk & Hff & _).
  exists (length (inodes s)), i, (allocated n ino i s).
  split; [exact Hg|]. split.
  { destruct (inode_at s (Ptr (length (inodes s)))) eqn:E; [|reflexivity].
    apply inode_at_lt in E. lia. }
  split; [apply inode_at_allocated_new|].
  split; [intros p j; apply inode_at_allocated_old|].
  split; [lia|]. split; [exact Hsb|]. split; [exact Huid|].
  split; [exact Ha|]. split; [exact Hmt|]. split; [exact Hc|].
  split; [exact Haops|]. split; [exact Hun|]. split.
  { destruct (S_ISLNK mode) eqn:El; [now apply Hlnk|now apply Hnl]. }
  split; [intros Hx; destruct (Hreg Hx) as (? & ? & _); auto|].
  split; [intros Hx; destruct (Hdr Hx) as (? & ? & _); auto|].
  split; [intros Hx; destruct (Hlnk Hx) as (? & _); auto|].
  auto.
Qed.

(** A character device node, mode 0600, device number 1025. *)
Lemma get_inode_by_type_witness :
  exists x i s',
    myfs_get_inode 0 (Ptr 0) (Z.lor S_IFCHR (oct "600")) 1025 mounted = Ok (Ptr x) s'
    /\ inode_at mounted (Ptr x) = None /\ inode_at s' (Ptr x) = Some i
    /\ (forall p j, inode_at mounted p = Some j -> inode_at s' p = Some j)
    /\ i_ino i <> 0 /\ i_sb i = 0%nat /\ i_uid i = fsuid (current mounted)
    /\ i_atime i = now mounted /\ i_mtime i = now mounted /\ i_ctime i = now mounted
    /\ a_ops (i_mapping i) = ram_aops /\ unevictable (i_mapping i) = true
    /\ gfp_mask (i_mapping i)
       = (if S_ISLNK (Z.lor S_IFCHR (oct "600")) then GFP_USER else GFP_HIGHUSER)
    /\ (S_ISREG (Z.lor S_IFCHR (oct "600")) = true ->
        i_op i = myfs_file_iops /\ i_fop i = myfs_file_fops)
    /\ (S_ISDIR (Z.lor S_IFCHR (oct "600")) = true ->
        i_op i = myfs_dir_iops /\ i_fop i = simple_dir_fops)
    /\ (S_ISLNK (Z.lor S_IFCHR (oct "600")) = true -> i_op i = page_symlink_iops)
    /\ (S_ISCHR (Z.lor S_IFCHR (oct "600")) = true -> i_fop i = def_chr_fops /\ i_rdev i = 1025)
    /\ (S_ISBLK (Z.lor S_IFCHR (oct "600")) = true -> i_fop i = def_blk_fops /\ i_rdev i = 1025)
    /\ (S_ISFIFO (Z.lor S_IFCHR (oct "600")) = true -> i_fop i = pipefifo_fops).
Proof.
  apply (get_inode_by_type 0 (Ptr 0) (Z.lor S_IFCHR (oct "600")) 1025 mounted).
  - vm_compute. discriminate.
  - right. vm_compute. eauto.
Defined.

(** X5: on a live directory and a negative dentry each operation returns (0 or
    an error code) rather than oopsing; [myfs_tmpfile] needs in addition
    what [d_tmpfile] demands: the dentry unhashed, not a root, and its name
    shorter than DNAME_INLINE_LEN. *)
Theorem myfs_ops_total o dir dentry s d a de :
  inode_at s dir = Some d -> dentry = Ptr a -> dentry_at s dentry = Some de ->
  d_inode de = NULL ->
  ((exists mode, o = op_tmpfile mode) ->
   d_unlinked s a de = true /\ strlen (d_name de) < DNAME_INLINE_LEN) ->
  exists r s', Myfs.myfs_dir_inode_operations o dir dentry s = Ok r s'.
Proof.
  intros Hd -> Hde Hneg Htmp.
  destruct (inode_slab s) as [|n] eqn:Hn.
  { eexists _, _. exact (myfs_ops_enospc o dir (Ptr a) s d de Hd Hde Hn). }
  assert (exists da, dir = Ptr da) as [da ->] by (destruct dir; try discriminate; eauto).
  destruct o as [mode excl | symname | mode | mode dev | mode]; cbn.
  - destruct (myfs_create_made da a mode excl s d n de Hd Hn Hde Hneg) as (ino & i & Hm & _).
    eauto.
  - destruct (myfs_symlink_made da (Ptr a) symname s d n Hd Hn) as (ino & i & _ & _ & _ & Hfail & Hok).
    destruct (page_pool s) as [|k] eqn:Hk.
    + eexists _, _. exact (Hfail eq_refl).
    + eexists _, _. exact (Hok k a de eq_refl eq_refl Hde Hneg).
  - destruct (myfs_mkdir_made da a mode s d n de Hd Hn Hde Hneg) as (ino & i & Hm & _).
    eauto.
  - destruct (myfs_mknod_made da a mode dev s d n de Hd Hn Hde Hneg) as (ino & i & Hm & _).
    eauto.
  - destruct Htmp as [Hu Hlen]; [eauto|].
    destruct (myfs_tmpfile_made (Ptr da) a mode s d n de Hd Hn Hde Hneg Hu Hlen)
      as (ino & i & Hm & _).
    eauto.
Qed.

(** An anonymous regular file under the root. *)
Lemma myfs_ops_total_witness :
  exists r s', myfs_dir_inode_operations (op_tmpfile (Z.lor S_IFREG (oct "600")))
                 (Ptr 0) (Ptr 1) with_anonymous = Ok r s'.
Proof.
  apply (myfs_ops_total (op_tmpfile (Z.lor S_IFREG (oct "600"))) (Ptr 0) (Ptr 1) with_anonymous
           (the_inode with_anonymous (Ptr 0)) 1 (the_dentry with_anonymous (Ptr 1))).
  - vm_compute. reflexivity.
  - reflexivity.
  - vm_compute. reflexivity.
  - vm_compute. reflexivity.
  - intros _. vm_compute. split; reflexivity.
Defined.

(** X6: none of the operations checks for an existing inode.  Handed a dentry
    that already has one, with an inode left to take (and a page, for
    [myfs_symlink]), the call runs into the BUG of [d_instantiate] or
    [d_tmpfile] and oopses instead of returning an error. *)
Theorem myfs_ops_bug_on_positive o dir dentry s d de :
  inode_at s dir = Some d -> dentry_at s dentry = Some de -> d_inode de <> NULL ->
  inode_slab s <> O ->
  ((exists symname, o = op_symlink symname) -> page_pool s <> O) ->
  Myfs.myfs_dir_inode_operations o dir dentry s = Oops.
Proof.
  intros Hd Hde Hpos Hn Hpg.
  destruct (Myfs.myfs_dir_inode_operations o dir dentry s) as [r s'|] eqn:E; [|reflexivity].
  exfalso.
  destruct (myfs_ops_outcome _ _ _ _ _ _ E) as
    (d0 & Hd0 & [(_ & _ & Hz) | (n & ino & i & _ & _ & _ & _ &
       [(_ & Hsym & Hk & _) | (da & a & de0 & _ & _ & _ & Hde0 & Hneg & _)])]).
  - contradiction.
  - exact (Hpg Hsym Hk).
  - rewrite Hde in Hde0. inversion Hde0; subst de0. contradiction.
Qed.

(** A create on the root dentry itself, which has its inode. *)
Lemma myfs_ops_bug_on_positive_witness :
  myfs_dir_inode_operations (op_create (oct "644") false) (Ptr 0) (Ptr 0) with_negative = Oops.
Proof.
  apply (myfs_ops_bug_on_positive (op_create (oct "644") false) (Ptr 0) (Ptr 0) with_negative
           (the_inode with_negative (Ptr 0)) (the_dentry with_negative (Ptr 0))).
  - vm_compute. reflexivity.
  - vm_compute. reflexivity.
  - vm_compute. discriminate.
  - vm_compute. discriminate.
  - intros _. vm_compute. discriminate.
Defined.

End MyfsProps.

(** ** src/myfs.c: mount options and the super block *)

Module MountProps.
Import Num Stat Errno Kernel KernelFacts Myfs Boot MyfsFacts MountFacts Shapes MyfsOutcomes MyfsProps.

Lemma echo_parses_all : forallb echo_parses (map Z.of_nat (seq 0 4096)) = true.
Proof. vm_compute. reflexivity. Qed.

Lemma echo_parses_range m : 0 <= m <= oct "7777" -> kstrtouint (fmt_o m) 8 = inr m.
Proof.
  intros Hm. change (oct "7777") with 4095 in Hm.
  pose proof echo_parses_all as H. rewrite forallb_forall in H.
  assert (Hin : In m (map Z.of_nat (seq 0 4096))).
  { rewrite <- (Z2Nat.id m) by lia. apply in_map. apply in_seq. lia. }
  specialize (H _ Hin). unfold echo_parses in H.
  destruct (kstrtouint (fmt_o m) 8) as [e|v]; [discriminate|].
  apply Z.eqb_eq in H. now subst.
Qed.

Lemma mask_small m : 0 <= m <= oct "7777" -> Z.land m S_IALLUGO = m.
Proof.
  intros Hm. change (oct "7777") with 4095 in Hm.
  change S_IALLUGO with (Z.ones 12). rewrite Z.land_ones by lia.
  apply Z.mod_small. change (2 ^ 12) with 4096. lia.
Qed.

(** X10: for every mode m from 0 to 07777, [myfs_show_options] prints nothing
    for the default 0755 and otherwise ,mode= followed by m in octal; that
    octal text converts back to m, and [myfs_parse_param] on a mode option
    carrying it stores exactly m. *)
Theorem echoed_mode_parses_back m pre fc fsi :
  0 <= m <= oct "7777" -> s_fs_info fc = Some fsi ->
  myfs_show_options pre (mk_fsi (mk_opts m))
  = (0, if m =? RAMFS_DEFAULT_MODE then pre else pre +:+ ",mode=" +:+ fmt_o m)
  /\ kstrtouint (fmt_o m) 8 = inr m
  /\ myfs_parse_param fc (opt_mode (fmt_o m))
     = Some (0, mk_fc (Some (mk_fsi (mk_opts m))) (ops_set fc)).
Proof.
  intros Hm Hf. split.
  { unfold myfs_show_options. cbn [mode mount_opts]. now destruct (m =? RAMFS_DEFAULT_MODE). }
  pose proof (echo_parses_range m Hm) as He. split; [exact He|].
  rewrite (myfs_parse_param_cases fc fsi _ Hf).
  unfold bad_mode. cbn [key type string_ opt_mode].
  rewrite bool_decide_eq_true_2 by reflexivity. cbn [andb]. rewrite He.
  now rewrite (mask_small m Hm).
Qed.

(** Mode 01777. *)
Lemma echoed_mode_parses_back_witness :
  myfs_show_options "rw" (mk_fsi (mk_opts (oct "1777")))
  = (0, if oct "1777" =? RAMFS_DEFAULT_MODE then "rw"
        else "rw" +:+ ",mode=" +:+ fmt_o (oct "1777"))
  /\ kstrtouint (fmt_o (oct "1777")) 8 = inr (oct "1777")
  /\ myfs_parse_param (mk_fc (Some (mk_fsi (mk_opts RAMFS_DEFAULT_MODE))) true)
       (opt_mode (fmt_o (oct "1777")))
     = Some (0, mk_fc (Some (mk_fsi (mk_opts (oct "1777")))) true).
Proof.
  apply (echoed_mode_parses_back (oct "1777") "rw"
           (mk_fc (Some (mk_fsi (mk_opts RAMFS_DEFAULT_MODE))) true)
           (mk_fsi (mk_opts RAMFS_DEFAULT_MODE))).
  - vm_compute. split; discriminate.
  - reflexivity.
Defined.

(** X11: options whose key is not mode play no part in the outcome: parsing a
    list of options gives the same result as parsing only the mode options
    among them. *)
Theorem unknown_options_dropped fc fsi ps :
  s_fs_info fc = Some fsi ->
  parse_params fc ps = parse_params fc (filter (fun p => key p = "mode") ps).
Proof.
  revert fc fsi. induction ps as [|p rest IH]; intros fc fsi Hf; [reflexivity|].
  rewrite filter_cons. cbn [parse_params].
  destruct (decide (key p = "mode")) as [Hk|Hk].
  - cbn [parse_params]. rewrite (myfs_parse_param_cases fc fsi p Hf).
    rewrite (bool_decide_eq_true_2 _ Hk).
    destruct (bad_mode p); [reflexivity|].
    destruct (kstrtouint (string_ p) 8) as [e|v]; [reflexivity|].
    cbn [Z.ltb Z.compare]. eapply IH. reflexivity.
  - rewrite (myfs_parse_param_cases fc fsi p Hf).
    rewrite (bool_decide_eq_false_2 _ Hk). cbn [Z.ltb Z.compare]. eapply IH. exact Hf.
Qed.

(** The options size=10m,mode=700,noatime. *)
Lemma unknown_options_dropped_witness :
  parse_params (mk_fc (Some (mk_fsi (mk_opts RAMFS_DEFAULT_MODE))) true)
    [mk_param "size" fs_value_is_string "10m"; opt_mode "700";
     mk_param "noatime" fs_value_is_flag ""]
  = parse_params (mk_fc (Some (mk_fsi (mk_opts RAMFS_DEFAULT_MODE))) true)
      (filter (fun p => key p = "mode")
         [mk_param "size" fs_value_is_string "10m"; opt_mode "700";
          mk_param "noatime" fs_value_is_flag ""]).
Proof.
  apply (unknown_options_dropped (mk_fc (Some (mk_fsi (mk_opts RAMFS_DEFAULT_MODE))) true)
           (mk_fsi (mk_opts RAMFS_DEFAULT_MODE))).
  reflexivity.
Defined.

Lemma last_cons_some {A} (x : A) l :
  last (x :: l) = match last l with Some y => Some y | None => Some x end.
Proof.
  destruct l as [|y l]; [reflexivity|].
  change (last (x :: y :: l)) with (last (y :: l)).
  destruct (last (y :: l)) eqn:E; [reflexivity|].
  apply last_None in E. discriminate.
Qed.

Lemma parse_params_fold fc fsi ps fc' :
  s_fs_info fc = Some fsi ->
  parse_params fc ps = Some (0, fc') ->
  fc' = mk_fc (Some (mk_fsi (mk_opts (mode_after ps (mode (mount_opts fsi)))))) (ops_set fc).
Proof.
  revert fc fsi. induction ps as [|p rest IH]; intros fc fsi Hf H.
  - cbn in H. inversion H; subst fc'. cbn. destruct fc as [i o]. cbn in *. subst i.
    now destruct fsi as [[m]].
  - cbn [parse_params] in H. rewrite (myfs_parse_param_cases fc fsi p Hf) in H.
    unfold mode_after. cbn [fold_left]. fold (mode_after rest).
    destruct (bool_decide (key p = "mode")).
    + destruct (bad_mode p); [discriminate|].
      unfold mode_value.
      destruct (kstrtouint (string_ p) 8) as [e|v] eqn:Hv; [discriminate|].
      cbn [Z.ltb Z.compare] in H.
      exact (IH (mk_fc (Some (mk_fsi (mk_opts (Z.land v S_IALLUGO)))) (ops_set fc))
                (mk_fsi (mk_opts (Z.land v S_IALLUGO))) eq_refl H).
    + cbn [Z.ltb Z.compare] in H. exact (IH _ _ Hf H).
Qed.

Lemma mode_after_last ps m0 :
  mode_after ps m0
  = match last (filter (fun p => key p = "mode") ps) with
    | Some p => mode_value p
    | None => m0
    end.
Proof.
  revert m0. induction ps as [|p rest IH]; intros m0; [reflexivity|].
  unfold mode_after. cbn [fold_left]. fold (mode_after rest). rewrite IH.
  rewrite filter_cons.
  destruct (decide (key p = "mode")) as [Hk|Hk].
  - rewrite (bool_decide_eq_true_2 _ Hk). rewrite last_cons_some.
    now destruct (last (filter (fun p0 => key p0 = "mode") rest)).
  - now rewrite (bool_decide_eq_false_2 _ Hk).
Qed.

(** X12: when the whole list is accepted, the context ends with the mode of the
    last mode option (its value masked with 07777), or with the mode it
    started with if the list has no mode option; nothing else in the context
    changes. *)
Theorem last_mode_wins fc fsi ps fc' :
  s_fs_info fc = Some fsi ->
  parse_params fc ps = Some (0, fc') ->
  fc' = mk_fc (Some (mk_fsi (mk_opts
                match last (filter (fun p => key p = "mode") ps) with
                | Some p => mode_value p
                | None => mode (mount_opts fsi)
                end))) (ops_set fc).
Proof.
  intros Hf H. rewrite (parse_params_fold fc fsi ps fc' Hf H).
  now rewrite mode_after_last.
Qed.

(** The options mode=700,size=10m,mode=1777,noatime. *)
Lemma last_mode_wins_witness :
  mk_fc (Some (mk_fsi (mk_opts (oct "1777")))) true
  = mk_fc (Some (mk_fsi (mk_opts
             match last (filter (fun p => key p = "mode")
                           [opt_mode "700"; mk_param "size" fs_value_is_string "10m";
                            opt_mode "1777"; mk_param "noatime" fs_value_is_flag ""]) with
             | Some p => mode_value p
             | None => mode (mount_opts (mk_fsi (mk_opts RAMFS_DEFAULT_MODE)))
             end)))
      (ops_set (mk_fc (Some (mk_fsi (mk_opts RAMFS_DEFAULT_MODE))) true)).
Proof.
  apply (last_mode_wins (mk_fc (Some (mk_fsi (mk_opts RAMFS_DEFAULT_MODE))) true)
           (mk_fsi (mk_opts RAMFS_DEFAULT_MODE))
           [opt_mode "700"; mk_param "size" fs_value_is_string "10m";
            opt_mode "1777"; mk_param "noatime" fs_value_is_flag ""]).
  - reflexivity.
  - vm_compute. reflexivity.
Defined.

(** [myfs_fill_super] by what the allocators have left. *)
Lemma fill_super_cases sbid sb fc fsi s :
  sb_fs_info sb = Some fsi ->
  (inode_slab s = O -> myfs_fill_super sbid sb fc s = Ok (- ENOMEM, filled sb NULL) s)
  /\ (forall n, inode_slab s = S n ->
        exists ino i,
          born s (Z.lor S_IFDIR (mode (mount_opts fsi))) i
          /\ made s sbid (Z.lor S_IFDIR (mode (mount_opts fsi))) 0 ino i
          /\ i_mode i = u16 (Z.lor S_IFDIR (mode (mount_opts fsi)))
          /\ i_gid i = fsgid (current s)
          /\ (dentry_slab s = O ->
              myfs_fill_super sbid sb fc s = Ok (- ENOMEM, filled sb NULL) (released ino s))
          /\ (forall j, dentry_slab s = S j ->
                myfs_fill_super sbid sb fc s
                = Ok (0, filled sb (Ptr (length (dentries s))))
                     (rooted (length (inodes s)) j (allocated n ino i s)))).
Proof.
  intros Hf. split.
  - intros Hn. unfold myfs_fill_super. rewrite Hf.
    rewrite (bind_ok _ _ _ _ _ (myfs_get_inode_full _ _ _ _ _ Hn)).
    unfold filled. rewrite Hf. reflexivity.
  - intros n Hn.
    destruct (myfs_get_inode_made sbid NULL (Z.lor S_IFDIR (mode (mount_opts fsi))) 0 s n Hn)
      as (ino & i & Hg & Hb & Hm & Hnull & _); [now left|].
    destruct (Hnull eq_refl) as [Hmode Hgid].
    exists ino, i. split; [exact Hb|]. split; [exact Hm|]. split; [exact Hmode|].
    split; [exact Hgid|]. split.
    + intros Hj. unfold myfs_fill_super. rewrite Hf.
      rewrite (bind_ok _ _ _ _ _ Hg).
      rewrite (bind_ok _ _ _ _ _ (d_make_root_full n ino i s Hn Hj)).
      unfold filled. rewrite Hf. reflexivity.
    + intros j Hj. unfold myfs_fill_super. rewrite Hf.
      rewrite (bind_ok _ _ _ _ _ Hg).
      erewrite bind_ok by (eapply d_make_root_ok; [apply inode_at_allocated_new|exact Hj]).
      unfold filled. rewrite Hf. reflexivity.
Qed.

Lemma small_mode_fmt m : 0 <= m <= oct "7777" -> Z.land m S_IFMT = 0.
Proof.
  intros Hm. rewrite <- (mask_small m Hm).
  rewrite <- Z.land_assoc. change (Z.land S_IALLUGO S_IFMT) with 0. apply Z.land_0_r.
Qed.

Lemma small_mode_dir m :
  0 <= m <= oct "7777" ->
  S_ISDIR (Z.lor S_IFDIR m) = true
  /\ u16 (Z.lor S_IFDIR m) = Z.lor S_IFDIR m
  /\ Z.land (Z.lor S_IFDIR m) S_IALLUGO = m.
Proof.
  intros Hm. split; [|split].
  - unfold S_ISDIR. rewrite Z.land_lor_distr_l, (small_mode_fmt m Hm). reflexivity.
  - assert (E : Z.lor S_IFDIR m = S_IFDIR + m).
    { rewrite <- Z.add_nocarry_lor; [reflexivity|].
      rewrite Z.land_comm. rewrite <- (mask_small m Hm).
      rewrite <- Z.land_assoc. change (Z.land S_IALLUGO S_IFDIR) with 0. apply Z.land_0_r. }
    rewrite E. unfold u16, wrap. apply Z.mod_small.
    change (oct "7777") with 4095 in Hm. change S_IFDIR with 16384. change (2 ^ 16) with 65536. lia.
  - rewrite Z.land_lor_distr_l, (mask_small m Hm). reflexivity.
Qed.

(** X13: on a super block with mount info, [myfs_fill_super] returns 0 or
    [-ENOMEM], with the size limits, magic number and operations filled in;
    0 exactly when an inode and a dentry are left.  On failure [s_root] is
    NULL and no inode or dentry stays allocated (the root inode is put again
    when the dentry allocation fails).  On success [s_root] is a new dentry,
    its own parent, with a new inode of mode [S_IFDIR | mode] owned by the
    caller's fsuid and fsgid; for a mode of permission bits only that inode
    is a directory with link count 2 and the directory tables of myfs. *)
Theorem fill_super_outcome sbid sb fc fsi s :
  sb_fs_info sb = Some fsi ->
  exists r root s',
    myfs_fill_super sbid sb fc s = Ok (r, filled sb root) s'
    /\ (r = 0 \/ r = - ENOMEM)
    /\ (r = 0 <-> inode_slab s <> O /\ dentry_slab s <> O)
    /\ (r <> 0 ->
        root = NULL /\ inode_slab s' = inode_slab s /\ dentry_slab s' = dentry_slab s
        /\ dentries s' = dentries s /\ dcache s' = dcache s
        /\ forall p, inode_at s' p = inode_at s p)
    /\ (r = 0 ->
        exists a rd ri,
          root = Ptr a /\ dentry_at s (Ptr a) = None
          /\ dentry_at s' (Ptr a) = Some rd /\ d_parent rd = a
          /\ inode_at s' (d_inode rd) = Some ri
          /\ i_mode ri = u16 (Z.lor S_IFDIR (mode (mount_opts fsi)))
          /\ i_uid ri = fsuid (current s) /\ i_gid ri = fsgid (current s)
          /\ (0 <= mode (mount_opts fsi) <= oct "7777" ->
              S_ISDIR (i_mode ri) = true /\ i_nlink ri = 2
              /\ i_op ri = myfs_dir_iops /\ i_fop ri = simple_dir_fops
              /\ Z.land (i_mode ri) S_IALLUGO = mode (mount_opts fsi))).
Proof.
  intros Hf. destruct (fill_super_cases sbid sb fc fsi s Hf) as [Hfull Hroom].
  destruct (inode_slab s) as [|n] eqn:Hn.
  { exists (- ENOMEM), NULL, s. split; [now apply Hfull|]. split; [auto|].
    split; [split; [discriminate|intros [? _]; congruence]|].
    split; [auto 10|discriminate]. }
  destruct (Hroom n eq_refl) as (ino & i & Hb & Hm & Hmode & Hgid & Hnod & Hok).
  destruct (dentry_slab s) as [|j] eqn:Hj.
  { exists (- ENOMEM), NULL, (released ino s). split; [now apply Hnod|]. split; [auto|].
    split; [split; [discriminate|intros [_ ?]; congruence]|].
    split; [|discriminate]. intros _. cbn. rewrite Hn, Hj.
    repeat split. apply inode_at_released. }
  exists 0, (Ptr (length (dentries s))), (rooted (length (inodes s)) j (allocated n ino i s)).
  split; [now apply Hok|]. split; [auto|].
  split; [split; [intros _; split; discriminate|reflexivity]|].
  split; [congruence|]. intros _.
  eexists (length (dentries s)), _, i.
  split; [reflexivity|]. split.
  { destruct (dentry_at s (Ptr (length (dentries s)))) eqn:E; [|reflexivity].
    apply dentry_at_lt in E. lia. }
  split; [exact (rooted_root (length (inodes s)) j (allocated n ino i s))|].
  cbn [d_parent d_inode]. split; [reflexivity|].
  split; [unfold rooted; rewrite inode_at_put_dentry; apply inode_at_allocated_new|].
  split; [exact Hmode|].
  destruct Hm as (_ & _ & _ & Huid & _ & _ & _ & _ & Hdir & _).
  split; [exact Huid|]. split; [exact Hgid|].
  intros Hr. destruct (small_mode_dir _ Hr) as (Hd & Hu & Hp).
  destruct (Hdir Hd) as (Hop & Hfop & _). destruct Hb as (Hl & _).
  rewrite Hmode, Hu. rewrite Hd in Hl. auto.
Qed.

(** Mode 0700 with no dentry left. *)
Lemma fill_super_outcome_witness :
  exists r root s',
    myfs_fill_super 0 (blank_sb (Some (mk_fsi (mk_opts (oct "700")))))
      (mk_fc (Some (mk_fsi (mk_opts (oct "700")))) true) (set_dentry_slab 0 (boot 4 0))
    = Ok (r, filled (blank_sb (Some (mk_fsi (mk_opts (oct "700"))))) root) s'
    /\ (r = 0 \/ r = - ENOMEM)
    /\ (r = 0 <-> inode_slab (set_dentry_slab 0 (boot 4 0)) <> O
                  /\ dentry_slab (set_dentry_slab 0 (boot 4 0)) <> O)
    /\ (r <> 0 ->
        root = NULL /\ inode_slab s' = inode_slab (set_dentry_slab 0 (boot 4 0))
        /\ dentry_slab s' = dentry_slab (set_dentry_slab 0 (boot 4 0))
        /\ dentries s' = dentries (set_dentry_slab 0 (boot 4 0))
        /\ dcache s' = dcache (set_dentry_slab 0 (boot 4 0))
        /\ forall p, inode_at s' p = inode_at (set_dentry_slab 0 (boot 4 0)) p)
    /\ (r = 0 ->
        exists a rd ri,
          root = Ptr a /\ dentry_at (set_dentry_slab 0 (boot 4 0)) (Ptr a) = None
          /\ dentry_at s' (Ptr a) = Some rd /\ d_parent rd = a
          /\ inode_at s' (d_inode rd) = Some ri
          /\ i_mode ri = u16 (Z.lor S_IFDIR (mode (mount_opts (mk_fsi (mk_opts (oct "700"))))))
          /\ i_uid ri = fsuid (current (set_dentry_slab 0 (boot 4 0)))
          /\ i_gid ri = fsgid (current (set_dentry_slab 0 (boot 4 0)))
          /\ (0 <= mode (mount_opts (mk_fsi (mk_opts (oct "700")))) <= oct "7777" ->
              S_ISDIR (i_mode ri) = true /\ i_nlink ri = 2
              /\ i_op ri = myfs_dir_iops /\ i_fop ri = simple_dir_fops
              /\ Z.land (i_mode ri) S_IALLUGO
                 = mode (mount_opts (mk_fsi (mk_opts (oct "700")))))).
Proof.
  apply (fill_super_outcome 0 (blank_sb (Some (mk_fsi (mk_opts (oct "700")))))
           (mk_fc (Some (mk_fsi (mk_opts (oct "700")))) true) (mk_fsi (mk_opts (oct "700")))
           (set_dentry_slab 0 (boot 4 0))).
  reflexivity.
Defined.

(** X14: the mount sequence never oopses and ends in one of three ways:
    [-EINVAL] exactly when memory for the info is left and some mode option
    is malformed; 0 exactly when memory, an inode and a dentry are left and
    no mode option is malformed; [-ENOMEM] otherwise.  A failed mount yields
    no super block and leaves inodes, dentries and dentry cache as they
    were; a successful one yields a super block with RAMFS_MAGIC whose root
    is a directory with link count 2 and the permission bits of the last
    mode option, 0755 if there is none. *)
Theorem mount_outcome sbid ps s :
  exists r osb s',
    mount sbid ps s = Ok (r, osb) s'
    /\ (r = 0 \/ r = - ENOMEM \/ r = - EINVAL)
    /\ (r = - EINVAL <-> kmalloc_pool s <> O /\ Exists (fun p => bad_mode p = true) ps)
    /\ (r = 0 <-> kmalloc_pool s <> O /\ ~ Exists (fun p => bad_mode p = true) ps
                  /\ inode_slab s <> O /\ dentry_slab s <> O)
    /\ (r <> 0 ->
        osb = None /\ inode_slab s' = inode_slab s /\ dentry_slab s' = dentry_slab s
        /\ dentries s' = dentries s /\ dcache s' = dcache s
        /\ forall p, inode_at s' p = inode_at s p)
    /\ (r = 0 ->
        exists sb a rd ri,
          osb = Some sb /\ s_root sb = Ptr a
          /\ s_magic sb = RAMFS_MAGIC /\ s_op sb = myfs_ops
          /\ sb_fs_info sb
             = Some (mk_fsi (mk_opts
                       match last (filter (fun p => key p = "mode") ps) with
                       | Some p => mode_value p
                       | None => RAMFS_DEFAULT_MODE
                       end))
          /\ dentry_at s' (Ptr a) = Some rd /\ inode_at s' (d_inode rd) = Some ri
          /\ S_ISDIR (i_mode ri) = true /\ i_nlink ri = 2
          /\ Z.land (i_mode ri) S_IALLUGO
             = match last (filter (fun p => key p = "mode") ps) with
               | Some p => mode_value p
               | None => RAMFS_DEFAULT_MODE
               end).
Proof.
  destruct (kmalloc_pool s) as [|k] eqn:Hk.
  { exists (- ENOMEM), None, s. split.
    { unfold mount, myfs_init_fs_context, kzalloc_fsi, bind. now rewrite Hk. }
    split; [auto|]. split; [split; [discriminate|intros [? _]; congruence]|].
    split; [split; [discriminate|intros [? _]; congruence]|].
    split; [auto 10|discriminate]. }
  set (fc0 := mk_fc (Some (mk_fsi (mk_opts RAMFS_DEFAULT_MODE))) true).
  destruct (parse_params_result fc0 (mk_fsi (mk_opts RAMFS_DEFAULT_MODE)) ps eq_refl)
    as (r & fc' & fsi' & Hp & Hf' & Hcode & Hiff).
  destruct Hcode as [-> | ->].
  2:{ assert (Hex : Exists (fun p => bad_mode p = true) ps) by (apply Hiff; reflexivity).
      exists (- EINVAL), None, (set_kmalloc_pool k s).
      split; [exact (mount_aborts sbid ps s k Hex Hk)|]. split; [auto|].
      split; [split; [intros _; split; [discriminate|exact Hex]|reflexivity]|].
      split; [split; [discriminate|intros (_ & Hno & _); contradiction]|].
      split; [|discriminate]. intros _. repeat split. }
  assert (Hno : ~ Exists (fun p => bad_mode p = true) ps).
  { intros Hex. apply Hiff in Hex. lia. }
  pose proof (parse_params_fold fc0 _ ps fc' eq_refl Hp) as Hfc.
  rewrite mode_after_last in Hfc. cbn [mode mount_opts fc0 ops_set] in Hfc.
  set (M := match last (filter (fun p => key p = "mode") ps) with
            | Some p => mode_value p
            | None => RAMFS_DEFAULT_MODE
            end) in *.
  assert (HM : 0 <= M <= oct "7777").
  { destruct (parse_params_mode_range fc0 (mk_fsi (mk_opts RAMFS_DEFAULT_MODE)) ps 0 fc' eq_refl)
      as (f1 & Hf1 & Hr1); [vm_compute; split; discriminate|exact Hp|].
    rewrite Hfc in Hf1. cbn in Hf1. inversion Hf1; subst f1. exact Hr1. }
  set (s0 := set_kmalloc_pool k s).
  assert (Hm : forall r2 root s',
             myfs_fill_super sbid (blank_sb (s_fs_info fc')) fc' s0
             = Ok (r2, filled (blank_sb (s_fs_info fc')) root) s' ->
             mount sbid ps s
             = (if r2 <? 0 then Ok (r2, None) s'
                else Ok (0, Some (filled (blank_sb (s_fs_info fc')) root)) s')).
  { intros r2 root s' Hfill. unfold mount, myfs_init_fs_context.
    rewrite ?bind_assoc. rewrite (bind_ok _ _ _ _ _ (kzalloc_fsi_ok s k Hk)).
    cbv beta iota. erewrite bind_ok by reflexivity. cbv beta iota.
    change (0 <? 0) with false. cbv iota. fold fc0. rewrite Hp.
    change (0 <? 0) with false. cbv iota.
    unfold myfs_get_tree. fold s0. rewrite (bind_ok _ _ _ _ _ Hfill). cbv beta iota.
    now destruct (r2 <? 0). }
  destruct (fill_super_cases sbid (blank_sb (s_fs_info fc')) fc' (mk_fsi (mk_opts M)) s0)
    as [Hfull Hroom]; [rewrite Hfc; reflexivity|].
  change (inode_slab s0) with (inode_slab s) in Hfull, Hroom.
  destruct (inode_slab s) as [|n] eqn:Hn.
  { exists (- ENOMEM), None, s0. split; [exact (Hm _ _ _ (Hfull eq_refl))|].
    split; [auto|]. split; [split; [discriminate|intros [_ ?]; contradiction]|].
    split; [split; [discriminate|intros (_ & _ & ? & _); congruence]|].
    split; [|discriminate]. intros _. cbn. rewrite Hn. auto 10. }
  destruct (Hroom n eq_refl) as (ino & i & Hb & Hmade & Hmode & _ & Hnod & Hok).
  change (dentry_slab s0) with (dentry_slab s) in Hnod, Hok.
  destruct (dentry_slab s) as [|j] eqn:Hj.
  { exists (- ENOMEM), None, (released ino s0). split; [exact (Hm _ _ _ (Hnod eq_refl))|].
    split; [auto|]. split; [split; [discriminate|intros [_ ?]; contradiction]|].
    split; [split; [discriminate|intros (_ & _ & _ & ?); congruence]|].
    split; [|discriminate]. intros _. cbn. rewrite Hn, Hj.
    repeat split. intros p. exact (inode_at_released ino s0 p). }
  cbn [mode mount_opts] in Hb, Hmode.
  destruct (small_mode_dir M HM) as (Hdir & Hu & Hperm).
  destruct Hb as (Hl & _). rewrite Hdir in Hl.
  eexists 0, _, _. split; [exact (Hm _ _ _ (Hok j eq_refl))|].
  split; [auto|]. split; [split; [discriminate|intros [_ ?]; contradiction]|].
  split; [split; [intros _; repeat split; try discriminate; assumption|reflexivity]|].
  split; [congruence|]. intros _.
  eexists _, (length (dentries s)), _, i.
  split; [reflexivity|]. split; [reflexivity|]. split; [reflexivity|]. split; [reflexivity|].
  split; [cbn; now rewrite Hfc|].
  split; [exact (rooted_root (length (inodes s)) j (allocated n ino i s0))|].
  cbn [d_inode]. split.
  { unfold rooted. rewrite inode_at_put_dentry. exact (inode_at_allocated_new n ino i s0). }
  rewrite Hmode, Hu. auto.
Qed.

End MountProps.

(** ** src/unnamed/part_000: every outcome of the creations *)

Module AufsOutcomes.
Import Num Stat Errno Kernel KernelFacts DcacheFacts Aufs Boot AufsFacts Shapes WfFacts MyfsOutcomes.

Lemma aufs_get_inode_made sb mode dev s n :
  inode_slab s = S n ->
  exists ino i,
    Aufs.myfs_get_inode sb mode dev s = Ok (Ptr (length (inodes s))) (allocated n ino i s)
    /\ born s mode i /\ aufs_made s sb mode dev ino i.
Proof.
  intros Hn. unfold Aufs.myfs_get_inode.
  rewrite (bind_ok _ _ _ _ _ (new_inode_2_6_room sb s n Hn)). cbv beta iota.
  step. step. step.
  unfold born, aufs_made, S_ISDIR, S_ISREG, S_ISCHR, S_ISBLK, S_ISFIFO.
  destruct (Z.eqb_spec (Z.land mode S_IFMT) S_IFREG) as [Er|Er].
  { step. do 2 eexists. split; [reflexivity|].
    rewrite Er. cbn. rewrite u16_fmt.
    repeat split; try assumption; try reflexivity; try discriminate. }
  destruct (Z.eqb_spec (Z.land mode S_IFMT) S_IFDIR) as [Ed|Ed].
  { step. step. do 2 eexists. split; [reflexivity|].
    rewrite Ed. cbn. rewrite u16_fmt.
    repeat split; try assumption; try reflexivity; try discriminate. }
  edestruct init_special_inode_fields as
    (j & Hj & Hm & Hl & Ha & Hmt & Hc & Hi & Hsb & Hu & Hg & Hmap & Hop & Hbl & Hchr & Hblk & Hff).
  rewrite (bind_ok _ _ _ _ _ Hj). do 2 eexists. split; [reflexivity|].
  unfold S_ISCHR, S_ISBLK, S_ISFIFO in *.
  rewrite Hm, Hl, Ha, Hmt, Hc, Hi, Hsb, Hu, Hg, Hmap, Hbl. cbn. rewrite u16_fmt.
  repeat split; try assumption; try reflexivity; try discriminate;
    try (edestruct Hchr as [? ?]; [eassumption|]; assumption);
    try (edestruct Hblk as [? ?]; [eassumption|]; assumption);
    try (now apply Hff).
Qed.

Lemma aufs_mknod_made dir a mode dev s de d n :
  dentry_at s (Ptr a) = Some de -> d_inode de = NULL ->
  inode_at s dir = Some d -> inode_slab s = S n ->
  exists ino i,
    Aufs.myfs_mknod dir (Ptr a) mode dev s = Ok 0 (Aufs.aufs_mknod_done a de n ino i s)
    /\ born s mode i /\ aufs_made s (i_sb d) mode dev ino i.
Proof.
  intros Hde Hp Hd Hn. unfold Aufs.myfs_mknod.
  rewrite (bind_ok _ _ _ _ _ (load_dentry_ok _ _ _ Hde)). rewrite Hp. cbn [is_null negb].
  rewrite (bind_ok _ _ _ _ _ (load_inode_ok _ _ _ Hd)).
  destruct (aufs_get_inode_made (i_sb d) mode dev s n Hn) as (ino & i & Hg & Hb & Hm).
  rewrite (bind_ok _ _ _ _ _ Hg). cbv beta iota. exists ino, i. split; [|split; assumption].
  assert (Hde1 : dentry_at (allocated n ino i s) (Ptr a) = Some de) by exact Hde.
  erewrite bind_ok by (eapply d_instantiate_ok; [exact Hde1|exact Hp|apply inode_at_allocated_new]).
  erewrite bind_ok by (eapply dget_ok; eapply dentry_at_put_same; exact Hde1).
  unfold ret, Aufs.aufs_mknod_done. f_equal.
  unfold put_dentry. simpl. unfold set_dentries. simpl. now rewrite list_insert_insert_eq.
Qed.

(** The creation [myfs_create_by_name] dispatches to, on a negative dentry
    with an inode to take. *)
Lemma by_mode_made mode ia pi a de n s :
  dentry_at s (Ptr a) = Some de -> d_inode de = NULL ->
  inode_at s (Ptr ia) = Some pi -> inode_slab s = S n ->
  exists ino i,
    by_mode mode (Ptr ia) (Ptr a) s = Ok 0 (aufs_done mode ia pi a de n ino i s)
    /\ born s (mode_given mode) i /\ aufs_made s (i_sb pi) (mode_given mode) 0 ino i.
Proof.
  intros Hde Hp Hpi Hn. unfold by_mode, aufs_done, mode_given.
  destruct (Z.land mode S_IFMT =? S_IFDIR).
  - destruct (aufs_mknod_made (Ptr ia) a (Z.lor mode S_IFDIR) 0 s de pi n Hde Hp Hpi Hn)
      as (ino & i & Hm & Hb & Hmade).
    exists ino, i. split; [|split; assumption].
    unfold Aufs.myfs_mkdir. rewrite (bind_ok _ _ _ _ _ Hm).
    change (0 =? 0) with true. cbv iota.
    erewrite bind_ok.
    2:{ refine (update_inode_ok _ ia pi (fun i => set_i_nlink (u32 (i_nlink i + 1)) i) _).
        unfold Aufs.aufs_mknod_done. rewrite inode_at_put_dentry.
        now apply inode_at_allocated_old. }
    reflexivity.
  - exact (aufs_mknod_made (Ptr ia) a (Z.lor mode S_IFREG) 0 s de pi n Hde Hp Hpi Hn).
Qed.

(** A lookup of a name that is not in the cache, under a directory that
    can be searched, with a dentry to take. *)
Lemma lookup_one_len_fresh name pa b pi j s :
  dentry_at s (Ptr pa) = Some b -> inode_at s (d_inode b) = Some pi ->
  may_exec pi = 0 -> has_lookup (i_op pi) = true ->
  __lookup_one_len name (strlen name) = 0 -> strlen name <= NAME_MAX ->
  dcache s !! (pa, name) = None -> dentry_slab s = S j ->
  lookup_one_len name (Ptr pa) (strlen name) s
  = Ok (Ptr (length (dentries s)))
       (d_hash_done pa name (length (dentries s)) (d_alloc_done pa b name j s)).
Proof.
  intros Hb Hpi Hx Hlk Hname Hlen Hc Hj.
  unfold lookup_one_len. rewrite Hname. cbn [Z.eqb negb]. unfold __lookup_hash.
  rewrite (bind_ok _ _ _ _ _ (load_dentry_ok _ _ _ Hb)).
  rewrite (bind_ok _ _ _ _ _ (load_inode_ok _ _ _ Hpi)).
  rewrite Hx. cbn [Z.eqb negb]. unfold d_lookup. rewrite ?bind_assoc.
  erewrite bind_ok by reflexivity. rewrite Hc.
  erewrite bind_ok by reflexivity. cbv beta iota.
  rewrite (bind_ok _ _ _ _ _ (d_alloc_ok _ _ _ _ _ Hb Hj)). cbv beta iota.
  rewrite Hlk. unfold simple_lookup. rewrite ?bind_assoc.
  rewrite (bind_ok _ _ _ _ _ (load_dentry_ok _ _ _ (d_alloc_done_new _ _ _ _ _ Hb))).
  cbn [d_name].
  assert (Hl : (NAME_MAX <? strlen name) = false) by (apply Z.ltb_ge; exact Hlen).
  rewrite Hl. unfold d_add_negative. rewrite ?bind_assoc.
  rewrite (bind_ok _ _ _ _ _ (load_dentry_ok _ _ _ (d_alloc_done_new _ _ _ _ _ Hb))).
  rewrite ?bind_assoc. erewrite bind_ok by reflexivity.
  erewrite bind_ok by reflexivity. reflexivity.
Qed.

Lemma create_by_name_unfold m name mode parent d0 s p0 :
  parent_of m parent = p0 -> p0 <> NULL ->
  Aufs.myfs_create_by_name m name mode parent d0 s
  = (do p <- load_dentry p0;
     load_inode (d_inode p) ;;
     do dentry <- lookup_one_len name p0 (strlen name);
     do error <- by_mode mode (d_inode p) dentry;
     ret (error, dentry)) s.
Proof.
  intros Hp Hnn. unfold Aufs.myfs_create_by_name, parent_of in *.
  destruct parent as [|pp|e]; cbn [is_null] in *.
  - destruct m as [| e | v]; try congruence.
    destruct (Aufs.mnt_sb v); try congruence.
    rewrite Hp. erewrite bind_ok by reflexivity. destruct p0; [congruence|reflexivity|reflexivity].
  - subst p0. erewrite bind_ok by reflexivity. reflexivity.
  - subst p0. erewrite bind_ok by reflexivity. reflexivity.
Qed.

Section Fresh.
Variables (m : vfsmount_ptr) (name : string) (mode : Z) (parent : ptr).
Variables (pa ia j n : nat) (b : dentry) (pi : inode) (s : kstate).
Hypothesis Hp : parent_of m parent = Ptr pa.
Hypothesis Hb : dentry_at s (Ptr pa) = Some b.
Hypothesis Hia : d_inode b = Ptr ia.
Hypothesis Hpi : inode_at s (Ptr ia) = Some pi.
Hypothesis Hx : may_exec pi = 0.
Hypothesis Hlk : has_lookup (i_op pi) = true.
Hypothesis Hname : __lookup_one_len name (strlen name) = 0.
Hypothesis Hlen : strlen name <= NAME_MAX.
Hypothesis Hc : dcache s !! (pa, name) = None.
Hypothesis Hj : dentry_slab s = S j.
Hypothesis Hn : inode_slab s = S n.

Let a := length (dentries s).
Let s1 := d_hash_done pa name a (d_alloc_done pa b name j s).

Lemma fresh_dentry : dentry_at s1 (Ptr a) = Some (new_dentry pa name).
Proof. exact (d_alloc_done_new pa b name j s Hb). Qed.

Lemma create_by_name_fresh d0 :
  exists ino i,
    Aufs.myfs_create_by_name m name mode parent d0 s
    = Ok (0, Ptr a) (aufs_done mode ia pi a (new_dentry pa name) n ino i s1)
    /\ born s (mode_given mode) i /\ aufs_made s (i_sb pi) (mode_given mode) 0 ino i.
Proof.
  assert (Hpi1 : inode_at s1 (Ptr ia) = Some pi) by exact Hpi.
  assert (Hn1 : inode_slab s1 = S n) by exact Hn.
  destruct (by_mode_made mode ia pi a (new_dentry pa name) n s1 fresh_dentry eq_refl Hpi1 Hn1)
    as (ino & i & Hm & Hborn & Hmade).
  exists ino, i. split; [|split; assumption].
  rewrite (create_by_name_unfold m name mode parent d0 s (Ptr pa) Hp) by discriminate.
  rewrite (bind_ok _ _ _ _ _ (load_dentry_ok _ _ _ Hb)). rewrite Hia.
  rewrite (bind_ok _ _ _ _ _ (load_inode_ok _ _ _ Hpi)).
  assert (Hpi' : inode_at s (d_inode b) = Some pi) by (rewrite Hia; exact Hpi).
  rewrite (bind_ok _ _ _ _ _
             (lookup_one_len_fresh name pa b pi j s Hb Hpi' Hx Hlk Hname Hlen Hc Hj)).
  fold a. fold s1. rewrite (bind_ok _ _ _ _ _ Hm). reflexivity.
Qed.

Lemma create_file_fresh fops :
  exists ino i,
    Aufs.myfs_create_file m name mode parent fops s
    = Ok (Ptr a)
         (with_fops fops (length (inodes s)) i
            (aufs_done mode ia pi a (new_dentry pa name) n ino i s1))
    /\ born s (mode_given mode) i /\ aufs_made s (i_sb pi) (mode_given mode) 0 ino i.
Proof.
  destruct (create_by_name_fresh NULL) as (ino & i & Hc0 & Hborn & Hmade).
  exists ino, i. split; [|split; assumption].
  unfold Aufs.myfs_create_file. rewrite (bind_ok _ _ _ _ _ Hc0). cbv beta iota.
  change (0 =? 0) with true. cbn [negb].
  pose proof (inode_at_lt _ _ _ Hpi) as Hlt.
  set (s2 := aufs_done mode ia pi a (new_dentry pa name) n ino i s1).
  assert (Hde2 : dentry_at s2 (Ptr a)
                 = Some (set_d_count (d_count (new_dentry pa name) + 1)
                           (set_d_inode (Ptr (length (inodes s))) (new_dentry pa name)))).
  { unfold s2, aufs_done. destruct (Z.land mode S_IFMT =? S_IFDIR).
    - rewrite dentry_at_put_inode. unfold Aufs.aufs_mknod_done.
      eapply dentry_at_put_same. exact fresh_dentry.
    - unfold Aufs.aufs_mknod_done. eapply dentry_at_put_same. exact fresh_dentry. }
  assert (Hi2 : inode_at s2 (Ptr (length (inodes s))) = Some i).
  { unfold s2, aufs_done. destruct (Z.land mode S_IFMT =? S_IFDIR).
    - rewrite inode_at_put_other by lia. unfold Aufs.aufs_mknod_done.
      rewrite inode_at_put_dentry. exact (inode_at_allocated_new n ino i s1).
    - unfold Aufs.aufs_mknod_done.
      rewrite inode_at_put_dentry. exact (inode_at_allocated_new n ino i s1). }
  rewrite (bind_ok _ _ _ _ _ (load_dentry_ok _ _ _ Hde2)). cbn [d_inode set_d_count set_d_inode is_null negb].
  destruct fops as [f|]; cbn [with_fops].
  - erewrite bind_ok by exact (update_inode_ok _ _ _ (set_i_fop f) Hi2). reflexivity.
  - erewrite bind_ok by reflexivity. reflexivity.
Qed.

(** Reading the state such a creation leaves. *)
Variables (fops : option file_ops) (ino : Z) (i : inode).

Let x := length (inodes s).
Let s3 := with_fops fops x i (aufs_done mode ia pi a (new_dentry pa name) n ino i s1).

Lemma fresh_dcache : dcache s3 = <[(pa, name) := a]> (dcache s).
Proof.
  unfold s3, with_fops, aufs_done.
  destruct fops; destruct (Z.land mode S_IFMT =? S_IFDIR); reflexivity.
Qed.

Lemma fresh_dentries :
  dentries s3
  = <[a := set_d_count (d_count (new_dentry pa name) + 1)
             (set_d_inode (Ptr x) (new_dentry pa name))]>
      (<[pa := set_d_count (d_count b + 1) b]> (dentries s ++ [new_dentry pa name])).
Proof.
  unfold s3, with_fops, aufs_done.
  destruct fops; destruct (Z.land mode S_IFMT =? S_IFDIR); reflexivity.
Qed.

Lemma fresh_dentry_new :
  dentry_at s3 (Ptr a)
  = Some (set_d_count (d_count (new_dentry pa name) + 1)
            (set_d_inode (Ptr x) (new_dentry pa name))).
Proof.
  unfold dentry_at. rewrite fresh_dentries. apply list_lookup_insert_eq.
  rewrite length_insert, length_app. cbn. unfold a. lia.
Qed.

Lemma fresh_dentry_old c e :
  dentry_at s (Ptr c) = Some e ->
  exists e', dentry_at s3 (Ptr c) = Some e' /\ d_inode e' = d_inode e
             /\ d_name e' = d_name e /\ d_parent e' = d_parent e.
Proof.
  intros He. pose proof (dentry_at_lt _ _ _ He) as Hlt.
  unfold dentry_at in *. rewrite fresh_dentries.
  rewrite list_lookup_insert_ne by (unfold a; lia).
  destruct (decide (c = pa)) as [->|Hne].
  - rewrite list_lookup_insert_eq by (rewrite length_app; cbn; lia).
    rewrite Hb in He. inversion He; subst e. eexists. split; [reflexivity|]. auto.
  - rewrite list_lookup_insert_ne by congruence.
    rewrite lookup_app_l by lia. exists e. auto.
Qed.

Lemma fresh_inodes_length : length (inodes s3) = S (length (inodes s)).
Proof.
  unfold s3, with_fops, aufs_done.
  destruct fops; destruct (Z.land mode S_IFMT =? S_IFDIR); cbn;
    rewrite ?length_insert, length_app; cbn; lia.
Qed.

Lemma fresh_inode_new :
  inode_at s3 (Ptr x) = Some (match fops with Some f => set_i_fop f i | None => i end).
Proof.
  pose proof (inode_at_lt _ _ _ Hpi) as Hlt.
  assert (H2 : inode_at (aufs_done mode ia pi a (new_dentry pa name) n ino i s1) (Ptr x) = Some i).
  { unfold aufs_done. destruct (Z.land mode S_IFMT =? S_IFDIR).
    - rewrite inode_at_put_other by (unfold x; lia). unfold Aufs.aufs_mknod_done.
      rewrite inode_at_put_dentry. exact (inode_at_allocated_new n ino i s1).
    - unfold Aufs.aufs_mknod_done.
      rewrite inode_at_put_dentry. exact (inode_at_allocated_new n ino i s1). }
  unfold s3, with_fops. destruct fops; [|exact H2].
  exact (inode_at_put_same _ _ _ _ H2).
Qed.

Lemma fresh_inode_dir :
  inode_at s3 (Ptr ia)
  = Some (if Z.land mode S_IFMT =? S_IFDIR then set_i_nlink (u32 (i_nlink pi + 1)) pi else pi).
Proof.
  pose proof (inode_at_lt _ _ _ Hpi) as Hlt.
  assert (H0 : inode_at (Aufs.aufs_mknod_done a (new_dentry pa name) n ino i s1) (Ptr ia)
               = Some pi).
  { unfold Aufs.aufs_mknod_done. rewrite inode_at_put_dentry.
    apply inode_at_allocated_old. exact Hpi. }
  assert (H2 : inode_at (aufs_done mode ia pi a (new_dentry pa name) n ino i s1) (Ptr ia)
               = Some (if Z.land mode S_IFMT =? S_IFDIR
                       then set_i_nlink (u32 (i_nlink pi + 1)) pi else pi)).
  { unfold aufs_done. destruct (Z.land mode S_IFMT =? S_IFDIR); [|exact H0].
    exact (inode_at_put_same _ _ _ _ H0). }
  unfold s3, with_fops. destruct fops; [|exact H2].
  rewrite inode_at_put_other by (unfold x; lia). exact H2.
Qed.

Lemma fresh_inode_old y k :
  y <> ia -> inode_at s (Ptr y) = Some k -> inode_at s3 (Ptr y) = Some k.
Proof.
  intros Hne Hk. pose proof (inode_at_lt _ _ _ Hk) as Hlt.
  assert (H0 : inode_at (Aufs.aufs_mknod_done a (new_dentry pa name) n ino i s1) (Ptr y)
               = Some k).
  { unfold Aufs.aufs_mknod_done. rewrite inode_at_put_dentry.
    apply inode_at_allocated_old. exact Hk. }
  assert (H2 : inode_at (aufs_done mode ia pi a (new_dentry pa name) n ino i s1) (Ptr y)
               = Some k).
  { unfold aufs_done. destruct (Z.land mode S_IFMT =? S_IFDIR); [|exact H0].
    rewrite inode_at_put_other by congruence. exact H0. }
  unfold s3, with_fops. destruct fops; [|exact H2].
  rewrite inode_at_put_other by (unfold x; lia). exact H2.
Qed.

Lemma fresh_lookup_new : lookup s3 pa name = Some (Ptr x).
Proof.
  eapply lookup_via; [|exact fresh_dentry_new|reflexivity].
  rewrite fresh_dcache. apply lookup_insert_eq.
Qed.

Lemma fresh_lookup_old p nm :
  wf s = true -> (p, nm) <> (pa, name) -> lookup s3 p nm = lookup s p nm.
Proof.
  intros Hwf Hne. unfold lookup. rewrite fresh_dcache.
  rewrite lookup_insert_ne by congruence.
  destruct (dcache s !! (p, nm)) as [c|] eqn:Hk; [|reflexivity]. cbn.
  destruct (wf_hashed _ _ _ Hwf Hk) as (e & He & _).
  destruct (fresh_dentry_old c e He) as (e' & He' & Hi & _).
  unfold dentry_at in He'. rewrite He', He. cbn. now rewrite Hi.
Qed.

Lemma fresh_wf : wf s = true -> wf s3 = true.
Proof.
  intros Hwf.
  assert (W1 : wf s1 = true).
  { unfold s1. eapply wf_d_hash_done.
    - apply wf_d_alloc_done; [exact Hwf|exact Hb].
    - exact (d_alloc_done_new pa b name j s Hb).
    - reflexivity.
    - reflexivity. }
  assert (W2 : wf (Aufs.aufs_mknod_done a (new_dentry pa name) n ino i s1) = true).
  { unfold Aufs.aufs_mknod_done. eapply wf_put_dentry.
    - apply wf_allocated. exact W1.
    - exact fresh_dentry.
    - reflexivity.
    - reflexivity.
    - intros y Hy. cbn in Hy. inversion Hy. unfold allocated. cbn.
      rewrite length_app. cbn. lia. }
  assert (W3 : wf (aufs_done mode ia pi a (new_dentry pa name) n ino i s1) = true).
  { unfold aufs_done. destruct (Z.land mode S_IFMT =? S_IFDIR); [|exact W2].
    apply wf_put_inode. exact W2. }
  unfold s3, with_fops. destruct fops; [|exact W3]. apply wf_put_inode. exact W3.
Qed.

End Fresh.

(** Every way the dispatched creation can return. *)
Lemma by_mode_cases mode dir a s r s' :
  by_mode mode dir (Ptr a) s = Ok r s' ->
  exists de, dentry_at s (Ptr a) = Some de /\
    ((r = - EEXIST /\ s' = s /\ d_inode de <> NULL)
     \/ (r = - EPERM /\ s' = s /\ d_inode de = NULL /\ inode_slab s = O)
     \/ (exists ia pi n ino i,
           r = 0 /\ d_inode de = NULL /\ dir = Ptr ia /\ inode_at s dir = Some pi
           /\ inode_slab s = S n /\ s' = aufs_done mode ia pi a de n ino i s)).
Proof.
  unfold by_mode, aufs_done. destruct (Z.land mode S_IFMT =? S_IFDIR); intros H.
  - apply aufs_mkdir_inv in H.
    destruct H as [(Hr & Hm) | (da & d & s0 & -> & -> & Hd & Hm & Hd0 & ->)].
    + apply aufs_mknod_inv in Hm.
      destruct Hm as (a0 & de & Ea & Hde & [(-> & -> & Hp) | [(-> & -> & Hp & Hn & _) | (d & n & ino & i & -> & _)]]);
        [| |congruence]; exists de; (split; [exact Hde|]); auto 10.
    + apply aufs_mknod_inv in Hm.
      destruct Hm as (a0 & de & Ea & Hde & [(Hr & _) | [(Hr & _) | (d' & n & ino & i & _ & Hp & Hd' & Hn & _ & ->)]]);
        try discriminate.
      inversion Ea; subst a0. exists de. split; [exact Hde|]. right. right.
      rewrite Hd in Hd'. inversion Hd'; subst d'.
      exists da, d, n, ino, i. auto 10.
  - unfold Aufs.myfs_create in H. apply aufs_mknod_inv in H.
    destruct H as (a0 & de & Ea & Hde & [(-> & -> & Hp) | [(-> & -> & Hp & Hn & _) | (d & n & ino & i & -> & Hp & Hd & Hn & _ & ->)]]);
      exists de; (split; [exact Hde|]); auto 10.
    inversion Ea; subst a0. right. right.
    assert (exists ia, dir = Ptr ia) as [ia ->] by (destruct dir; try discriminate; eauto).
    exists ia, d, n, ino, i. auto 10.
Qed.

Lemma by_mode_bad_pointer mode dir e s : by_mode mode dir (ERR_PTR e) s = @Oops Z.
Proof.
  unfold by_mode, Aufs.myfs_mkdir, Aufs.myfs_create, Aufs.myfs_mknod.
  destruct (Z.land mode S_IFMT =? S_IFDIR); reflexivity.
Qed.

Lemma create_by_name_existing m name mode parent d1 s pa a x de :
  parent_of m parent = Ptr pa -> __lookup_one_len name (strlen name) = 0 ->
  bound s pa name a x -> dentry_at s (Ptr a) = Some de ->
  Aufs.myfs_create_by_name m name mode parent d1 s
  = Ok (- EEXIST, Ptr a) (put_dentry a (set_d_count (d_count de + 1) de) s).
Proof.
  intros Hp Hname (Hc & (de0 & Hde0 & Hx) & (b & pi & Hb & Hpi & Hm)) Hde.
  rewrite Hde in Hde0. inversion Hde0; subst de0.
  rewrite (create_by_name_unfold m name mode parent d1 s (Ptr pa) Hp) by discriminate.
  rewrite (bind_ok _ _ _ _ _ (load_dentry_ok _ _ _ Hb)).
  rewrite (bind_ok _ _ _ _ _ (load_inode_ok _ _ _ Hpi)).
  unfold lookup_one_len. rewrite Hname. cbn [Z.eqb negb].
  rewrite (bind_ok _ _ _ _ _ (lookup_hash_found _ _ _ _ _ _ _ Hb Hpi Hm Hc Hde)).
  erewrite bind_ok.
  2:{ eapply by_mode_eexist.
      - eapply dentry_at_put_same, Hde.
      - cbn. rewrite Hx. discriminate. }
  reflexivity.
Qed.

Lemma wf_lookup_hash name base s a s1 :
  wf s = true -> __lookup_hash name base s = Ok (Ptr a) s1 -> wf s1 = true.
Proof.
  intros Hwf H. apply lookup_hash_inv in H.
  destruct H as (pa & b & pi & -> & Hb & Hpi & Hx & [(de & Hc & Hde & ->) | (n & Hc & Hn & -> & Hl & ->)]).
  - eapply wf_put_dentry; [exact Hwf|exact Hde|reflexivity|reflexivity|].
    intros x Hi. cbn in Hi. exact (wf_no_dangling s a de x Hwf Hde Hi).
  - eapply wf_d_hash_done.
    + apply wf_d_alloc_done; [exact Hwf|exact Hb].
    + exact (d_alloc_done_new pa b name n s Hb).
    + reflexivity.
    + reflexivity.
Qed.

Lemma wf_by_mode mode dir a s r s' :
  wf s = true -> by_mode mode dir (Ptr a) s = Ok r s' -> wf s' = true.
Proof.
  intros Hwf H. destruct (by_mode_cases _ _ _ _ _ _ H) as (de & Hde & Hr).
  destruct Hr as [(_ & -> & _) | [(_ & -> & _) | (ia & pi & n & ino & i & _ & Hnull & _ & _ & _ & ->)]];
    try exact Hwf.
  assert (W : wf (Aufs.aufs_mknod_done a de n ino i s) = true).
  { unfold Aufs.aufs_mknod_done. eapply wf_put_dentry.
    - apply wf_allocated. exact Hwf.
    - exact Hde.
    - reflexivity.
    - reflexivity.
    - intros y Hy. cbn in Hy. inversion Hy. unfold allocated. cbn.
      rewrite length_app. cbn. lia. }
  unfold aufs_done. destruct (Z.land mode S_IFMT =? S_IFDIR); [|exact W].
  apply wf_put_inode. exact W.
Qed.

Lemma wf_create_by_name m name mode parent d0 s r q s' :
  wf s = true -> Aufs.myfs_create_by_name m name mode parent d0 s = Ok (r, q) s' ->
  wf s' = true.
Proof.
  intros Hwf H. apply create_by_name_inv in H.
  destruct H as [(_ & _ & -> & _) | (pa & b & pi & a & s1 & Hp & Hb & Hpi & -> & Hl & Hm)];
    [exact Hwf|].
  apply lookup_one_len_inv in Hl. destruct Hl as (_ & Hh).
  eapply wf_by_mode; [|exact Hm]. eapply wf_lookup_hash; [exact Hwf|exact Hh].
Qed.

Lemma simple_fill_super_full sbid magic s :
  inode_slab s = O \/ dentry_slab s = O ->
  exists s',
    simple_fill_super sbid magic s = Ok (- ENOMEM, Aufs.mk_sb magic NULL) s'
    /\ inode_slab s' = inode_slab s /\ dentry_slab s' = dentry_slab s
    /\ dentries s' = dentries s /\ dcache s' = dcache s
    /\ forall p, inode_at s' p = inode_at s p.
Proof.
  intros Hfull. unfold simple_fill_super.
  destruct (inode_slab s) as [|n] eqn:Hn.
  { exists s. rewrite (bind_ok _ _ _ _ _ (new_inode_2_6_full sbid s Hn)). auto 10. }
  destruct Hfull as [Hn0 | Hj]; [discriminate|].
  rewrite (bind_ok _ _ _ _ _ (new_inode_2_6_room sbid s n Hn)). cbv beta iota.
  step. step.
  erewrite bind_ok by (apply d_make_root_full; assumption).
  eexists. split; [reflexivity|]. cbn. rewrite Hn, Hj.
  repeat split. apply inode_at_released.
Qed.

End AufsOutcomes.

Module AufsProps.
Import Num Stat Errno Kernel KernelFacts DcacheFacts Aufs Boot AufsFacts Shapes WfFacts AufsOutcomes.

Lemma mode_given_isdir mode :
  S_ISDIR (mode_given mode) = (Z.land mode S_IFMT =? S_IFDIR).
Proof.
  unfold mode_given, S_ISDIR.
  destruct (Z.eqb_spec (Z.land mode S_IFMT) S_IFDIR) as [E|E].
  - rewrite Z.land_lor_distr_l, E. reflexivity.
  - apply Z.eqb_neq. intros H.
    assert (Hb : Z.testbit (Z.land (Z.lor mode S_IFREG) S_IFMT) 15 = true).
    { rewrite Z.land_spec, Z.lor_spec. change (Z.testbit S_IFREG 15) with true.
      change (Z.testbit S_IFMT 15) with true. now rewrite orb_true_r. }
    rewrite H in Hb. discriminate.
Qed.

(** X20: in a well-formed state, for a parent that is a searchable directory
    with a lookup operation, a name that [lookup_one_len] accepts and the
    cache does not have under the parent, and a dentry and an inode left,
    [myfs_create_file] returns a new dentry.  The name now looks up to a new
    inode of the mode [myfs_create_by_name] hands on ([mode_given]), owned
    by the caller, with link count 2 for a directory and 1 otherwise, and
    with the caller's file operations if any were given (a regular file
    without them keeps the empty table).  Every other name looks up to what
    it did, the parent inode gains a link for a directory and is otherwise
    unchanged, no other inode changes, and the state stays well-formed. *)
Theorem create_file_on_fresh_name m name mode parent fops pa ia b pi s :
  wf s = true ->
  parent_of m parent = Ptr pa -> dentry_at s (Ptr pa) = Some b -> d_inode b = Ptr ia ->
  inode_at s (Ptr ia) = Some pi -> may_exec pi = 0 -> has_lookup (i_op pi) = true ->
  __lookup_one_len name (strlen name) = 0 -> strlen name <= NAME_MAX ->
  dcache s !! (pa, name) = None ->
  dentry_slab s <> O -> inode_slab s <> O ->
  exists a x i s',
    Aufs.myfs_create_file m name mode parent fops s = Ok (Ptr a) s'
    /\ dentry_at s (Ptr a) = None /\ inode_at s (Ptr x) = None
    /\ lookup s' pa name = Some (Ptr x)
    /\ inode_at s' (Ptr x) = Some i
    /\ i_mode i = u16 (mode_given mode)
    /\ i_nlink i = (if Z.land mode S_IFMT =? S_IFDIR then 2 else 1)
    /\ i_uid i = fsuid (current s) /\ i_gid i = fsgid (current s)
    /\ (forall f, fops = Some f -> i_fop i = f)
    /\ (fops = None -> S_ISREG (mode_given mode) = true -> i_fop i = no_open_fops)
    /\ (forall p nm, (p, nm) <> (pa, name) -> lookup s' p nm = lookup s p nm)
    /\ inode_at s' (Ptr ia)
       = Some (if Z.land mode S_IFMT =? S_IFDIR
               then set_i_nlink (u32 (i_nlink pi + 1)) pi else pi)
    /\ (forall y k, y <> ia -> inode_at s (Ptr y) = Some k -> inode_at s' (Ptr y) = Some k)
    /\ wf s' = true.
Proof.
  intros Hwf Hp Hb Hia Hpi Hx Hlk Hname Hlen Hc Hj Hn.
  destruct (dentry_slab s) as [|j] eqn:Ej; [congruence|].
  destruct (inode_slab s) as [|n] eqn:En; [congruence|].
  destruct (create_file_fresh m name mode parent pa ia j n b pi s
              Hp Hb Hia Hpi Hx Hlk Hname Hlen Hc Ej En fops)
    as (ino & i & Hrun & Hborn & Hmade).
  destruct Hborn as (Hl & _).
  destruct Hmade as (_ & _ & Hmode & Huid & Hgid & _ & _ & Hreg & _).
  eexists (length (dentries s)), (length (inodes s)), _, _.
  split; [exact Hrun|]. split.
  { destruct (dentry_at s (Ptr (length (dentries s)))) eqn:E; [|reflexivity].
    apply dentry_at_lt in E. lia. }
  split.
  { destruct (inode_at s (Ptr (length (inodes s)))) eqn:E; [|reflexivity].
    apply inode_at_lt in E. lia. }
  split; [eapply fresh_lookup_new; eassumption|].
  split; [eapply fresh_inode_new; eassumption|].
  rewrite mode_given_isdir in Hl.
  split; [destruct fops; exact Hmode|].
  split; [destruct fops; exact Hl|].
  split; [destruct fops; exact Huid|].
  split; [destruct fops; exact Hgid|].
  split; [intros f ->; reflexivity|].
  split; [intros -> Hr; now apply Hreg|].
  split; [intros p nm Hne; eapply fresh_lookup_old; eassumption|].
  split; [eapply fresh_inode_dir; eassumption|].
  split; [intros y k Hne Hk; eapply fresh_inode_old; eassumption|].
  eapply fresh_wf; eassumption.
Qed.

(** A file named new under the root of the loaded module, with file operations of the caller. *)
Lemma create_file_on_fresh_name_witness :
  exists a x i s',
    Aufs.myfs_create_file loaded_mount "new" (Z.lor S_IFREG S_IRUGO) NULL (Some (caller_fops 7))
      loaded = Ok (Ptr a) s'
    /\ dentry_at loaded (Ptr a) = None /\ inode_at loaded (Ptr x) = None
    /\ lookup s' 0 "new" = Some (Ptr x)
    /\ inode_at s' (Ptr x) = Some i
    /\ i_mode i = u16 (mode_given (Z.lor S_IFREG S_IRUGO))
    /\ i_nlink i = (if Z.land (Z.lor S_IFREG S_IRUGO) S_IFMT =? S_IFDIR then 2 else 1)
    /\ i_uid i = fsuid (current loaded) /\ i_gid i = fsgid (current loaded)
    /\ (forall f, Some (caller_fops 7) = Some f -> i_fop i = f)
    /\ (Some (caller_fops 7) = None -> S_ISREG (mode_given (Z.lor S_IFREG S_IRUGO)) = true ->
        i_fop i = no_open_fops)
    /\ (forall p nm, (p, nm) <> (0%nat, "new") -> lookup s' p nm = lookup loaded p nm)
    /\ inode_at s' (Ptr 0)
       = Some (if Z.land (Z.lor S_IFREG S_IRUGO) S_IFMT =? S_IFDIR
               then set_i_nlink (u32 (i_nlink (the_inode loaded (Ptr 0)) + 1))
                      (the_inode loaded (Ptr 0))
               else the_inode loaded (Ptr 0))
    /\ (forall y k, y <> 0%nat -> inode_at loaded (Ptr y) = Some k -> inode_at s' (Ptr y) = Some k)
    /\ wf s' = true.
Proof.
  apply (create_file_on_fresh_name loaded_mount "new" (Z.lor S_IFREG S_IRUGO) NULL
           (Some (caller_fops 7)) 0 0 (the_dentry loaded (Ptr 0)) (the_inode loaded (Ptr 0))
           loaded).
  - vm_compute. reflexivity.
  - vm_compute. reflexivity.
  - vm_compute. reflexivity.
  - vm_compute. reflexivity.
  - vm_compute. reflexivity.
  - vm_compute. reflexivity.
  - vm_compute. reflexivity.
  - vm_compute. reflexivity.
  - vm_compute. discriminate.
  - vm_compute. reflexivity.
  - vm_compute. discriminate.
  - vm_compute. discriminate.
Defined.

(** X19: [myfs_create_by_name] hands IS_ERR the address of the caller's
    variable, not the pointer the lookup returned, so a failed lookup is
    never reported.  Whenever [lookup_one_len] returns an error pointer (an
    empty name, a name with a slash, a parent that cannot be searched, no
    dentry left, a name too long) the call goes on to dereference it and
    oopses. *)
Theorem create_by_name_oops_on_lookup_error m name mode parent d0 pa b pi s e s1 :
  parent_of m parent = Ptr pa -> dentry_at s (Ptr pa) = Some b ->
  inode_at s (d_inode b) = Some pi ->
  lookup_one_len name (Ptr pa) (strlen name) s = Ok (ERR_PTR e) s1 ->
  Aufs.myfs_create_by_name m name mode parent d0 s = Oops.
Proof.
  intros Hp Hb Hpi Hl.
  rewrite (create_by_name_unfold m name mode parent d0 s (Ptr pa) Hp) by discriminate.
  rewrite (bind_ok _ _ _ _ _ (load_dentry_ok _ _ _ Hb)).
  rewrite (bind_ok _ _ _ _ _ (load_inode_ok _ _ _ Hpi)).
  rewrite (bind_ok _ _ _ _ _ Hl).
  now rewrite (bind_ok_oops _ _ _ (by_mode_bad_pointer mode (d_inode b) e s1)).
Qed.

(** The empty name under the root of the loaded module. *)
Lemma create_by_name_oops_on_lookup_error_witness :
  Aufs.myfs_create_by_name loaded_mount "" (Z.lor S_IFREG S_IRUGO) NULL NULL loaded = Oops.
Proof.
  apply (create_by_name_oops_on_lookup_error loaded_mount "" (Z.lor S_IFREG S_IRUGO) NULL NULL
           0 (the_dentry loaded (Ptr 0)) (the_inode loaded (Ptr 0)) loaded (- EACCES) loaded).
  - vm_compute. reflexivity.
  - vm_compute. reflexivity.
  - vm_compute. reflexivity.
  - vm_compute. reflexivity.
Defined.

(** X18: a [myfs_create_by_name] that returns gives 0, [-EFAULT], [-EEXIST] or
    [-EPERM].  [-EFAULT] comes exactly when there is neither a parent nor a
    mounted root, and then nothing is changed, the caller's variable
    included; [-EEXIST] exactly when the name already looks up to an inode
    under the parent; [-EPERM] only when no inode is left, 0 only when one
    is.  Unless it returned [-EFAULT], the caller's variable holds a dentry
    that the cache now has under the parent and the name. *)
Theorem create_by_name_error_codes m name mode parent d0 s r q s' :
  Aufs.myfs_create_by_name m name mode parent d0 s = Ok (r, q) s' ->
  (r = 0 \/ r = - EFAULT \/ r = - EEXIST \/ r = - EPERM)
  /\ (r = - EFAULT <-> parent_of m parent = NULL)
  /\ (r = - EFAULT -> s' = s /\ q = d0)
  /\ (r = - EEXIST <->
      exists pa p, parent_of m parent = Ptr pa /\ lookup s pa name = Some p /\ p <> NULL)
  /\ (r = - EPERM -> inode_slab s = O)
  /\ (r = 0 -> inode_slab s <> O)
  /\ (r <> - EFAULT ->
      exists pa a, parent_of m parent = Ptr pa /\ q = Ptr a
                   /\ dcache s' !! (pa, name) = Some a).
Proof.
  intros H. apply create_by_name_inv in H.
  destruct H as [(-> & -> & -> & Hp) | (pa & b & pi & a & s1 & Hp & Hb & Hpi & -> & Hl & Hm)].
  { split; [auto|]. split; [tauto|]. split; [auto|].
    split; [split; [discriminate|intros (pa & p & Hp' & _); congruence]|].
    split; [discriminate|]. split; [discriminate|]. congruence. }
  apply lookup_one_len_inv in Hl. destruct Hl as (Hname & Hh).
  pose proof (lookup_hash_cached _ _ _ _ _ Hh) as (pa' & de1 & Epa & Hc1 & _).
  inversion Epa; subst pa'.
  apply lookup_hash_inv in Hh.
  destruct Hh as (pa' & b' & pi' & Epa' & Hb' & _ & _ & Hcase). inversion Epa'; subst pa'.
  destruct (by_mode_cases _ _ _ _ _ _ Hm) as (de & Hde & Hr).
  assert (Hcache : dcache s' !! (pa, name) = Some a).
  { destruct Hr as [(_ & -> & _) | [(_ & -> & _) | (ia & pi0 & n & ino & i & _ & _ & _ & _ & _ & ->)]];
      try exact Hc1.
    unfold aufs_done. destruct (Z.land mode S_IFMT =? S_IFDIR); exact Hc1. }
  assert (Hslab : inode_slab s1 = inode_slab s).
  { destruct Hcase as [(de0 & _ & _ & ->) | (n & _ & _ & _ & _ & ->)]; reflexivity. }
  assert (Hex : d_inode de <> NULL <->
                exists pa0 p, parent_of m parent = Ptr pa0 /\ lookup s pa0 name = Some p
                              /\ p <> NULL).
  { destruct Hcase as [(de0 & Hc & Hde0 & ->) | (n & Hc & Hn & -> & Hlen & ->)].
    - rewrite (dentry_at_put_same _ _ _ _ Hde0) in Hde. inversion Hde; subst de.
      cbn [d_inode set_d_count]. split.
      + intros Hnn. exists pa, (d_inode de0). split; [exact Hp|]. split; [|exact Hnn].
        eapply lookup_via; eauto.
      + intros (pa0 & p & Hp0 & Hlk & Hnn). rewrite Hp in Hp0. inversion Hp0; subst pa0.
        unfold lookup in Hlk. rewrite Hc in Hlk. cbn in Hlk.
        unfold dentry_at in Hde0. rewrite Hde0 in Hlk. cbn in Hlk. congruence.
    - assert (Hnew : dentry_at (d_hash_done pa name (length (dentries s))
                                  (d_alloc_done pa b' name n s)) (Ptr (length (dentries s)))
                     = Some (new_dentry pa name)).
      { exact (d_alloc_done_new pa b' name n s Hb'). }
      rewrite Hnew in Hde. inversion Hde; subst de. cbn [d_inode new_dentry]. split.
      + congruence.
      + intros (pa0 & p & Hp0 & Hlk & Hnn). rewrite Hp in Hp0. inversion Hp0; subst pa0.
        unfold lookup in Hlk. rewrite Hc in Hlk. discriminate. }
  destruct Hr as [(-> & -> & Hnn) | [(-> & -> & Hnull & Hn0) | (ia & pi0 & n & ino & i & -> & Hnull & _ & _ & Hn & _)]].
  - split; [auto|]. split; [split; [discriminate|congruence]|]. split; [discriminate|].
    split; [split; [intros _; now apply Hex|reflexivity]|].
    split; [discriminate|]. split; [discriminate|]. intros _. eauto.
  - split; [auto|]. split; [split; [discriminate|congruence]|]. split; [discriminate|].
    split; [split; [discriminate|intros Hx; apply Hex in Hx; congruence]|].
    split; [intros _; congruence|]. split; [discriminate|]. intros _. eauto.
  - split; [auto|]. split; [split; [discriminate|congruence]|]. split; [discriminate|].
    split; [split; [discriminate|intros Hx; apply Hex in Hx; congruence]|].
    split; [discriminate|]. split; [intros _; congruence|]. intros _. eauto.
Qed.

(** The name lbb, which is there, under the first directory. *)
Lemma create_by_name_error_codes_witness :
  (- EEXIST = 0 \/ - EEXIST = - EFAULT \/ - EEXIST = - EEXIST \/ - EEXIST = - EPERM)
  /\ (- EEXIST = - EFAULT <-> parent_of loaded_mount (Ptr 1) = NULL)
  /\ (- EEXIST = - EFAULT ->
      after (Aufs.myfs_create_by_name loaded_mount "lbb" (Z.lor S_IFREG S_IRUGO) (Ptr 1) NULL)
        loaded = loaded /\ Ptr 2 = NULL)
  /\ (- EEXIST = - EEXIST <->
      exists pa p, parent_of loaded_mount (Ptr 1) = Ptr pa /\ lookup loaded pa "lbb" = Some p
                   /\ p <> NULL)
  /\ (- EEXIST = - EPERM -> inode_slab loaded = O)
  /\ (- EEXIST = 0 -> inode_slab loaded <> O)
  /\ (- EEXIST <> - EFAULT ->
      exists pa a, parent_of loaded_mount (Ptr 1) = Ptr pa /\ Ptr 2 = Ptr a
        /\ dcache (after (Aufs.myfs_create_by_name loaded_mount "lbb" (Z.lor S_IFREG S_IRUGO)
                            (Ptr 1) NULL) loaded) !! (pa, "lbb") = Some a).
Proof.
  apply (create_by_name_error_codes loaded_mount "lbb" (Z.lor S_IFREG S_IRUGO) (Ptr 1) NULL loaded).
  vm_compute. reflexivity.
Defined.

(** X21: [myfs_create_file] on a name that already looks up to an inode under
    the parent returns NULL, and all it changes is the reference count of
    the existing dentry, which goes up by one: the reference the lookup took
    is not dropped. *)
Theorem create_file_existing_name m name mode parent fops s pa a x :
  parent_of m parent = Ptr pa -> __lookup_one_len name (strlen name) = 0 ->
  bound s pa name a x ->
  exists de s',
    dentry_at s (Ptr a) = Some de
    /\ Aufs.myfs_create_file m name mode parent fops s = Ok NULL s'
    /\ dentry_at s' (Ptr a) = Some (set_d_count (d_count de + 1) de)
    /\ (forall c, c <> a -> dentry_at s' (Ptr c) = dentry_at s (Ptr c))
    /\ inodes s' = inodes s /\ dcache s' = dcache s
    /\ inode_slab s' = inode_slab s /\ dentry_slab s' = dentry_slab s
    /\ forall p nm, lookup s' p nm = lookup s p nm.
Proof.
  intros Hp Hname Hbound.
  pose proof Hbound as (Hc & (de & Hde & Hx) & _).
  exists de, (put_dentry a (set_d_count (d_count de + 1) de) s).
  split; [exact Hde|]. split.
  { unfold Aufs.myfs_create_file.
    rewrite (bind_ok _ _ _ _ _
               (create_by_name_existing m name mode parent NULL s pa a x de Hp Hname Hbound Hde)).
    reflexivity. }
  split; [exact (dentry_at_put_same _ _ _ _ Hde)|].
  split; [intros c Hne; apply dentry_at_put_other; congruence|].
  split; [reflexivity|]. split; [reflexivity|]. split; [reflexivity|]. split; [reflexivity|].
  intros p nm. unfold lookup. change (dcache (put_dentry a (set_d_count (d_count de + 1) de) s))
    with (dcache s).
  destruct (dcache s !! (p, nm)) as [c|]; [|reflexivity]. cbn.
  unfold dentry_at in Hde.
  destruct (decide (c = a)) as [->|Hne].
  - rewrite list_lookup_insert_eq by (now apply lookup_lt_Some in Hde).
    rewrite Hde. reflexivity.
  - rewrite list_lookup_insert_ne by congruence. reflexivity.
Qed.

(** The file lbb under the first directory once more. *)
Lemma create_file_existing_name_witness :
  exists de s',
    dentry_at loaded (Ptr 2) = Some de
    /\ Aufs.myfs_create_file loaded_mount "lbb" (Z.lor S_IFREG S_IRUGO) (Ptr 1) None loaded
       = Ok NULL s'
    /\ dentry_at s' (Ptr 2) = Some (set_d_count (d_count de + 1) de)
    /\ (forall c, c <> 2%nat -> dentry_at s' (Ptr c) = dentry_at loaded (Ptr c))
    /\ inodes s' = inodes loaded /\ dcache s' = dcache loaded
    /\ inode_slab s' = inode_slab loaded /\ dentry_slab s' = dentry_slab loaded
    /\ forall p nm, lookup s' p nm = lookup loaded p nm.
Proof.
  apply (create_file_existing_name loaded_mount "lbb" (Z.lor S_IFREG S_IRUGO) (Ptr 1) None
           loaded 1 2 2).
  - vm_compute. reflexivity.
  - vm_compute. reflexivity.
  - split; [vm_compute; reflexivity|]. split.
    + eexists. split; vm_compute; reflexivity.
    + eexists _, _. split; [vm_compute; reflexivity|]. split; vm_compute; reflexivity.
Defined.

(** X22: [myfs_create_file] keeps the state well-formed, whatever it
    returns. *)
Theorem create_file_keeps_wf m name mode parent fops s q s' :
  wf s = true ->
  Aufs.myfs_create_file m name mode parent fops s = Ok q s' ->
  wf s' = true.
Proof.
  intros Hwf H. unfold Aufs.myfs_create_file in H.
  destruct (Aufs.myfs_create_by_name m name mode parent NULL s) as [[r q0] s1|] eqn:Hc;
    [|now rewrite (bind_ok_oops _ _ _ Hc) in H].
  rewrite (bind_ok _ _ _ _ _ Hc) in H. cbv beta iota in H.
  pose proof (wf_create_by_name _ _ _ _ _ _ _ _ _ Hwf Hc) as W1.
  destruct (Z.eqb_spec r 0) as [->|Hr]; cbn [negb] in H; [|inversion H; subst; exact W1].
  destruct (dentry_at s1 q0) as [d|] eqn:Hd;
    [|now rewrite (bind_ok_oops _ _ _ (load_dentry_oops _ _ Hd)) in H].
  rewrite (bind_ok _ _ _ _ _ (load_dentry_ok _ _ _ Hd)) in H.
  destruct (is_null (d_inode d)); cbn [negb] in H.
  { erewrite bind_ok in H by reflexivity. inversion H; subst. exact W1. }
  destruct fops as [f|].
  2:{ erewrite bind_ok in H by reflexivity. inversion H; subst. exact W1. }
  destruct (inode_at s1 (d_inode d)) as [i|] eqn:Hi.
  2:{ erewrite bind_ok_oops in H by (apply update_inode_oops; exact Hi). discriminate. }
  destruct (d_inode d) as [|x|]; try discriminate.
  erewrite bind_ok in H by exact (update_inode_ok _ _ _ (set_i_fop f) Hi).
  inversion H; subst. apply wf_put_inode. exact W1.
Qed.

(** A directory named new under the second directory. *)
Lemma create_file_keeps_wf_witness :
  wf (after (Aufs.myfs_create_file loaded_mount "new" (Z.lor S_IFDIR (oct "700")) (Ptr 5)
               (Some (caller_fops 3))) loaded) = true.
Proof.
  apply (create_file_keeps_wf loaded_mount "new" (Z.lor S_IFDIR (oct "700")) (Ptr 5)
           (Some (caller_fops 3)) loaded (Ptr 9)).
  - vm_compute. reflexivity.
  - vm_compute. reflexivity.
Defined.

(** X23: for a parent that is a searchable directory with a lookup operation, a
    name that [lookup_one_len] accepts and the cache does not have under the
    parent, and a dentry and an inode left, [myfs_create_dir] returns a new
    dentry under the parent with a new directory inode of mode S_IFDIR|0755,
    link count 2 and the simple_dir tables, and counts a link on the parent
    inode.  The new directory can be searched and has a lookup operation, so
    the dentry returned can serve as the parent of further creations. *)
Theorem create_dir_makes_directory m name parent pa ia b pi s :
  parent_of m parent = Ptr pa -> dentry_at s (Ptr pa) = Some b -> d_inode b = Ptr ia ->
  inode_at s (Ptr ia) = Some pi -> may_exec pi = 0 -> has_lookup (i_op pi) = true ->
  __lookup_one_len name (strlen name) = 0 -> strlen name <= NAME_MAX ->
  dcache s !! (pa, name) = None ->
  dentry_slab s <> O -> inode_slab s <> O ->
  exists a x i de' s',
    Aufs.myfs_create_dir m name parent s = Ok (Ptr a) s'
    /\ lookup s' pa name = Some (Ptr x)
    /\ dentry_at s' (Ptr a) = Some de' /\ d_inode de' = Ptr x
    /\ d_parent de' = pa /\ d_name de' = name
    /\ inode_at s' (Ptr x) = Some i
    /\ i_mode i = Z.lor S_IFDIR (oct "755") /\ i_nlink i = 2
    /\ i_op i = simple_dir_iops /\ i_fop i = simple_dir_fops
    /\ may_exec i = 0 /\ has_lookup (i_op i) = true
    /\ inode_at s' (Ptr ia) = Some (set_i_nlink (u32 (i_nlink pi + 1)) pi).
Proof.
  intros Hp Hb Hia Hpi Hx Hlk Hname Hlen Hc Hj Hn.
  destruct (dentry_slab s) as [|j] eqn:Ej; [congruence|].
  destruct (inode_slab s) as [|n] eqn:En; [congruence|].
  unfold Aufs.myfs_create_dir.
  set (mode := Z.lor (Z.lor (Z.lor S_IFDIR S_IRWXU) S_IRUGO) S_IXUGO).
  destruct (create_file_fresh m name mode parent pa ia j n b pi s
              Hp Hb Hia Hpi Hx Hlk Hname Hlen Hc Ej En None)
    as (ino & i & Hrun & Hborn & Hmade).
  destruct Hborn as (Hl & _).
  destruct Hmade as (_ & _ & Hmode & _ & _ & _ & _ & _ & Hdir & _).
  destruct (Hdir eq_refl) as (Hop & Hfop).
  eexists (length (dentries s)), (length (inodes s)), i, _, _.
  split; [exact Hrun|].
  split; [eapply (fresh_lookup_new name mode); eassumption|].
  split; [eapply (fresh_dentry_new name mode); eassumption|].
  split; [reflexivity|]. split; [reflexivity|]. split; [reflexivity|].
  split; [eapply fresh_inode_new with (fops := @None file_ops); eassumption|].
  split; [exact Hmode|]. split; [exact Hl|]. split; [exact Hop|]. split; [exact Hfop|].
  split; [unfold may_exec; rewrite Hmode; reflexivity|].
  split; [rewrite Hop; reflexivity|].
  eapply fresh_inode_dir with (fops := @None file_ops) (mode := mode); eassumption.
Qed.

(** A directory named more under the second directory. *)
Lemma create_dir_makes_directory_witness :
  exists a x i de' s',
    Aufs.myfs_create_dir loaded_mount "more" (Ptr 5) loaded = Ok (Ptr a) s'
    /\ lookup s' 5 "more" = Some (Ptr x)
    /\ dentry_at s' (Ptr a) = Some de' /\ d_inode de' = Ptr x
    /\ d_parent de' = 5%nat /\ d_name de' = "more"
    /\ inode_at s' (Ptr x) = Some i
    /\ i_mode i = Z.lor S_IFDIR (oct "755") /\ i_nlink i = 2
    /\ i_op i = simple_dir_iops /\ i_fop i = simple_dir_fops
    /\ may_exec i = 0 /\ has_lookup (i_op i) = true
    /\ inode_at s' (Ptr 5)
       = Some (set_i_nlink (u32 (i_nlink (the_inode loaded (Ptr 5)) + 1))
                 (the_inode loaded (Ptr 5))).
Proof.
  apply (create_dir_makes_directory loaded_mount "more" (Ptr 5) 5 5
           (the_dentry loaded (Ptr 5)) (the_inode loaded (Ptr 5)) loaded).
  - vm_compute. reflexivity.
  - vm_compute. reflexivity.
  - vm_compute. reflexivity.
  - vm_compute. reflexivity.
  - vm_compute. reflexivity.
  - vm_compute. reflexivity.
  - vm_compute. reflexivity.
  - vm_compute. discriminate.
  - vm_compute. reflexivity.
  - vm_compute. discriminate.
  - vm_compute. discriminate.
Defined.

(** X15: [myfs_get_inode] of part_000 always returns: NULL with the state
    untouched when no inode is left, otherwise a new address holding an
    inode of mode [mode] (as 16 bits), owned by the caller's fsuid and
    fsgid, with zero blocks, the three times at the clock, link count 2 for
    a directory and 1 otherwise.  A directory gets the simple_dir tables, a
    regular file keeps the empty tables of a new inode, other modes get what
    [init_special_inode] gives them.  Inodes that were there stay as they
    were. *)
Theorem aufs_get_inode_by_type sb mode dev s :
  exists p s',
    Aufs.myfs_get_inode sb mode dev s = Ok p s'
    /\ (inode_slab s = O -> p = NULL /\ s' = s)
    /\ (inode_slab s <> O ->
        exists x i,
          p = Ptr x /\ inode_at s (Ptr x) = None /\ inode_at s' (Ptr x) = Some i
          /\ (forall q j, inode_at s q = Some j -> inode_at s' q = Some j)
          /\ i_mode i = u16 mode /\ i_sb i = sb
          /\ i_uid i = fsuid (current s) /\ i_gid i = fsgid (current s) /\ i_blocks i = 0
          /\ i_atime i = now s /\ i_mtime i = now s /\ i_ctime i = now s
          /\ i_nlink i = (if S_ISDIR mode then 2 else 1)
          /\ (S_ISREG mode = true -> i_op i = empty_iops /\ i_fop i = no_open_fops)
          /\ (S_ISDIR mode = true -> i_op i = simple_dir_iops /\ i_fop i = simple_dir_fops)
          /\ (S_ISCHR mode = true -> i_fop i = def_chr_fops /\ i_rdev i = dev)
          /\ (S_ISBLK mode = true -> i_fop i = def_blk_fops /\ i_rdev i = dev)
          /\ (S_ISFIFO mode = true -> i_fop i = pipefifo_fops)).
Proof.
  destruct (inode_slab s) as [|n] eqn:Hn.
  { exists NULL, s. split; [now apply aufs_get_inode_full|]. split; [auto|congruence]. }
  destruct (aufs_get_inode_made sb mode dev s n Hn) as (ino & i & Hg & Hb & Hm).
  destruct Hb as (Hl & _ & Ha & Hmt & Hc).
  destruct Hm as (_ & Hsb & Hmode & Huid & Hgid & Hbl & _ & Hreg & Hdir & Hchr & Hblk & Hff).
  eexists _, _. split; [exact Hg|]. split; [discriminate|]. intros _.
  exists (length (inodes s)), i. split; [reflexivity|]. split.
  { destruct (inode_at s (Ptr (length (inodes s)))) eqn:E; [|reflexivity].
    apply inode_at_lt in E. lia. }
  split; [apply inode_at_allocated_new|].
  split; [intros q j; apply inode_at_allocated_old|].
  repeat (split; [assumption|]). assumption.
Qed.

(** X16: a [myfs_mknod] of part_000 that returns gives 0, [-EEXIST] or
    [-EPERM].  On an error the state is untouched; [-EEXIST] comes exactly
    when the dentry already has an inode, [-EPERM] only when no inode is
    left.  In no case is the directory inode written or the dentry cache
    changed.  On 0 the dentry has gained a reference and a new inode of mode
    [mode], owned by the caller, stamped with the clock, and the slab has
    one inode less. *)
Theorem aufs_mknod_outcome dir dentry mode dev s r s' :
  Aufs.myfs_mknod dir dentry mode dev s = Ok r s' ->
  (r = 0 \/ r = - EEXIST \/ r = - EPERM)
  /\ (r <> 0 -> s' = s)
  /\ (r = - EEXIST <-> exists de, dentry_at s dentry = Some de /\ d_inode de <> NULL)
  /\ (r = - EPERM -> inode_slab s = O)
  /\ inode_at s' dir = inode_at s dir
  /\ dcache s' = dcache s
  /\ (r = 0 ->
      exists a de x i,
        dentry = Ptr a /\ dentry_at s dentry = Some de /\ d_inode de = NULL
        /\ inode_at s (Ptr x) = None /\ inode_at s' (Ptr x) = Some i
        /\ dentry_at s' dentry = Some (set_d_count (d_count de + 1) (set_d_inode (Ptr x) de))
        /\ i_mode i = u16 mode
        /\ i_nlink i = (if S_ISDIR mode then 2 else 1)
        /\ i_uid i = fsuid (current s) /\ i_gid i = fsgid (current s)
        /\ i_atime i = now s /\ i_mtime i = now s /\ i_ctime i = now s
        /\ S (inode_slab s') = inode_slab s).
Proof.
  intros H. pose proof (aufs_mknod_inv _ _ _ _ _ _ _ H) as
    (a & de & -> & Hde & [(-> & -> & Hp) | [(-> & -> & Hp & Hn & _) | (d & n & ino & i & -> & Hp & Hd & Hn & _ & _)]]).
  - split; [auto|]. split; [auto|]. split; [split; [eauto|reflexivity]|].
    split; [discriminate|]. split; [reflexivity|]. split; [reflexivity|]. discriminate.
  - split; [auto|]. split; [auto|].
    split; [split; [discriminate|intros (de' & Hde' & Hnn); congruence]|].
    split; [auto|]. split; [reflexivity|]. split; [reflexivity|]. discriminate.
  - destruct (aufs_mknod_made dir a mode dev s de d n Hde Hp Hd Hn) as (ino' & i' & Hm & Hb & Hmade).
    rewrite Hm in H. inversion H; subst s'.
    destruct Hb as (Hl & _ & Hat & Hmt & Hct).
    destruct Hmade as (_ & _ & Hmode & Huid & Hgid & _).
    split; [auto|]. split; [congruence|].
    split; [split; [discriminate|intros (de' & Hde' & Hnn); congruence]|].
    split; [discriminate|]. split.
    { unfold Aufs.aufs_mknod_done. rewrite inode_at_put_dentry.
      rewrite Hd. now apply inode_at_allocated_old. }
    split; [reflexivity|]. intros _.
    exists a, de, (length (inodes s)), i'.
    split; [reflexivity|]. split; [exact Hde|]. split; [exact Hp|]. split.
    { destruct (inode_at s (Ptr (length (inodes s)))) eqn:E; [|reflexivity].
      apply inode_at_lt in E. lia. }
    split; [unfold Aufs.aufs_mknod_done; rewrite inode_at_put_dentry;
            apply inode_at_allocated_new|].
    split; [unfold Aufs.aufs_mknod_done; eapply dentry_at_put_same; exact Hde|].
    cbn. rewrite Hn. auto 10.
Qed.

(** A fifo behind the negative dentry of the name new. *)
Lemma aufs_mknod_outcome_witness :
  (0 = 0 \/ 0 = - EEXIST \/ 0 = - EPERM)
  /\ (0 <> 0 ->
      after (Aufs.myfs_mknod (Ptr 0) (Ptr 9) (Z.lor S_IFIFO (oct "600")) 0) loaded_negative
      = loaded_negative)
  /\ (0 = - EEXIST <->
      exists de, dentry_at loaded_negative (Ptr 9) = Some de /\ d_inode de <> NULL)
  /\ (0 = - EPERM -> inode_slab loaded_negative = O)
  /\ inode_at (after (Aufs.myfs_mknod (Ptr 0) (Ptr 9) (Z.lor S_IFIFO (oct "600")) 0)
                 loaded_negative) (Ptr 0)
     = inode_at loaded_negative (Ptr 0)
  /\ dcache (after (Aufs.myfs_mknod (Ptr 0) (Ptr 9) (Z.lor S_IFIFO (oct "600")) 0)
               loaded_negative) = dcache loaded_negative
  /\ (0 = 0 ->
      exists a de x i,
        Ptr 9 = Ptr a /\ dentry_at loaded_negative (Ptr 9) = Some de /\ d_inode de = NULL
        /\ inode_at loaded_negative (Ptr x) = None
        /\ inode_at (after (Aufs.myfs_mknod (Ptr 0) (Ptr 9) (Z.lor S_IFIFO (oct "600")) 0)
                       loaded_negative) (Ptr x) = Some i
        /\ dentry_at (after (Aufs.myfs_mknod (Ptr 0) (Ptr 9) (Z.lor S_IFIFO (oct "600")) 0)
                        loaded_negative) (Ptr 9)
           = Some (set_d_count (d_count de + 1) (set_d_inode (Ptr x) de))
        /\ i_mode i = u16 (Z.lor S_IFIFO (oct "600"))
        /\ i_nlink i = (if S_ISDIR (Z.lor S_IFIFO (oct "600")) then 2 else 1)
        /\ i_uid i = fsuid (current loaded_negative)
        /\ i_gid i = fsgid (current loaded_negative)
        /\ i_atime i = now loaded_negative /\ i_mtime i = now loaded_negative
        /\ i_ctime i = now loaded_negative
        /\ S (inode_slab (after (Aufs.myfs_mknod (Ptr 0) (Ptr 9) (Z.lor S_IFIFO (oct "600")) 0)
                            loaded_negative)) = inode_slab loaded_negative).
Proof.
  apply (aufs_mknod_outcome (Ptr 0) (Ptr 9) (Z.lor S_IFIFO (oct "600")) 0 loaded_negative).
  vm_compute. reflexivity.
Defined.

(** X24: when registration failed, or it succeeded and the mount could not get
    an inode or a dentry, [myfs_init] returns what [register_filesystem]
    returned (0 in the second case, although nothing is mounted) and leaves
    no inode, dentry or cache entry behind.  After a failed registration
    every creation finds no parent and the state is untouched; after a
    failed mount [myfs_mount] holds the error pointer for [-ENOMEM]. *)
Theorem init_without_mount sbid registered s :
  registered <> 0 \/ inode_slab s = O \/ dentry_slab s = O ->
  exists m s',
    Aufs.myfs_init sbid registered s = Ok (registered, m) s'
    /\ (registered <> 0 -> m = mnt_NULL /\ s' = s)
    /\ (registered = 0 -> m = mnt_ERR (- ENOMEM))
    /\ inode_slab s' = inode_slab s /\ dentry_slab s' = dentry_slab s
    /\ dentries s' = dentries s /\ dcache s' = dcache s
    /\ forall p, inode_at s' p = inode_at s p.
Proof.
  intros H. destruct (Z.eqb_spec registered 0) as [->|Hr].
  - assert (Hfull : inode_slab s = O \/ dentry_slab s = O) by (destruct H; [congruence|assumption]).
    destruct (simple_fill_super_full sbid AUFS_MAGIC s Hfull) as (s' & Hf & Hkeep).
    exists (mnt_ERR (- ENOMEM)), s'. split.
    { unfold Aufs.myfs_init, kern_mount, Aufs.myfs_fill_super.
      change (0 =? 0) with true. cbv iota. rewrite ?bind_assoc.
      rewrite (bind_ok _ _ _ _ _ Hf). reflexivity. }
    split; [congruence|]. split; [reflexivity|]. exact Hkeep.
  - exists mnt_NULL, s. split.
    { unfold Aufs.myfs_init. apply Z.eqb_neq in Hr. rewrite Hr. reflexivity. }
    split; [auto|]. split; [congruence|]. auto 10.
Qed.

(** Loading the module with no dentry left. *)
Lemma init_without_mount_witness :
  exists m s',
    Aufs.myfs_init 0 0 (set_dentry_slab 0 (boot 20 1000)) = Ok (0, m) s'
    /\ (0 <> 0 -> m = mnt_NULL /\ s' = set_dentry_slab 0 (boot 20 1000))
    /\ (0 = 0 -> m = mnt_ERR (- ENOMEM))
    /\ inode_slab s' = inode_slab (set_dentry_slab 0 (boot 20 1000))
    /\ dentry_slab s' = dentry_slab (set_dentry_slab 0 (boot 20 1000))
    /\ dentries s' = dentries (set_dentry_slab 0 (boot 20 1000))
    /\ dcache s' = dcache (set_dentry_slab 0 (boot 20 1000))
    /\ forall p, inode_at s' p = inode_at (set_dentry_slab 0 (boot 20 1000)) p.
Proof.
  apply (init_without_mount 0 0 (set_dentry_slab 0 (boot 20 1000))).
  right. right. vm_compute. reflexivity.
Defined.

(** X25: in a kernel that holds no inode and no dentry yet, with at least nine
    of each left, [myfs_init] after a successful registration returns 0 with
    the file system mounted and builds this tree: the directories woman star
    and man star under the root, the files lbb, fbb and ljl in the first and
    ldh, lcw and jw in the second.  The six files are regular files of mode
    0444 with link count 1 and no file operations, the two directories have
    mode 0755 and link count 2, the root has link count 4; nine inodes and
    nine dentries are in use and the state is well-formed. *)
Theorem init_builds_tree sbid n j pp kp t c :
  exists v s',
    Aufs.myfs_init sbid 0 (pristine (9 + n) (9 + j) pp kp t c) = Ok (0, mnt_at v) s'
    /\ mnt_sb v = Some (Aufs.mk_sb AUFS_MAGIC (Ptr 0))
    /\ lookup s' 0 "woman star" = Some (Ptr 1)
    /\ lookup s' 1 "lbb" = Some (Ptr 2)
    /\ lookup s' 1 "fbb" = Some (Ptr 3)
    /\ lookup s' 1 "ljl" = Some (Ptr 4)
    /\ lookup s' 0 "man star" = Some (Ptr 5)
    /\ lookup s' 5 "ldh" = Some (Ptr 6)
    /\ lookup s' 5 "lcw" = Some (Ptr 7)
    /\ lookup s' 5 "jw" = Some (Ptr 8)
    /\ Forall (fun x => exists i, inode_at s' (Ptr x) = Some i
                 /\ i_mode i = Z.lor S_IFREG S_IRUGO /\ i_nlink i = 1
                 /\ i_fop i = no_open_fops /\ i_mtime i = t)
         [2; 3; 4; 6; 7; 8]%nat
    /\ Forall (fun x => exists i, inode_at s' (Ptr x) = Some i
                 /\ i_mode i = Z.lor S_IFDIR (oct "755") /\ i_nlink i = 2
                 /\ i_op i = simple_dir_iops /\ i_fop i = simple_dir_fops)
         [1; 5]%nat
    /\ (exists i, inode_at s' (Ptr 0) = Some i
          /\ i_mode i = Z.lor S_IFDIR (oct "755") /\ i_nlink i = 4)
    /\ length (inodes s') = 9%nat /\ length (dentries s') = 9%nat
    /\ inode_slab s' = n /\ dentry_slab s' = j
    /\ wf s' = true.
Proof.
  exists (mk_mnt (Some (Aufs.mk_sb AUFS_MAGIC (Ptr 0)))),
         (after (Aufs.myfs_init sbid 0) (pristine (9 + n) (9 + j) pp kp t c)).
  split; [vm_compute; reflexivity|].
  repeat (split; [vm_compute; reflexivity|]).
  split.
  { repeat (constructor; [eexists; split; [vm_compute; reflexivity|];
                          repeat split; vm_compute; reflexivity|]). constructor. }
  split.
  { repeat (constructor; [eexists; split; [vm_compute; reflexivity|];
                          repeat split; vm_compute; reflexivity|]). constructor. }
  split.
  { eexists; split; [vm_compute; reflexivity|]. split; vm_compute; reflexivity. }
  repeat (split; [vm_compute; reflexivity|]).
  vm_compute. reflexivity.
Qed.

End AufsProps.
